(** * SessionCast agent: relay links, capture scheduler, orchestrator

    A shallow embedding of the connection and session-orchestration core
    of the SessionCast agent (src/agent/websocket.ts, api-client.ts,
    session-handler.ts, runner.ts, with the text functions of
    tmux-executor.ts and the admission check of exec-service.ts), and
    the properties of its specification that were checked against it.

    Conventions.
    - Objects are records; a method is a function from the state before
      the call to the state after it.
    - What a method asks of its environment ([Date.now()],
      [Math.random()], whether [new WebSocket] or [ws.send] throws, what
      the tmux capability returns) is an explicit argument.
    - Sockets and timers live in a small world next to the object that
      owns them: a handler registered with [ws.on] or [setTimeout] is run
      by the matching event of the step function.
    - A string of the model is a sequence of 8-bit characters. Screen
      contents are the UTF-8 bytes of the captured text, and so is the
      text [parseInt] reads; session names are taken one code unit per
      character.
    - A [Map] is the list of its entries in insertion order. *)

From Stdlib Require Import ZArith Lia Ascii.
From stdpp Require Import gmap strings list fin_maps pretty.

Local Open Scope Z_scope.
Local Set Warnings "-register-all,-clear-no-such-hyp".

(** ** IEEE-754 doubles, as far as the backoff arithmetic needs them

    Every number that occurs in [Math.random() * delay * 0.5] and in
    [delay + jitter] is a non-negative multiple of 2^-54 far inside the
    normal range, so it is represented exactly by the integer
    [x * 2^54]. Rounding to nearest, ties to even, to a 53-bit
    significand acts on that integer. *)
Module Double.

Definition PRECISION : Z := 53.
Definition SCALE : Z := 54.

(** Number of low bits that do not fit in the significand. *)
Definition excess (x : Z) : Z := Z.log2 x + 1 - PRECISION.

(** Round to nearest representable value, ties to even. *)
Definition round (x : Z) : Z :=
  let s := excess x in
  if s <=? 0 then x
  else
    let q := x / 2 ^ s in
    let r := x mod 2 ^ s in
    let half := 2 ^ (s - 1) in
    let q' := if (half <? r) || ((r =? half) && Z.odd q) then q + 1 else q in
    q' * 2 ^ s.

(** The double of an integer below 2^53. *)
Definition of_int (n : Z) : Z := n * 2 ^ SCALE.

(** [Math.random()]: 53 random bits [k] scaled by 2^-53. *)
Definition random (k : Z) : Z := 2 * k.

(** [x * n] for an integer-valued double [n]. *)
Definition mul_int (x n : Z) : Z := round (x * n).

(** [x * 0.5]: exact. *)
Definition halve (x : Z) : Z := x / 2.

(** [x + y]. *)
Definition add (x y : Z) : Z := round (x + y).

(** [Math.floor(x)]. *)
Definition floor (x : Z) : Z := x / 2 ^ SCALE.

End Double.

(** ** Wire messages (types.ts) *)

Record Message := mkMessage {
  type : string;
  role : option string;
  session : option string;
  payload : option string;
  meta : option (gmap string string)
}.

Record AgentConfig := mkConfig {
  machineId : string;
  relay : string;
  token : string
}.

(** A template placeholder [${x}] prints a missing value as "undefined". *)
Definition tmpl (x : option string) : string := default "undefined" x.

(** JavaScript truthiness of an optional string. *)
Definition truthy (x : option string) : bool :=
  match x with
  | Some s => negb (String.eqb s "")
  | None => false
  end.

(** [buf.toString('base64')]. *)
Module Base64.

Definition alphabet : string :=
  "ABCDEFGHIJKLMNOPQRSTUVWXYZabcdefghijklmnopqrstuvwxyz0123456789+/".

Definition digit (n : N) : ascii :=
  match String.get (N.to_nat n) alphabet with
  | Some c => c
  | None => "="%char
  end.

Definition code (c : ascii) : N := Ascii.N_of_ascii c.

Definition cons4 (a b c d : ascii) (s : string) : string :=
  String a (String b (String c (String d s))).

Fixpoint encode (data : string) : string :=
  match data with
  | EmptyString => EmptyString
  | String a EmptyString =>
      let x := code a in
      cons4 (digit (x / 4)) (digit ((x mod 4) * 16)) "=" "=" EmptyString
  | String a (String b EmptyString) =>
      let x := code a in
      let y := code b in
      cons4 (digit (x / 4)) (digit ((x mod 4) * 16 + y / 16))
            (digit ((y mod 16) * 4)) "=" EmptyString
  | String a (String b (String c rest)) =>
      let x := code a in
      let y := code b in
      let z := code c in
      cons4 (digit (x / 4)) (digit ((x mod 4) * 16 + y / 16))
            (digit ((y mod 16) * 4 + z / 64)) (digit (z mod 64))
            (encode rest)
  end%N.

End Base64.

(** ** What the environment supplies to one handler run *)

Record Env := mkEnv {
  Date_now : Z;               (* Date.now(), milliseconds *)
  Math_random : Z;            (* the 53 bits of Math.random() *)
  WebSocket_ok : bool;        (* false: [new WebSocket(url)] throws *)
  ws_send_ok : bool;          (* false: [ws.send(data)] throws *)
  gzipSync : string -> option string   (* None: zlib.gzipSync throws *)
}.

(** ** Sockets of the ws library and Node timers *)
Module Runtime.

Inductive ReadyState := CONNECTING | OPEN | CLOSING | CLOSED.

Record Socket := mkSocket { socket_id : nat; readyState : ReadyState }.

(** The two closures the client hands to [setTimeout]. *)
Inductive Callback :=
| CbScheduleReconnect      (* () => this.scheduleReconnect() *)
| CbConnect.               (* () => { if (!isConnected && !destroyed) connect() } *)

Record Timer := mkTimer { timer_id : nat; due : Z; callback : Callback }.

Definition remove_timer (id : nat) (ts : list Timer) : list Timer :=
  List.filter (fun t => negb (Nat.eqb (timer_id t) id)) ts.

Definition socket_state (id : nat) (ss : list Socket) : option ReadyState :=
  readyState <$> List.find (fun s => Nat.eqb (socket_id s) id) ss.

(** The socket [id] moves along [f]. *)
Definition transition (id : nat) (f : ReadyState -> ReadyState)
    (ss : list Socket) : list Socket :=
  List.map (fun s => if Nat.eqb (socket_id s) id
                     then mkSocket id (f (readyState s)) else s) ss.

(** the handshake completes *)
Definition opened (st : ReadyState) : ReadyState :=
  match st with CONNECTING => OPEN | _ => st end.

(** [ws.close()]: a socket that is connecting or open starts closing *)
Definition closing (st : ReadyState) : ReadyState :=
  match st with CONNECTING | OPEN => CLOSING | _ => st end.

(** the connection is gone *)
Definition closed (st : ReadyState) : ReadyState := CLOSED.

Definition is_live (s : Socket) : bool :=
  match readyState s with CLOSED => false | _ => true end.

Definition find_timer (id : nat) (ts : list Timer) : option Timer :=
  List.find (fun t => Nat.eqb (timer_id t) id) ts.

End Runtime.

(** ** Relay Link: RelayWebSocketClient (websocket.ts) *)
Module Relay.
Import Runtime.

Definition MAX_RECONNECT_ATTEMPTS : Z := 5.
Definition BASE_RECONNECT_DELAY_MS : Z := 2000.
Definition MAX_RECONNECT_DELAY_MS : Z := 60000.
Definition CIRCUIT_BREAKER_DURATION_MS : Z := 120000.

Record WebSocketClientOptions := mkOptions {
  url : string;
  sessionId : string;
  machineId : string;
  token : string;
  label : string
}.

(** Events the client emits to its listeners. *)
(** A Number as [parseInt] returns it: NaN, an integer-valued double
    with its sign (so that -0 is told from 0), or an infinity. *)
Inductive Number :=
| NaN
| Finite (negative : bool) (magnitude : Z)
| Infinity (negative : bool).

Definition isNaN (n : Number) : bool :=
  match n with NaN => true | _ => false end.

Inductive Emitted :=
| EConnected
| EDisconnected (code : Z) (reason : string)
| EKeys (keys : string)
| EResize (cols rows : Number)
| ECreateSession (name : string)
| EKillSession
| EError
| EMessage (m : Message).

(** What a run leaves behind outside the object. *)
Inductive Action :=
| Emit (e : Emitted)
| ConsoleError (line : string)
| NewWebSocket (id : option nat)      (* None: the constructor threw *)
| WsSend (id : nat) (m : Message)
| WsClose (id : nat)
| SetTimeout (id : nat) (cb : Callback) (delay : Z)
| ClearTimeout (id : nat)
| ProcessExit (status : Z).

(** The object's fields, then the sockets and timers it created. *)
Record Client := mkClient {
  options : WebSocketClientOptions;
  ws : option nat;
  autoReconnect : bool;
  isConnected : bool;
  reconnectAttempts : Z;
  circuitBreakerOpen : bool;
  circuitBreakerResetTime : Z;
  reconnectTimer : option nat;
  destroyed : bool;
  sockets : list Socket;
  timers : list Timer;
  next_id : nat;
  exited : option Z;
  trace : list Action
}.

Definition set_ws v c := mkClient (options c) v (autoReconnect c) (isConnected c) (reconnectAttempts c) (circuitBreakerOpen c) (circuitBreakerResetTime c) (reconnectTimer c) (destroyed c) (sockets c) (timers c) (next_id c) (exited c) (trace c).
Definition set_autoReconnect v c := mkClient (options c) (ws c) v (isConnected c) (reconnectAttempts c) (circuitBreakerOpen c) (circuitBreakerResetTime c) (reconnectTimer c) (destroyed c) (sockets c) (timers c) (next_id c) (exited c) (trace c).
Definition set_isConnected v c := mkClient (options c) (ws c) (autoReconnect c) v (reconnectAttempts c) (circuitBreakerOpen c) (circuitBreakerResetTime c) (reconnectTimer c) (destroyed c) (sockets c) (timers c) (next_id c) (exited c) (trace c).
Definition set_reconnectAttempts v c := mkClient (options c) (ws c) (autoReconnect c) (isConnected c) v (circuitBreakerOpen c) (circuitBreakerResetTime c) (reconnectTimer c) (destroyed c) (sockets c) (timers c) (next_id c) (exited c) (trace c).
Definition set_circuitBreakerOpen v c := mkClient (options c) (ws c) (autoReconnect c) (isConnected c) (reconnectAttempts c) v (circuitBreakerResetTime c) (reconnectTimer c) (destroyed c) (sockets c) (timers c) (next_id c) (exited c) (trace c).
Definition set_circuitBreakerResetTime v c := mkClient (options c) (ws c) (autoReconnect c) (isConnected c) (reconnectAttempts c) (circuitBreakerOpen c) v (reconnectTimer c) (destroyed c) (sockets c) (timers c) (next_id c) (exited c) (trace c).
Definition set_reconnectTimer v c := mkClient (options c) (ws c) (autoReconnect c) (isConnected c) (reconnectAttempts c) (circuitBreakerOpen c) (circuitBreakerResetTime c) v (destroyed c) (sockets c) (timers c) (next_id c) (exited c) (trace c).
Definition set_destroyed v c := mkClient (options c) (ws c) (autoReconnect c) (isConnected c) (reconnectAttempts c) (circuitBreakerOpen c) (circuitBreakerResetTime c) (reconnectTimer c) v (sockets c) (timers c) (next_id c) (exited c) (trace c).
Definition set_sockets v c := mkClient (options c) (ws c) (autoReconnect c) (isConnected c) (reconnectAttempts c) (circuitBreakerOpen c) (circuitBreakerResetTime c) (reconnectTimer c) (destroyed c) v (timers c) (next_id c) (exited c) (trace c).
Definition set_timers v c := mkClient (options c) (ws c) (autoReconnect c) (isConnected c) (reconnectAttempts c) (circuitBreakerOpen c) (circuitBreakerResetTime c) (reconnectTimer c) (destroyed c) (sockets c) v (next_id c) (exited c) (trace c).
Definition set_next_id v c := mkClient (options c) (ws c) (autoReconnect c) (isConnected c) (reconnectAttempts c) (circuitBreakerOpen c) (circuitBreakerResetTime c) (reconnectTimer c) (destroyed c) (sockets c) (timers c) v (exited c) (trace c).
Definition set_exited v c := mkClient (options c) (ws c) (autoReconnect c) (isConnected c) (reconnectAttempts c) (circuitBreakerOpen c) (circuitBreakerResetTime c) (reconnectTimer c) (destroyed c) (sockets c) (timers c) (next_id c) v (trace c).
Definition set_trace v c := mkClient (options c) (ws c) (autoReconnect c) (isConnected c) (reconnectAttempts c) (circuitBreakerOpen c) (circuitBreakerResetTime c) (reconnectTimer c) (destroyed c) (sockets c) (timers c) (next_id c) (exited c) v.

(** *** The world outside the object *)

Definition act (a : Action) (c : Client) : Client :=
  set_trace (trace c ++ [a]) c.

Definition emit (e : Emitted) (c : Client) : Client := act (Emit e) c.

(** [setTimeout(cb, delay)] returns the handle of a new pending timer. *)
Definition setTimeout (now : Z) (cb : Callback) (delay : Z) (c : Client)
  : nat * Client :=
  let id := next_id c in
  (id, act (SetTimeout id cb delay)
         (set_next_id (S id)
           (set_timers (timers c ++ [mkTimer id (now + delay) cb]) c))).

Definition clearTimeout (id : nat) (c : Client) : Client :=
  act (ClearTimeout id) (set_timers (remove_timer id (timers c)) c).

(** Sockets the client created that are not closed yet. *)
Definition live_sockets (c : Client) : list Socket :=
  List.filter is_live (sockets c).

(** [ws.close()] *)
Definition ws_close (id : nat) (c : Client) : Client :=
  act (WsClose id) (set_sockets (transition id closing (sockets c)) c).

(** Calls of [new WebSocket(url)] so far. *)
Definition is_attempt (a : Action) : bool :=
  match a with NewWebSocket _ => true | _ => false end.

Definition connection_attempts (c : Client) : nat :=
  length (List.filter is_attempt (trace c)).

(** *** Reconnect delay (scheduleReconnect, lines 200-206) *)

(** [Math.min(BASE * Math.pow(2, attempts - 1), MAX)]: integers below
    2^53, exact as doubles. *)
Definition backoff (attempts : Z) : Z :=
  Z.min (BASE_RECONNECT_DELAY_MS * 2 ^ (attempts - 1)) MAX_RECONNECT_DELAY_MS.

(** [Math.random() * delay * 0.5] *)
Definition jitter (rnd delay : Z) : Z :=
  Double.halve (Double.mul_int (Double.random rnd) delay).

(** [Math.floor(delay + jitter)] *)
Definition reconnectDelay (attempts rnd : Z) : Z :=
  let delay := backoff attempts in
  Double.floor (Double.add (Double.of_int delay) (jitter rnd delay)).

(** *** Methods *)

(** constructor *)
Definition new_client (url sessionId machineId token : string)
    (label : option string) (autoReconnect : option bool) : Client :=
  {| options := mkOptions url sessionId machineId token
                  (if truthy label then default sessionId label else sessionId);
     ws := None;
     autoReconnect := default true autoReconnect;
     isConnected := false;
     reconnectAttempts := 0;
     circuitBreakerOpen := false;
     circuitBreakerResetTime := 0;
     reconnectTimer := None;
     destroyed := false;
     sockets := [];
     timers := [];
     next_id := 0%nat;
     exited := None;
     trace := [] |}.

(** send(message): false without effect unless the socket is open. *)
Definition send (env : Env) (message : Message) (c : Client) : bool * Client :=
  match ws c with
  | None => (false, c)
  | Some id =>
      match socket_state id (sockets c) with
      | Some OPEN =>
          if ws_send_ok env then (true, act (WsSend id message) c)
          else (false, c)
      | _ => (false, c)
      end
  end.

Definition registerAsHost (env : Env) (c : Client) : Client :=
  let o := options c in
  let meta : gmap string string :=
    <["machineId" := machineId o]> (<["label" := label o]> ∅) in
  let meta := if truthy (Some (token o)) then <["token" := token o]> meta
              else meta in
  (send env (mkMessage "register" (Some "host") (Some (sessionId o)) None
               (Some meta)) c).2.

Definition sendScreen (env : Env) (data : string) (c : Client) : bool * Client :=
  if negb (isConnected c) then (false, c)
  else send env (mkMessage "screen" None (Some (sessionId (options c)))
                   (Some (Base64.encode data)) None) c.

Definition sendScreenCompressed (env : Env) (data : string) (c : Client)
  : bool * Client :=
  if negb (isConnected c) then (false, c)
  else match gzipSync env data with
       | Some compressed =>
           send env (mkMessage "screenGz" None (Some (sessionId (options c)))
                       (Some (Base64.encode compressed)) None) c
       | None => sendScreen env data c
       end.

Definition getConnected (c : Client) : bool := isConnected c.

Definition destroy (c : Client) : Client :=
  let c := set_autoReconnect false (set_destroyed true c) in
  let c := match reconnectTimer c with
           | Some id => set_reconnectTimer None (clearTimeout id c)
           | None => c
           end in
  match ws c with
  | Some id => set_ws None (ws_close id c)
  | None => c
  end.

Definition scheduleReconnect (env : Env) (c : Client) : Client :=
  if destroyed c then c
  else if circuitBreakerOpen c && (Date_now env <? circuitBreakerResetTime c) then
    let (id, c) := setTimeout (Date_now env) CbScheduleReconnect
                     (circuitBreakerResetTime c - Date_now env) c in
    set_reconnectTimer (Some id) c
  else
    let c := if circuitBreakerOpen c
             then set_reconnectAttempts 0 (set_circuitBreakerOpen false c)
             else c in
    let c := set_reconnectAttempts (reconnectAttempts c + 1) c in
    if MAX_RECONNECT_ATTEMPTS <? reconnectAttempts c then
      let c := set_circuitBreakerOpen true c in
      let c := set_circuitBreakerResetTime
                 (Date_now env + CIRCUIT_BREAKER_DURATION_MS) c in
      let c := set_reconnectAttempts 0 c in
      let (id, c) := setTimeout (Date_now env) CbScheduleReconnect
                       CIRCUIT_BREAKER_DURATION_MS c in
      set_reconnectTimer (Some id) c
    else
      let (id, c) := setTimeout (Date_now env) CbConnect
                       (reconnectDelay (reconnectAttempts c) (Math_random env)) c in
      set_reconnectTimer (Some id) c.

(** connect(): the socket's handlers are the [on_*] functions below. *)
Definition connect (env : Env) (c : Client) : Client :=
  if destroyed c then c
  else if WebSocket_ok env then
    let id := next_id c in
    act (NewWebSocket (Some id))
      (set_ws (Some id)
        (set_next_id (S id)
          (set_sockets (sockets c ++ [mkSocket id CONNECTING]) c)))
  else
    let c := emit EError (act (NewWebSocket None) c) in
    if autoReconnect c && negb (destroyed c) then scheduleReconnect env c
    else c.

(** The lines of the notice printed for LIMIT_EXCEEDED (lines 151-159). *)
Definition limit_notice (meta : gmap string string) : list string :=
  let bar := "============================================================" in
  [ bar;
    "SESSION LIMIT EXCEEDED";
    bar;
    "Resource: " +:+ tmpl (meta !! "resource");
    "Current: " +:+ tmpl (meta !! "current") +:+ ", Max: " +:+ tmpl (meta !! "max");
    "Message: " +:+ tmpl (meta !! "messageEn");
    "한국어: " +:+ tmpl (meta !! "messageKo");
    "Upgrade at: " +:+ tmpl (meta !! "upgradeUrl");
    bar ].

(** One [console.error] call per line. *)
Definition console_error (lines : list string) (c : Client) : Client :=
  foldl (fun c line => act (ConsoleError line) c) c lines.

Definition handleError (message : Message) (c : Client) : Client :=
  match meta message with
  | None => c
  | Some meta =>
      if decide (meta !! "code" = Some "LIMIT_EXCEEDED") then
        let c := console_error (limit_notice meta) c in
        let c := set_autoReconnect false c in
        let c := destroy c in
        act (ProcessExit 1) (set_exited (Some 1) c)
      else
        console_error
          ["Error: code=" +:+ tmpl (meta !! "code")
             +:+ ", message=" +:+ tmpl (meta !! "messageEn")] c
  end.

(** [parseInt(s, 10)]: leading white space, an optional sign, then
    decimal digits up to the first other character. The text is given
    by its UTF-8 bytes. StrWhiteSpaceChar is TAB, LF, VT, FF, CR and SP,
    one byte each; U+00A0 (C2 A0); U+1680 (E1 9A 80); U+2000 to U+200A,
    U+2028, U+2029 and U+202F (E2 80 followed by 80 to 8A, A8, A9, AF);
    U+205F (E2 81 9F); U+3000 (E3 80 80); U+FEFF (EF BB BF). *)
Definition is_blank (a : ascii) : bool :=
  let n := Ascii.N_of_ascii a in
  ((9 <=? n) && (n <=? 13) || (n =? 32))%N.

Definition is_blank2 (a b : ascii) : bool :=
  ((Ascii.N_of_ascii a =? 194) && (Ascii.N_of_ascii b =? 160))%N.

Definition is_blank3 (a b c : ascii) : bool :=
  let x := Ascii.N_of_ascii a in
  let y := Ascii.N_of_ascii b in
  let z := Ascii.N_of_ascii c in
  ((x =? 225) && (y =? 154) && (z =? 128)
   || (x =? 226) && (y =? 128)
      && ((128 <=? z) && (z <=? 138) || (z =? 168) || (z =? 169) || (z =? 175))
   || (x =? 226) && (y =? 129) && (z =? 159)
   || (x =? 227) && (y =? 128) && (z =? 128)
   || (x =? 239) && (y =? 187) && (z =? 191))%N.

Definition digit_value (a : ascii) : option Z :=
  let n := Ascii.N_of_ascii a in
  if ((48 <=? n) && (n <=? 57))%N then Some (Z.of_N n - 48) else None.

(** The integer the digits spell; None when there is no digit. *)
Fixpoint digits (acc : option Z) (s : string) : option Z :=
  match s with
  | EmptyString => acc
  | String a rest =>
      match digit_value a with
      | Some d => digits (Some (10 * default 0 acc + d)) rest
      | None => acc
      end
  end.

Fixpoint skip_blanks (s : string) : string :=
  match s with
  | String a rest =>
      if is_blank a then skip_blanks rest
      else
        match rest with
        | String b rest2 =>
            if is_blank2 a b then skip_blanks rest2
            else
              match rest2 with
              | String c rest3 =>
                  if is_blank3 a b c then skip_blanks rest3 else s
              | EmptyString => s
              end
        | EmptyString => s
        end
  | EmptyString => s
  end.

(** The Number of a non-negative integer: the nearest double, ties to
    even (V8 rounds the digits correctly); an integer that rounds to
    2^1024 or more is Infinity. *)
Definition to_number (negative : bool) (n : Z) : Number :=
  let d := Double.round n in
  if 2 ^ 1024 <=? d then Infinity negative else Finite negative d.

Definition signed (negative : bool) (n : option Z) : Number :=
  match n with
  | Some n => to_number negative n
  | None => NaN
  end.

Definition parseInt (x : option string) : Number :=
  match skip_blanks (tmpl x) with
  | String "-" rest => signed true (digits None rest)
  | String "+" rest => signed false (digits None rest)
  | s => signed false (digits None s)
  end.

Definition handleMessage (message : Message) (c : Client) : Client :=
  let mine := bool_decide (session message = Some (sessionId (options c))) in
  if String.eqb (type message) "keys" then
    if mine && truthy (payload message)
    then emit (EKeys (default "" (payload message))) c else c
  else if String.eqb (type message) "resize" then
    match meta message with
    | Some meta =>
        if mine then
          let cols := parseInt (meta !! "cols") in
          let rows := parseInt (meta !! "rows") in
          if negb (isNaN cols) && negb (isNaN rows)
          then emit (EResize cols rows) c else c
        else c
    | None => c
    end
  else if String.eqb (type message) "createSession" then
    match meta message with
    | Some meta =>
        if truthy (meta !! "sessionName")
        then emit (ECreateSession (default "" (meta !! "sessionName"))) c else c
    | None => c
    end
  else if String.eqb (type message) "killSession" then
    if mine then emit EKillSession c else c
  else if String.eqb (type message) "error" then handleError message c
  else emit (EMessage message) c.

(** *** Socket and timer handlers *)

Definition on_open (env : Env) (c : Client) : Client :=
  let c := set_isConnected true c in
  let c := set_reconnectAttempts 0 c in
  let c := set_circuitBreakerOpen false c in
  registerAsHost env (emit EConnected c).

(** [data] is None when [JSON.parse] throws. *)
Definition on_message (data : option Message) (c : Client) : Client :=
  match data with
  | Some message => handleMessage message c
  | None => act (ConsoleError "Failed to parse message:") c
  end.

Definition on_close (env : Env) (code : Z) (reason : string) (c : Client)
  : Client :=
  let c := set_isConnected false c in
  let c := emit (EDisconnected code reason) c in
  if autoReconnect c && negb (destroyed c) then scheduleReconnect env c
  else c.

Definition on_error (c : Client) : Client := emit EError c.

Definition run_callback (env : Env) (cb : Callback) (c : Client) : Client :=
  match cb with
  | CbScheduleReconnect => scheduleReconnect env c
  | CbConnect =>
      if negb (isConnected c) && negb (destroyed c) then connect env c else c
  end.

(** *** The client as a transition system

    After the owner's single [connect()] (session-handler.ts, line 98)
    the client is driven by its sockets, its timers and the owner's
    [destroy()] and send calls. *)
Inductive Event :=
| WsOpen (id : nat)
| WsMessage (id : nat) (data : option Message)
| WsError (id : nat)
| WsClosed (id : nat) (code : Z) (reason : string)
| TimerFires (id : nat)
| CallDestroy
| CallSendScreen (data : string)
| CallSendScreenCompressed (data : string).

Definition step (env : Env) (ev : Event) (c : Client) : option Client :=
  match exited c with
  | Some _ => None
  | None =>
      match ev with
      | WsOpen id =>
          match socket_state id (sockets c) with
          | Some CONNECTING =>
              Some (on_open env (set_sockets (transition id opened (sockets c)) c))
          | _ => None
          end
      | WsMessage id data =>
          match socket_state id (sockets c) with
          | Some OPEN => Some (on_message data c)
          | _ => None
          end
      | WsError id =>
          match socket_state id (sockets c) with
          | Some _ => Some (on_error c)
          | None => None
          end
      | WsClosed id code reason =>
          match socket_state id (sockets c) with
          | Some CLOSED | None => None
          | Some _ =>
              Some (on_close env code reason
                      (set_sockets (transition id closed (sockets c)) c))
          end
      | TimerFires id =>
          match find_timer id (timers c) with
          | Some t =>
              Some (run_callback env (callback t)
                      (set_timers (remove_timer id (timers c)) c))
          | None => None
          end
      | CallDestroy => Some (destroy c)
      | CallSendScreen data => Some (sendScreen env data c).2
      | CallSendScreenCompressed data => Some (sendScreenCompressed env data c).2
      end
  end.

(** The state in which the session handler leaves a new client:
    constructed, then [connect()] called once. *)
Definition started (env : Env) (url sessionId machineId token lbl : string)
  : Client :=
  connect env (new_client url sessionId machineId token (Some lbl) (Some true)).

Inductive reachable : Client -> Prop :=
| reach_started env url sessionId machineId token lbl :
    reachable (started env url sessionId machineId token lbl)
| reach_step env ev c c' :
    reachable c -> step env ev c = Some c' -> reachable c'.

End Relay.

(** ** JavaScript values of a decoded request body *)
Module Js.

Inductive value :=
| VUndefined
| VNull
| VBool (b : bool)
| VNumber (n : Z)
| VString (s : string)
| VArray (items : list value)
| VObject (fields : list (string * value))
| VFunction.                        (* a method found on a prototype *)

(** What a call gives back: a value, or a thrown error's message. *)
Inductive outcome (A : Type) :=
| Return (a : A)
| Throw (message : string).
Arguments Return {A} a.
Arguments Throw {A} message.

(** ToBoolean *)
Definition truthy (v : value) : bool :=
  match v with
  | VUndefined | VNull => false
  | VBool b => b
  | VNumber n => negb (n =? 0)
  | VString s => negb (String.eqb s "")
  | VArray _ | VObject _ | VFunction => true
  end.

Fixpoint lookup_field (k : string) (fields : list (string * value)) : value :=
  match fields with
  | [] => VUndefined
  | (k', v) :: rest => if String.eqb k' k then v else lookup_field k rest
  end.

(** [v.k] for the property names the agent reads from a request body:
    own properties of an object; arrays inherit a [keys] method;
    nothing else has [target], [keys] or [enter]. None: [v] is null or
    undefined and the access throws a TypeError. *)
Definition get (v : value) (k : string) : option value :=
  match v with
  | VUndefined | VNull => None
  | VObject fields => Some (lookup_field k fields)
  | VArray _ => Some (if String.eqb k "keys" then VFunction else VUndefined)
  | _ => Some VUndefined
  end.

(** Whether a template literal can print [v] (the ToString of
    [`${v}`]). A value parsed from JSON has no callable property of its
    own: an object with an own [toString] shadows the inherited method
    and cannot be converted, an array prints its elements, and every
    other value prints. *)
Fixpoint printable (v : value) : bool :=
  match v with
  | VObject fields =>
      negb (existsb (fun field => String.eqb field.1 "toString") fields)
  | VArray items =>
      (fix each (l : list value) : bool :=
         match l with
         | [] => true
         | x :: l => printable x && each l
         end) items
  | _ => true
  end.

(** The message of the TypeError of a failed conversion (V8). *)
Definition cannot_convert : string := "Cannot convert object to primitive value".

(** *** JSON.stringify *)

Definition dquote : ascii := Ascii.ascii_of_nat 34.
Definition backslash : ascii := Ascii.ascii_of_nat 92.

Definition hex_digit (n : N) : ascii :=
  match String.get (N.to_nat n) "0123456789abcdef" with
  | Some c => c
  | None => "0"%char
  end.

Definition escape_char (a : ascii) : string :=
  let n := Ascii.N_of_ascii a in
  if Ascii.eqb a dquote then String backslash (String dquote EmptyString)
  else if Ascii.eqb a backslash then String backslash (String backslash EmptyString)
  else if (n =? 8)%N then String backslash "b"
  else if (n =? 9)%N then String backslash "t"
  else if (n =? 10)%N then String backslash "n"
  else if (n =? 12)%N then String backslash "f"
  else if (n =? 13)%N then String backslash "r"
  else if (n <? 32)%N then
    String backslash ("u00" +:+ String (hex_digit (n / 16)) (String (hex_digit (n mod 16)) EmptyString))
  else String a EmptyString.

Fixpoint escape (s : string) : string :=
  match s with
  | EmptyString => EmptyString
  | String a rest => escape_char a +:+ escape rest
  end.

Definition quote (s : string) : string :=
  String dquote (escape s +:+ String dquote EmptyString).

Fixpoint join (sep : string) (parts : list string) : string :=
  match parts with
  | [] => ""
  | [p] => p
  | p :: rest => p +:+ sep +:+ join sep rest
  end.

(** None: the value has no JSON text (undefined, a function). *)
Fixpoint stringify (v : value) : option string :=
  match v with
  | VUndefined | VFunction => None
  | VNull => Some "null"
  | VBool b => Some (if b then "true" else "false")
  | VNumber n => Some (pretty n)
  | VString s => Some (quote s)
  | VArray items =>
      Some ("[" +:+ join ","
              ((fix each (l : list value) : list string :=
                  match l with
                  | [] => []
                  | x :: l => default "null" (stringify x) :: each l
                  end) items) +:+ "]")
  | VObject fields =>
      Some ("{" +:+ join ","
              ((fix each (l : list (string * value)) : list string :=
                  match l with
                  | [] => []
                  | (k, x) :: l =>
                      match stringify x with
                      | Some s => (quote k +:+ ":" +:+ s) :: each l
                      | None => each l
                      end
                  end) fields) +:+ "}")
  end.

End Js.

(** ** Control Channel: ApiWebSocketClient (api-client.ts) *)
Module Api.
Import Runtime.

Definition MAX_RECONNECT_ATTEMPTS : Z := 5.
Definition BASE_RECONNECT_DELAY_MS : Z := 2000.
Definition MAX_RECONNECT_DELAY_MS : Z := 60000.
Definition CIRCUIT_BREAKER_DURATION_MS : Z := 120000.

(** Builtins and collaborators of the request handlers. *)
Record Services := mkServices {
  JSON_parse : string -> Js.outcome Js.value;
  tmux_sendKeys : Js.value -> Js.value -> Js.value -> Js.outcome bool
}.

Inductive Action :=
| NewWebSocket (id : option nat)
| WsSend (id : nat) (m : Message)
| WsClose (id : nat)
| SetTimeout (id : nat) (cb : Callback) (delay : Z)
| ClearTimeout (id : nat)
| TmuxSendKeys (target keys enter : Js.value).     (* tmux.sendKeys was called *)

Record Client := mkClient {
  relay : string;
  machineId : string;
  token : string;
  agentId : string;
  ws : option nat;
  isConnected : bool;
  reconnectAttempts : Z;
  circuitBreakerOpen : bool;
  circuitBreakerResetTime : Z;
  reconnectTimer : option nat;
  destroyed : bool;
  sockets : list Socket;
  timers : list Timer;
  next_id : nat;
  trace : list Action
}.

Definition set_reconnectAttempts v c := mkClient (relay c) (machineId c) (token c) (agentId c) (ws c) (isConnected c) v (circuitBreakerOpen c) (circuitBreakerResetTime c) (reconnectTimer c) (destroyed c) (sockets c) (timers c) (next_id c) (trace c).
Definition set_circuitBreakerOpen v c := mkClient (relay c) (machineId c) (token c) (agentId c) (ws c) (isConnected c) (reconnectAttempts c) v (circuitBreakerResetTime c) (reconnectTimer c) (destroyed c) (sockets c) (timers c) (next_id c) (trace c).
Definition set_circuitBreakerResetTime v c := mkClient (relay c) (machineId c) (token c) (agentId c) (ws c) (isConnected c) (reconnectAttempts c) (circuitBreakerOpen c) v (reconnectTimer c) (destroyed c) (sockets c) (timers c) (next_id c) (trace c).
Definition set_reconnectTimer v c := mkClient (relay c) (machineId c) (token c) (agentId c) (ws c) (isConnected c) (reconnectAttempts c) (circuitBreakerOpen c) (circuitBreakerResetTime c) v (destroyed c) (sockets c) (timers c) (next_id c) (trace c).
Definition set_timers v c := mkClient (relay c) (machineId c) (token c) (agentId c) (ws c) (isConnected c) (reconnectAttempts c) (circuitBreakerOpen c) (circuitBreakerResetTime c) (reconnectTimer c) (destroyed c) (sockets c) v (next_id c) (trace c).
Definition set_next_id v c := mkClient (relay c) (machineId c) (token c) (agentId c) (ws c) (isConnected c) (reconnectAttempts c) (circuitBreakerOpen c) (circuitBreakerResetTime c) (reconnectTimer c) (destroyed c) (sockets c) (timers c) v (trace c).
Definition set_trace v c := mkClient (relay c) (machineId c) (token c) (agentId c) (ws c) (isConnected c) (reconnectAttempts c) (circuitBreakerOpen c) (circuitBreakerResetTime c) (reconnectTimer c) (destroyed c) (sockets c) (timers c) (next_id c) v.

Definition act (a : Action) (c : Client) : Client :=
  set_trace (trace c ++ [a]) c.

Definition setTimeout (now : Z) (cb : Callback) (delay : Z) (c : Client)
  : nat * Client :=
  let id := next_id c in
  (id, act (SetTimeout id cb delay)
         (set_next_id (S id)
           (set_timers (timers c ++ [mkTimer id (now + delay) cb]) c))).

(** Lines 265-270, the same arithmetic as in websocket.ts. *)
Definition backoff (attempts : Z) : Z :=
  Z.min (BASE_RECONNECT_DELAY_MS * 2 ^ (attempts - 1)) MAX_RECONNECT_DELAY_MS.

Definition jitter (rnd delay : Z) : Z :=
  Double.halve (Double.mul_int (Double.random rnd) delay).

Definition reconnectDelay (attempts rnd : Z) : Z :=
  let delay := backoff attempts in
  Double.floor (Double.add (Double.of_int delay) (jitter rnd delay)).

Definition scheduleReconnect (env : Env) (c : Client) : Client :=
  if destroyed c then c
  else if circuitBreakerOpen c && (Date_now env <? circuitBreakerResetTime c) then
    let (id, c) := setTimeout (Date_now env) CbScheduleReconnect
                     (circuitBreakerResetTime c - Date_now env) c in
    set_reconnectTimer (Some id) c
  else
    let c := if circuitBreakerOpen c
             then set_reconnectAttempts 0 (set_circuitBreakerOpen false c)
             else c in
    let c := set_reconnectAttempts (reconnectAttempts c + 1) c in
    if MAX_RECONNECT_ATTEMPTS <? reconnectAttempts c then
      let c := set_circuitBreakerOpen true c in
      let c := set_circuitBreakerResetTime
                 (Date_now env + CIRCUIT_BREAKER_DURATION_MS) c in
      let c := set_reconnectAttempts 0 c in
      let (id, c) := setTimeout (Date_now env) CbScheduleReconnect
                       CIRCUIT_BREAKER_DURATION_MS c in
      set_reconnectTimer (Some id) c
    else
      let (id, c) := setTimeout (Date_now env) CbConnect
                       (reconnectDelay (reconnectAttempts c) (Math_random env)) c in
      set_reconnectTimer (Some id) c.

Definition send (env : Env) (message : Message) (c : Client) : bool * Client :=
  match ws c with
  | None => (false, c)
  | Some id =>
      match socket_state id (sockets c) with
      | Some OPEN =>
          if ws_send_ok env then (true, act (WsSend id message) c)
          else (false, c)
      | _ => (false, c)
      end
  end.

(** The api_response message that carries [response]. *)
Definition api_response (requestId : string) (response : Js.value) : Message :=
  let meta : gmap string string := <["requestId" := requestId]> ∅ in
  let meta := match Js.stringify response with
              | Some text => <["payload" := text]> meta
              | None => meta
              end in
  mkMessage "api_response" None None None (Some meta).

Definition sendApiResponse (env : Env) (requestId : string)
    (response : Js.value) (c : Client) : Client :=
  (send env (api_response requestId response) c).2.

Definition required_error : Js.value :=
  Js.VObject [("success", Js.VBool false);
              ("error", Js.VString "target and keys are required")].

Definition failure (message : string) : Js.value :=
  Js.VObject [("success", Js.VBool false); ("error", Js.VString message)].

(** The message of the TypeError thrown by destructuring null (V8). *)
Definition destructure_null : string :=
  "Cannot destructure property 'target' of 'payload' as it is null.".

(** The body of the try block: the state reached, and the message of
    the error thrown, if any. *)
Definition trySendKeys (svc : Services) (env : Env) (requestId : string)
    (meta : gmap string string) (c : Client) : Client * option string :=
  let parsed := if truthy (meta !! "payload")
                then JSON_parse svc (default "" (meta !! "payload"))
                else Js.Return (Js.VObject []) in
  match parsed with
  | Js.Throw msg => (c, Some msg)
  | Js.Return payload =>
      match Js.get payload "target", Js.get payload "keys", Js.get payload "enter" with
      | Some target, Some keys, Some enter =>
          let enter := match enter with Js.VUndefined => Js.VBool true | _ => enter end in
          if negb (Js.truthy target) || negb (Js.truthy keys) then
            (sendApiResponse env requestId required_error c, None)
          else if negb (Js.printable target && Js.printable keys
                        && Js.printable enter) then
            (* the template literal of the console.log line throws *)
            (c, Some Js.cannot_convert)
          else
            let c := act (TmuxSendKeys target keys enter) c in
            match tmux_sendKeys svc target keys enter with
            | Js.Return success =>
                (sendApiResponse env requestId
                   (Js.VObject [("success", Js.VBool success); ("target", target)]) c,
                 None)
            | Js.Throw msg => (c, Some msg)
            end
      | _, _, _ => (c, Some destructure_null)
      end
  end.

Definition handleSendKeys (svc : Services) (env : Env) (message : Message)
    (c : Client) : Client :=
  match meta message with
  | None => c
  | Some meta =>
      if negb (truthy (meta !! "requestId")) then c
      else
        let requestId := default "" (meta !! "requestId") in
        match trySendKeys svc env requestId meta c with
        | (c, None) => c
        | (c, Some msg) => sendApiResponse env requestId (failure msg) c
        end
  end.

End Api.

(** ** Capture Scheduler: TmuxSessionHandler (session-handler.ts) *)
Module SessionHandler.

Definition CAPTURE_INTERVAL_ACTIVE_MS : Z := 50.
Definition CAPTURE_INTERVAL_IDLE_MS : Z := 200.
Definition ACTIVE_THRESHOLD_MS : Z := 2000.
Definition FORCE_SEND_INTERVAL_MS : Z := 10000.
Definition USE_COMPRESSION : bool := true.
Definition MIN_COMPRESS_SIZE : Z := 512.

(** What [tmux.capturePane(session)] gives on one tick. *)
Inductive Pane :=
| Screen (screen : string)
| Unavailable                 (* null *)
| CaptureError.               (* the call throws *)

Record TmuxSessionHandler := mkHandler {
  config : AgentConfig;
  tmuxSession : string;
  sessionId : string;
  wsClient : option Relay.Client;
  running : bool;
  lastScreen : string;
  lastForceSendTime : Z;
  lastChangeTime : Z;
  captureTimer : option Z;    (* delay of the pending setTimeout(capture, ms) *)
  startTimer : option Z       (* delay of the pending setTimeout(connectAndRun, jitter) *)
}.

Definition set_wsClient v h := mkHandler (config h) (tmuxSession h) (sessionId h) v (running h) (lastScreen h) (lastForceSendTime h) (lastChangeTime h) (captureTimer h) (startTimer h).
Definition set_running v h := mkHandler (config h) (tmuxSession h) (sessionId h) (wsClient h) v (lastScreen h) (lastForceSendTime h) (lastChangeTime h) (captureTimer h) (startTimer h).
Definition set_lastScreen v h := mkHandler (config h) (tmuxSession h) (sessionId h) (wsClient h) (running h) v (lastForceSendTime h) (lastChangeTime h) (captureTimer h) (startTimer h).
Definition set_lastForceSendTime v h := mkHandler (config h) (tmuxSession h) (sessionId h) (wsClient h) (running h) (lastScreen h) v (lastChangeTime h) (captureTimer h) (startTimer h).
Definition set_lastChangeTime v h := mkHandler (config h) (tmuxSession h) (sessionId h) (wsClient h) (running h) (lastScreen h) (lastForceSendTime h) v (captureTimer h) (startTimer h).
Definition set_captureTimer v h := mkHandler (config h) (tmuxSession h) (sessionId h) (wsClient h) (running h) (lastScreen h) (lastForceSendTime h) (lastChangeTime h) v (startTimer h).
Definition set_startTimer v h := mkHandler (config h) (tmuxSession h) (sessionId h) (wsClient h) (running h) (lastScreen h) (lastForceSendTime h) (lastChangeTime h) (captureTimer h) v.

(** constructor *)
Definition new_handler (config : AgentConfig) (tmuxSession : string)
  : TmuxSessionHandler :=
  {| config := config;
     tmuxSession := tmuxSession;
     sessionId := machineId config +:+ "/" +:+ tmuxSession;
     wsClient := None;
     running := false;
     lastScreen := "";
     lastForceSendTime := 0;
     lastChangeTime := 0;
     captureTimer := None;
     startTimer := None |}.

(** [Math.floor(Math.random() * 5000)] *)
Definition start_jitter (rnd : Z) : Z :=
  Double.floor (Double.mul_int (Double.random rnd) 5000).

(** start(); [rnd] is its draw of [Math.random()]. *)
Definition start (rnd : Z) (h : TmuxSessionHandler) : TmuxSessionHandler :=
  if running h then h
  else set_startTimer (Some (start_jitter rnd)) (set_running true h).

(** The start timer fires. *)
Definition connectAndRun (env : Env) (h : TmuxSessionHandler)
  : TmuxSessionHandler :=
  let h := set_startTimer None h in
  if negb (running h) then h
  else set_wsClient
         (Some (Relay.started env (relay (config h)) (sessionId h)
                  (machineId (config h)) (token (config h)) (tmuxSession h))) h.

(** ESC [ 2 J ESC [ H : clear the screen, cursor home. *)
Definition clear_and_home : string :=
  let esc := Ascii.ascii_of_nat 27 in
  String esc ("[2J" +:+ String esc "[H").

(** Hand one frame to the link (lines 129-138). *)
Definition send_frame (env : Env) (screen : string) (c : Relay.Client)
  : Relay.Client :=
  let data := clear_and_home +:+ screen in
  if USE_COMPRESSION && (MIN_COMPRESS_SIZE <? Z.of_nat (String.length data))
  then (Relay.sendScreenCompressed env data c).2
  else (Relay.sendScreen env data c).2.

(** One run of the [capture] closure of startScreenCapture. *)
Definition capture (env : Env) (pane : Pane) (h : TmuxSessionHandler)
  : TmuxSessionHandler :=
  match wsClient h with
  | Some c =>
      if negb (running h) || negb (Relay.getConnected c)
      then set_captureTimer (Some 500) h
      else
        match pane with
        | CaptureError => set_captureTimer (Some 500) h
        | Unavailable => set_captureTimer (Some CAPTURE_INTERVAL_IDLE_MS) h
        | Screen screen =>
            let now := Date_now env in
            let changed := negb (String.eqb screen (lastScreen h)) in
            let forceTime := FORCE_SEND_INTERVAL_MS <=? now - lastForceSendTime h in
            let h :=
              if changed || forceTime then
                let h := set_lastScreen screen h in
                let h := set_lastForceSendTime now h in
                let h := if changed then set_lastChangeTime now h else h in
                set_wsClient (Some (send_frame env screen c)) h
              else h in
            let isActive := now - lastChangeTime h <? ACTIVE_THRESHOLD_MS in
            let sleepMs := if isActive then CAPTURE_INTERVAL_ACTIVE_MS
                           else CAPTURE_INTERVAL_IDLE_MS in
            set_captureTimer (Some sleepMs) h
        end
  | None => set_captureTimer (Some 500) h
  end.

Definition startScreenCapture (env : Env) (pane : Pane) (h : TmuxSessionHandler)
  : TmuxSessionHandler :=
  match captureTimer h with
  | Some _ => h
  | None => capture env pane h
  end.

Definition stopScreenCapture (h : TmuxSessionHandler) : TmuxSessionHandler :=
  set_captureTimer None h.

(** stop(): the link it held is destroyed and let go. *)
Definition stop (h : TmuxSessionHandler) : TmuxSessionHandler :=
  set_wsClient None (stopScreenCapture (set_running false h)).

Definition released (h : TmuxSessionHandler) : option Relay.Client :=
  Relay.destroy <$> wsClient h.

(** Frames put on the wire between two states of the handler's link. *)
Definition wire (h : TmuxSessionHandler) : list Relay.Action :=
  match wsClient h with
  | Some c => Relay.trace c
  | None => []
  end.

End SessionHandler.

(** ** A JavaScript Map with string keys

    The entries in insertion order, which is the order [keys()] and
    [values()] go through them. *)
Module JsMap.

Record t (V : Type) := make { entries : list (string * V) }.
Arguments make {V} entries.
Arguments entries {V} _.

Section Operations.
Context {V : Type}.

Fixpoint find (k : string) (l : list (string * V)) : option V :=
  match l with
  | [] => None
  | (k', v) :: l => if String.eqb k' k then Some v else find k l
  end.

(** A present key keeps its place, a new one goes to the end. *)
Fixpoint put (k : string) (v : V) (l : list (string * V)) : list (string * V) :=
  match l with
  | [] => [(k, v)]
  | (k', v') :: l =>
      if String.eqb k' k then (k', v) :: l else (k', v') :: put k v l
  end.

(** [m.get(k)] *)
Definition get (k : string) (m : t V) : option V := find k (entries m).

(** [m.set(k, v)] *)
Definition set (k : string) (v : V) (m : t V) : t V := make (put k v (entries m)).

(** [m.delete(k)] *)
Definition delete (k : string) (m : t V) : t V :=
  make (List.filter (fun e => negb (String.eqb e.1 k)) (entries m)).

(** [m.keys()] *)
Definition keys (m : t V) : list string := (entries m).*1.

End Operations.

#[global] Instance lookup {V} : Lookup string V (t V) := get.
#[global] Instance empty {V} : Empty (t V) := make [].

End JsMap.

(** ** Session Orchestrator: AgentRunner (runner.ts) *)
Module Runner.
Import SessionHandler.

Definition SCAN_INTERVAL_MS : Z := 5000.

(** The tmux capability and the random draws of one call. *)
Record Host := mkHost {
  tmux_scanSessions : option (list string);   (* None: the scan throws *)
  tmux_createSession : string -> bool;
  random_for : string -> Z      (* the draw made when that session's handler starts *)
}.

Inductive Action :=
| Started (session : string)
| Stopped (handler : TmuxSessionHandler) (link : option Relay.Client)
| CreateSession (name : string) (ok : bool)
| Warn (text : string)
| ScanError.

Record AgentRunner := mkRunner {
  runner_config : AgentConfig;
  handlers : JsMap.t TmuxSessionHandler;
  log : list Action
}.

Definition set_handlers v r := mkRunner (runner_config r) v (log r).
Definition note (a : Action) (r : AgentRunner) : AgentRunner :=
  mkRunner (runner_config r) (handlers r) (log r ++ [a]).

Definition startSessionHandler (host : Host) (tmuxSession : string)
    (r : AgentRunner) : AgentRunner :=
  let handler := new_handler (runner_config r) tmuxSession in
  let handler := start (random_for host tmuxSession) handler in
  note (Started tmuxSession)
    (set_handlers (JsMap.set tmuxSession handler (handlers r)) r).

Definition stopSessionHandler (tmuxSession : string) (r : AgentRunner)
  : AgentRunner :=
  match handlers r !! tmuxSession with
  | Some handler =>
      note (Stopped (stop handler) (released handler))
        (set_handlers (JsMap.delete tmuxSession (handlers r)) r)
  | None => r
  end.

(** [new Set(list)]: the elements in order of first occurrence. *)
Fixpoint distinct (seen : list string) (l : list string) : list string :=
  match l with
  | [] => []
  | x :: l =>
      if bool_decide (x ∈ seen) then distinct seen l
      else x :: distinct (x :: seen) l
  end.

Definition scanAndUpdateSessions (host : Host) (r : AgentRunner) : AgentRunner :=
  match tmux_scanSessions host with
  | None => note ScanError r
  | Some names =>
      let currentSessions := distinct [] names in
      let trackedSessions := distinct [] (JsMap.keys (handlers r)) in
      let r := foldl (fun r session =>
                        if bool_decide (session ∈ trackedSessions) then r
                        else startSessionHandler host session r)
                     r currentSessions in
      foldl (fun r session =>
               if bool_decide (session ∈ currentSessions) then r
               else stopSessionHandler session r)
            r trackedSessions
  end.

(** [/[^a-zA-Z0-9_-]/] *)
Definition allowed (a : ascii) : bool :=
  let n := Ascii.N_of_ascii a in
  ((97 <=? n) && (n <=? 122) || (65 <=? n) && (n <=? 90)
   || (48 <=? n) && (n <=? 57) || (n =? 95) || (n =? 45))%N.

(** [sessionName.replace(/[^a-zA-Z0-9_-]/g, '_')] *)
Fixpoint sanitize (sessionName : string) : string :=
  match sessionName with
  | EmptyString => EmptyString
  | String a rest => String (if allowed a then a else "_"%char) (sanitize rest)
  end.

Definition createTmuxSession (host : Host) (sessionName : string)
    (r : AgentRunner) : AgentRunner :=
  let sanitized := sanitize sessionName in
  if String.eqb sanitized "" then
    note (Warn ("Invalid session name: " +:+ sessionName)) r
  else if bool_decide (is_Some (handlers r !! sanitized)) then
    note (Warn ("Session already exists: " +:+ sanitized)) r
  else if tmux_createSession host sanitized then
    scanAndUpdateSessions host (note (CreateSession sanitized true) r)
  else note (CreateSession sanitized false) r.

End Runner.


(** ** The listeners of connectAndRun (session-handler.ts, lines 62-96)

    The handler subscribes to its link's events; [emit] runs the
    listener before the emitting method goes on. Calls of the tmux
    wrapper are recorded; the executors behind it catch every error
    (tmux-executor.ts), so a call returns. Only the link the handler
    holds is followed here. *)
Module Listeners.
Import Runtime SessionHandler.

Inductive Call :=
| SendKeys (session keys : string) (enter : bool)      (* tmux.sendKeys *)
| ResizeWindow (session : string) (cols rows : Relay.Number)  (* tmux.resizeWindow *)
| KillSession (session : string)                       (* tmux.killSession *)
| OnCreateSession (name : string).                     (* the orchestrator's callback *)

Record Session := mkSession {
  handler : TmuxSessionHandler;
  calls : list Call;
  dropped : list Relay.Client     (* links destroyed and let go by stop() *)
}.

Definition set_handler (h : TmuxSessionHandler) (s : Session) : Session :=
  mkSession h (calls s) (dropped s).

Definition call (a : Call) (s : Session) : Session :=
  mkSession (handler s) (calls s ++ [a]) (dropped s).

(** stop() (lines 165-174), keeping the link it destroys. *)
Definition stop_handler (s : Session) : Session :=
  mkSession (stop (handler s)) (calls s)
    (dropped s ++ match released (handler s) with Some c => [c] | None => [] end).

(** The link object goes on with [f] after [emit] returns. *)
Definition set_link (c : Relay.Client) (s : Session) : Session :=
  set_handler (set_wsClient (Some c) (handler s)) s.

Definition with_link (f : Relay.Client -> Relay.Client) (s : Session) : Session :=
  match wsClient (handler s) with
  | Some c => set_link (f c) s
  | None => s
  end.

(** handleKeys (lines 101-103) *)
Definition handleKeys (keys : string) (s : Session) : Session :=
  call (SendKeys (tmuxSession (handler s)) keys false) s.

(** The listener of each event; [pane] is what [tmux.capturePane]
    returns if the listener asks for it. There is no listener for
    'message'; the one for 'error' only prints. The orchestrator
    always passes onCreateSession (runner.ts, line 118). *)
Definition listener (env : Env) (pane : Pane) (e : Relay.Emitted) (s : Session)
  : Session :=
  match e with
  | Relay.EConnected => set_handler (startScreenCapture env pane (handler s)) s
  | Relay.EDisconnected _ _ => set_handler (stopScreenCapture (handler s)) s
  | Relay.EKeys keys => handleKeys keys s
  | Relay.EResize cols rows =>
      call (ResizeWindow (tmuxSession (handler s)) cols rows) s
  | Relay.ECreateSession name => call (OnCreateSession name) s
  | Relay.EKillSession =>
      stop_handler (call (KillSession (tmuxSession (handler s))) s)
  | Relay.EError => s
  | Relay.EMessage _ => s
  end.

(** The socket's 'open' handler (websocket.ts, lines 52-58): the
    'connected' listener runs inside [emit], before registerAsHost. *)
Definition on_open (env : Env) (pane : Pane) (s : Session) : Session :=
  match wsClient (handler s) with
  | None => s
  | Some c =>
      let c := Relay.set_isConnected true c in
      let c := Relay.set_reconnectAttempts 0 c in
      let c := Relay.set_circuitBreakerOpen false c in
      let c := Relay.emit Relay.EConnected c in
      let s := listener env pane Relay.EConnected (set_link c s) in
      with_link (Relay.registerAsHost env) s
  end.

(** Events emitted between two states of the link. *)
Definition emitted_since (c c' : Relay.Client) : list Relay.Emitted :=
  omap (fun a => match a with Relay.Emit e => Some e | _ => None end)
       (drop (length (Relay.trace c)) (Relay.trace c')).

(** The socket's 'message' handler (lines 60-67). Every [emit] of
    handleMessage is the last statement of its case, so its listener
    runs on the state handleMessage leaves. *)
Definition on_message (env : Env) (pane : Pane) (data : option Message)
    (s : Session) : Session :=
  match wsClient (handler s) with
  | None => s
  | Some c =>
      let c' := Relay.on_message data c in
      foldl (fun s e => listener env pane e s) (set_link c' s) (emitted_since c c')
  end.

(** The socket's 'close' handler (lines 69-76): the 'disconnected'
    listener runs before scheduleReconnect. *)
Definition on_close (env : Env) (pane : Pane) (code : Z) (reason : string)
    (s : Session) : Session :=
  match wsClient (handler s) with
  | None => s
  | Some c =>
      let c := Relay.set_isConnected false c in
      let c := Relay.emit (Relay.EDisconnected code reason) c in
      let s := listener env pane (Relay.EDisconnected code reason) (set_link c s) in
      with_link (fun c => if Relay.autoReconnect c && negb (Relay.destroyed c)
                          then Relay.scheduleReconnect env c else c) s
  end.

End Listeners.

(** ** The text the executors hand to the shell (tmux-executor.ts) *)
Module TmuxExecutor.

(** [str.replace(/c/g, by)] for a pattern of one literal character and
    a replacement text without [$] patterns. *)
Fixpoint replace (c : ascii) (by_ : string) (str : string) : string :=
  match str with
  | EmptyString => EmptyString
  | String a rest =>
      (if Ascii.eqb a c then by_ else String a EmptyString) +:+ replace c by_ rest
  end.

Definition dollar : ascii := "$"%char.
Definition backtick : ascii := "`"%char.
Definition apostrophe : ascii := "'"%char.
Definition LF : ascii := Ascii.ascii_of_nat 10.
Definition CR : ascii := Ascii.ascii_of_nat 13.

(** A backslash, then the character. *)
Definition escaped (a : ascii) : string :=
  String Js.backslash (String a EmptyString).

(** escapeForShell (lines 124-126; exec-service.ts, lines 143-145, is
    the same function) *)
Definition escapeForShell (str : string) : string :=
  replace backtick (escaped backtick)
    (replace dollar (escaped dollar)
       (replace Js.dquote (escaped Js.dquote) str)).

(** escapeSession (lines 276-278): ' becomes '\'' *)
Definition escapeSession (session : string) : string :=
  replace apostrophe
    (String apostrophe (String Js.backslash (String apostrophe (String apostrophe EmptyString))))
    session.

(** What UnixTmuxExecutor.capturePane returns for the output of
    [tmux capture-pane] (line 48). *)
Definition capturePane_text (output : string) : string :=
  replace LF (String CR (String LF EmptyString)) output.

Definition in_dquotes (s : string) : string :=
  String Js.dquote (s +:+ String Js.dquote EmptyString).

(** The command of UnixTmuxExecutor.sendKeys (lines 56-57). *)
Definition sendKeys_command (session keys : string) : string :=
  "tmux send-keys -t " +:+ in_dquotes session +:+ " -l "
    +:+ in_dquotes (escapeForShell keys).

(** The command of UnixTmuxExecutor.createSession (lines 93-99), with
    the regular expression of runner.ts; None: the call returns false
    without running anything. *)
Definition createSession_command (session : string) (workingDir : option string)
  : option string :=
  let sanitized := Runner.sanitize session in
  if String.eqb sanitized "" then None
  else
    let cmd := "tmux new-session -d -s " +:+ in_dquotes sanitized in
    Some (if truthy workingDir
          then cmd +:+ " -c " +:+ in_dquotes (default "" workingDir)
          else cmd).

End TmuxExecutor.

(** ** CommandExecutionService (exec-service.ts): what is decided before
    a command runs *)
Module ExecService.

Record ExecConfig := mkExecConfig {
  enabled : bool;
  shell : string;
  workingDir : option string;
  allowedCommands : option (list string);
  defaultTimeout : Z
}.

Record ExecResult := mkResult {
  exitCode : Z;
  stdout : string;
  stderr : string;
  duration : Z
}.

(** constructor *)
Definition new_service (config : option ExecConfig) : ExecConfig :=
  default (mkExecConfig false "/bin/bash" None None 30000) config.

(** [pattern => command.startsWith(pattern) || new RegExp(pattern).test(command)];
    [regexp_test pattern command] is the builtin, which throws on a
    pattern that is not a regular expression. *)
Definition matches (regexp_test : string -> string -> Js.outcome bool)
    (command pattern : string) : Js.outcome bool :=
  if String.prefix pattern command then Js.Return true
  else regexp_test pattern command.

(** [Array.prototype.some]: stops at the first element that matches. *)
Fixpoint some (f : string -> Js.outcome bool) (l : list string)
  : Js.outcome bool :=
  match l with
  | [] => Js.Return false
  | x :: l =>
      match f x with
      | Js.Return true => Js.Return true
      | Js.Return false => some f l
      | Js.Throw msg => Js.Throw msg
      end
  end.

Inductive Gate :=
| Run                               (* the command goes on to tmux or the shell *)
| Refuse (result : ExecResult).     (* returned at once *)

(** executeCommand, lines 23-45, for a command that is a string. *)
Definition gate (regexp_test : string -> string -> Js.outcome bool)
    (config : ExecConfig) (command : string) : Js.outcome Gate :=
  if negb (enabled config) then
    Js.Return (Refuse (mkResult (-1) "" "Command execution is disabled on this agent" 0))
  else
    match allowedCommands config with
    | Some ((_ :: _) as patterns) =>
        match some (matches regexp_test command) patterns with
        | Js.Return true => Js.Return Run
        | Js.Return false =>
            Js.Return (Refuse (mkResult (-1) "" "Command not in allowed list" 0))
        | Js.Throw msg => Js.Throw msg
        end
    | _ => Js.Return Run
    end.

(** The command run when a sessionId is given (line 56). *)
Definition tmux_command (sessionId command : string) : string :=
  "tmux send-keys -t " +:+ TmuxExecutor.in_dquotes sessionId +:+ " "
    +:+ TmuxExecutor.in_dquotes (TmuxExecutor.escapeForShell command) +:+ " Enter".

End ExecService.

(** ** The other request handlers of ApiWebSocketClient (api-client.ts)

    exec and llm_chat await their service; the client is not touched
    before the service returns, so the handler is a function of the
    client and the environment at that moment. Of a console.log line
    only the conversion of its values to text is kept, which can
    throw. *)
Module ApiClient.
Import Runtime Api.

Record Backends := mkBackends {
  (* commandService.executeCommand(command, cwd, timeout, sessionId) *)
  executeCommand : Js.value -> Js.value -> Js.value -> Js.value -> Js.outcome Js.value;
  (* llmService.chat(model, messages, temperature, max_tokens, stream) *)
  llm_chat : Js.value -> Js.value -> Js.value -> Js.value -> Js.value
             -> Js.outcome Js.value;
  (* tmux.listSessions() *)
  tmux_listSessions : Js.outcome Js.value
}.

(** [meta.payload ? JSON.parse(meta.payload) : {}] *)
Definition parse_payload (svc : Services) (meta : gmap string string)
  : Js.outcome Js.value :=
  if truthy (meta !! "payload") then JSON_parse svc (default "" (meta !! "payload"))
  else Js.Return (Js.VObject []).

(** The message of the TypeError thrown by destructuring null (V8);
    [property] is the first name of the pattern. *)
Definition destructure_null (property : string) : string :=
  "Cannot destructure property '" +:+ property +:+ "' of 'payload' as it is null.".

Definition exec_failure (message : string) : Js.value :=
  Js.VObject [("exitCode", Js.VNumber (-1)); ("stdout", Js.VString "");
              ("stderr", Js.VString ("Error: " +:+ message));
              ("duration", Js.VNumber 0)].

Definition llm_failure (message : string) : Js.value :=
  Js.VObject [("error", Js.VObject [("message", Js.VString message);
                                    ("type", Js.VString "internal_error")])].

Definition sessions_failure (message : string) : Js.value :=
  Js.VObject [("sessions", Js.VArray []); ("error", Js.VString message)].

(** [if (!meta?.requestId) return], then the handler's body. *)
Definition with_requestId (message : Message)
    (body : string -> gmap string string -> Client -> Client) (c : Client) : Client :=
  match meta message with
  | None => c
  | Some meta =>
      if negb (truthy (meta !! "requestId")) then c
      else body (default "" (meta !! "requestId")) meta c
  end.

(** handleExec (lines 125-145) *)
Definition handleExec (svc : Services) (b : Backends) (env : Env)
    (message : Message) (c : Client) : Client :=
  with_requestId message (fun requestId meta c =>
    match parse_payload svc meta with
    | Js.Throw msg => sendApiResponse env requestId (exec_failure msg) c
    | Js.Return payload =>
        match Js.get payload "command", Js.get payload "cwd",
              Js.get payload "timeout", Js.get payload "sessionId" with
        | Some command, Some cwd, Some timeout, Some sessionId =>
            if negb (Js.printable command && Js.printable cwd
                     && Js.printable timeout) then
              sendApiResponse env requestId (exec_failure Js.cannot_convert) c
            else
              match executeCommand b command cwd timeout sessionId with
              | Js.Return result => sendApiResponse env requestId result c
              | Js.Throw msg => sendApiResponse env requestId (exec_failure msg) c
              end
        | _, _, _, _ =>
            sendApiResponse env requestId (exec_failure (destructure_null "command")) c
        end
    end) c.

(** [messages?.length || 0] of the log line of handleLlmChat: an object
    gives its own [length] property, an array or a string its length. *)
Definition messages_count (messages : Js.value) : Js.value :=
  let len := match messages with
             | Js.VObject fields => Js.lookup_field "length" fields
             | Js.VArray items => Js.VNumber (Z.of_nat (length items))
             | Js.VString s => Js.VNumber (Z.of_nat (String.length s))
             | Js.VFunction => Js.VNumber 0
             | _ => Js.VUndefined
             end in
  if Js.truthy len then len else Js.VNumber 0.

(** handleLlmChat (lines 147-167) *)
Definition handleLlmChat (svc : Services) (b : Backends) (env : Env)
    (message : Message) (c : Client) : Client :=
  with_requestId message (fun requestId meta c =>
    match parse_payload svc meta with
    | Js.Throw msg => sendApiResponse env requestId (llm_failure msg) c
    | Js.Return payload =>
        match Js.get payload "model", Js.get payload "messages",
              Js.get payload "temperature", Js.get payload "max_tokens",
              Js.get payload "stream" with
        | Some model, Some messages, Some temperature, Some max_tokens, Some stream =>
            if negb (Js.printable model && Js.printable (messages_count messages)) then
              sendApiResponse env requestId (llm_failure Js.cannot_convert) c
            else
              match llm_chat b model messages temperature max_tokens stream with
              | Js.Return result => sendApiResponse env requestId result c
              | Js.Throw msg => sendApiResponse env requestId (llm_failure msg) c
              end
        | _, _, _, _, _ =>
            sendApiResponse env requestId (llm_failure (destructure_null "model")) c
        end
    end) c.

(** handleListSessions (lines 197-211) *)
Definition handleListSessions (b : Backends) (env : Env)
    (message : Message) (c : Client) : Client :=
  with_requestId message (fun requestId meta c =>
    match tmux_listSessions b with
    | Js.Return sessions =>
        sendApiResponse env requestId (Js.VObject [("sessions", sessions)]) c
    | Js.Throw msg => sendApiResponse env requestId (sessions_failure msg) c
    end) c.

(** handleMessage (lines 108-123): other types are dropped. *)
Definition handleMessage (svc : Services) (b : Backends) (env : Env)
    (message : Message) (c : Client) : Client :=
  if String.eqb (type message) "exec" then handleExec svc b env message c
  else if String.eqb (type message) "llm_chat" then handleLlmChat svc b env message c
  else if String.eqb (type message) "send_keys" then handleSendKeys svc env message c
  else if String.eqb (type message) "list_sessions" then
    handleListSessions b env message c
  else c.

(** The register message of registerAsApiAgent (lines 89-103). *)
Definition registerAsApiAgent (env : Env) (c : Client) : Client :=
  let meta : gmap string string :=
    <["agentId" := agentId c]> (<["machineId" := machineId c]> ∅) in
  let meta := if truthy (Some (token c)) then <["token" := token c]> meta
              else meta in
  (send env (mkMessage "register" (Some "host") (Some ("api-" +:+ agentId c)) None
               (Some meta)) c).2.

Definition set_ws v c := mkClient (relay c) (machineId c) (token c) (agentId c) v (isConnected c) (reconnectAttempts c) (circuitBreakerOpen c) (circuitBreakerResetTime c) (reconnectTimer c) (destroyed c) (sockets c) (timers c) (next_id c) (trace c).
Definition set_isConnected v c := mkClient (relay c) (machineId c) (token c) (agentId c) (ws c) v (reconnectAttempts c) (circuitBreakerOpen c) (circuitBreakerResetTime c) (reconnectTimer c) (destroyed c) (sockets c) (timers c) (next_id c) (trace c).
Definition set_destroyed v c := mkClient (relay c) (machineId c) (token c) (agentId c) (ws c) (isConnected c) (reconnectAttempts c) (circuitBreakerOpen c) (circuitBreakerResetTime c) (reconnectTimer c) v (sockets c) (timers c) (next_id c) (trace c).
Definition set_sockets v c := mkClient (relay c) (machineId c) (token c) (agentId c) (ws c) (isConnected c) (reconnectAttempts c) (circuitBreakerOpen c) (circuitBreakerResetTime c) (reconnectTimer c) (destroyed c) v (timers c) (next_id c) (trace c).

Definition clearTimeout (id : nat) (c : Client) : Client :=
  act (ClearTimeout id) (set_timers (remove_timer id (timers c)) c).

Definition ws_close (id : nat) (c : Client) : Client :=
  act (WsClose id) (set_sockets (transition id closing (sockets c)) c).

(** connect() (lines 45-87); the handlers it registers follow. *)
Definition connect (env : Env) (c : Client) : Client :=
  if destroyed c then c
  else if WebSocket_ok env then
    let id := next_id c in
    act (NewWebSocket (Some id))
      (set_ws (Some id)
        (set_next_id (S id)
          (set_sockets (sockets c ++ [mkSocket id CONNECTING]) c)))
  else
    let c := act (NewWebSocket None) c in
    if negb (destroyed c) then scheduleReconnect env c else c.

(** 'open' (lines 51-57) *)
Definition on_open (env : Env) (c : Client) : Client :=
  let c := set_isConnected true c in
  let c := set_reconnectAttempts 0 c in
  let c := set_circuitBreakerOpen false c in
  registerAsApiAgent env c.

(** 'close' (lines 68-75) *)
Definition on_close (env : Env) (c : Client) : Client :=
  let c := set_isConnected false c in
  if negb (destroyed c) then scheduleReconnect env c else c.

(** stop() (lines 281-294) *)
Definition stop (c : Client) : Client :=
  let c := set_destroyed true c in
  let c := match reconnectTimer c with
           | Some id => set_reconnectTimer None (clearTimeout id c)
           | None => c
           end in
  match ws c with
  | Some id => set_ws None (ws_close id c)
  | None => c
  end.

(** [Math.floor(Math.random() * 2000)] of start() (line 40). *)
Definition start_jitter (rnd : Z) : Z :=
  Double.floor (Double.mul_int (Double.random rnd) 2000).

(** start() (lines 33-43): the delay of the timer it sets, if any. *)
Definition start (enabled : bool) (rnd : Z) (c : Client) : option Z :=
  if negb enabled || negb (truthy (Some (agentId c))) then None
  else Some (start_jitter rnd).

End ApiClient.
(** * Properties *)

Arguments Relay.reconnectDelay : simpl never.
Arguments Api.reconnectDelay : simpl never.

Section DoubleFacts.
Import Double.

Lemma excess_le x j : 0 <= j -> 0 <= x < 2 ^ (j + PRECISION) -> excess x <= j.
Proof.
  intros Hj [H0 Hx]. unfold excess.
  destruct (Z.eq_dec x 0) as [->|Hne].
  - simpl. unfold PRECISION. lia.
  - assert (Z.log2 x < j + PRECISION); [|lia].
    apply Z.log2_lt_pow2; lia.
Qed.

(** Rounding moves a value to a neighbouring multiple of [2 ^ excess]. *)
Lemma round_cases x :
  let s := excess x in
  round x = x \/
  (0 < s /\ (round x = (x / 2 ^ s) * 2 ^ s \/
            (0 < x mod 2 ^ s /\ round x = (x / 2 ^ s + 1) * 2 ^ s))).
Proof.
  intros s. unfold round. fold s.
  destruct (Z.leb_spec s 0) as [Hs|Hs]; [by left|right].
  split; [done|].
  assert (0 < 2 ^ (s - 1)) by (apply Z.pow_pos_nonneg; lia).
  destruct (_ || _) eqn:Hb; [right|by left].
  split; [|done].
  apply orb_true_iff in Hb as [Hb|Hb].
  - apply Z.ltb_lt in Hb. lia.
  - apply andb_true_iff in Hb as [Hb _]. apply Z.eqb_eq in Hb. lia.
Qed.

Lemma round_le_grid x c j :
  0 <= x <= c * 2 ^ j -> excess x <= j -> round x <= c * 2 ^ j.
Proof.
  intros [H0 Hx] Hj.
  destruct (round_cases x) as [->|[Hs Hr]]; [done|].
  set (s := excess x) in *.
  assert (Hp : 0 < 2 ^ s) by (apply Z.pow_pos_nonneg; lia).
  assert (Hc : c * 2 ^ j = (c * 2 ^ (j - s)) * 2 ^ s).
  { rewrite <- Z.mul_assoc, <- Z.pow_add_r by lia. do 2 f_equal. lia. }
  pose proof (Z.div_mod x (2 ^ s) ltac:(lia)) as Hdm.
  pose proof (Z.mod_pos_bound x (2 ^ s) Hp) as Hm.
  rewrite Hc in Hx |- *. clear Hc.
  set (B := c * 2 ^ (j - s)) in *. set (P := 2 ^ s) in *.
  set (q := x / P) in *. set (r := x mod P) in *.
  destruct Hr as [->|[Hpos ->]].
  - apply Z.mul_le_mono_nonneg_r; [lia|]. nia.
  - apply Z.mul_le_mono_nonneg_r; [lia|]. nia.
Qed.

Lemma round_ge_grid x c j :
  0 <= x -> c * 2 ^ j <= x -> excess x <= j -> c * 2 ^ j <= round x.
Proof.
  intros H0 Hx Hj.
  destruct (round_cases x) as [->|[Hs Hr]]; [done|].
  set (s := excess x) in *.
  assert (Hp : 0 < 2 ^ s) by (apply Z.pow_pos_nonneg; lia).
  assert (Hc : c * 2 ^ j = (c * 2 ^ (j - s)) * 2 ^ s).
  { rewrite <- Z.mul_assoc, <- Z.pow_add_r by lia. do 2 f_equal. lia. }
  pose proof (Z.div_mod x (2 ^ s) ltac:(lia)) as Hdm.
  pose proof (Z.mod_pos_bound x (2 ^ s) Hp) as Hm.
  rewrite Hc in Hx |- *. clear Hc.
  set (B := c * 2 ^ (j - s)) in *. set (P := 2 ^ s) in *.
  set (q := x / P) in *. set (r := x mod P) in *.
  destruct Hr as [->|[Hpos ->]].
  - apply Z.mul_le_mono_nonneg_r; [lia|]. nia.
  - apply Z.mul_le_mono_nonneg_r; [lia|]. nia.
Qed.

(** [Math.floor(d + Math.random() * d * 0.5)] for an even integer
    [d] up to 2^16. *)
Lemma jittered_bounds d k :
  0 < d <= 2 ^ 16 -> 0 <= k < 2 ^ 53 ->
  let r := floor (add (of_int d) (halve (mul_int (random k) d))) in
  d <= r /\ 2 * r <= 3 * d.
Proof.
  intros Hd Hk. unfold floor, add, of_int, halve, mul_int, random, SCALE.
  set (m := round (2 * k * d)).
  assert (Hm : 0 <= m <= d * 2 ^ 54).
  { assert (He : excess (2 * k * d) <= 54).
    { apply excess_le; [lia|]. unfold PRECISION.
      change (2 ^ (54 + 53)) with (2 ^ 54 * 2 ^ 53).
      change (2 ^ 16) with 65536 in Hd. nia. }
    split.
    - change 0 with (0 * 2 ^ 54). apply round_ge_grid; [nia|nia|done].
    - apply round_le_grid; [nia|done]. }
  set (j := m / 2).
  assert (Hj : 0 <= j <= d * 2 ^ 53).
  { unfold j. change (2 ^ 54) with (2 * 2 ^ 53) in Hm. split.
    - apply Z.div_pos; lia.
    - apply Z.div_le_upper_bound; lia. }
  assert (He : excess (d * 2 ^ 54 + j) <= 53).
  { apply excess_le; [lia|]. unfold PRECISION.
    change (2 ^ (53 + 53)) with (2 ^ 53 * 2 ^ 53).
    change (2 ^ 54) with (2 * 2 ^ 53).
    change (2 ^ 16) with 65536 in Hd. nia. }
  assert (Hlo : d * 2 ^ 54 <= round (d * 2 ^ 54 + j)).
  { apply round_ge_grid; [nia|lia|lia]. }
  assert (Hhi : round (d * 2 ^ 54 + j) <= (3 * d) * 2 ^ 53).
  { apply round_le_grid; [|done]. change (2 ^ 54) with (2 * 2 ^ 53). nia. }
  set (t := round (d * 2 ^ 54 + j)) in *.
  split.
  - apply Z.div_le_lower_bound; lia.
  - pose proof (Z.mul_div_le t (2 ^ 54) ltac:(lia)) as Hq.
    change (2 ^ 54) with (2 * 2 ^ 53) in Hq |- *. lia.
Qed.
End DoubleFacts.

Section ReconnectDelay.
Import Runtime.

Lemma backoff_uncapped n :
  1 <= n <= 5 -> Relay.backoff n = 2000 * 2 ^ (n - 1).
Proof.
  intros Hn. assert (n = 1 \/ n = 2 \/ n = 3 \/ n = 4 \/ n = 5) as Hc by lia.
  destruct Hc as [->|[->|[->|[->| ->]]]]; reflexivity.
Qed.

Lemma backoff_range n : 1 <= n -> 0 < Relay.backoff n <= 2 ^ 16.
Proof.
  intros Hn. unfold Relay.backoff, Relay.BASE_RECONNECT_DELAY_MS,
    Relay.MAX_RECONNECT_DELAY_MS.
  assert (0 < 2 ^ (n - 1)) by (apply Z.pow_pos_nonneg; lia).
  change (2 ^ 16) with 65536. lia.
Qed.

Lemma relay_schedules_connect env c :
  Relay.destroyed c = false -> Relay.circuitBreakerOpen c = false ->
  Relay.reconnectAttempts c + 1 <= Relay.MAX_RECONNECT_ATTEMPTS ->
  let c' := Relay.scheduleReconnect env c in
  Relay.reconnectAttempts c' = Relay.reconnectAttempts c + 1 /\
  Relay.timers c' =
    Relay.timers c ++
    [mkTimer (Relay.next_id c)
       (Date_now env + Relay.reconnectDelay (Relay.reconnectAttempts c + 1)
                         (Math_random env)) CbConnect] /\
  Relay.reconnectTimer c' = Some (Relay.next_id c).
Proof.
  intros Hd Hc Hn. unfold Relay.scheduleReconnect. rewrite Hd, Hc. cbn [andb].
  cbn [Relay.reconnectAttempts Relay.set_reconnectAttempts].
  destruct (Z.ltb_spec Relay.MAX_RECONNECT_ATTEMPTS (Relay.reconnectAttempts c + 1));
    [lia|]. done.
Qed.

Lemma api_schedules_connect env c :
  Api.destroyed c = false -> Api.circuitBreakerOpen c = false ->
  Api.reconnectAttempts c + 1 <= Api.MAX_RECONNECT_ATTEMPTS ->
  let c' := Api.scheduleReconnect env c in
  Api.reconnectAttempts c' = Api.reconnectAttempts c + 1 /\
  Api.timers c' =
    Api.timers c ++
    [mkTimer (Api.next_id c)
       (Date_now env + Api.reconnectDelay (Api.reconnectAttempts c + 1)
                         (Math_random env)) CbConnect] /\
  Api.reconnectTimer c' = Some (Api.next_id c).
Proof.
  intros Hd Hc Hn. unfold Api.scheduleReconnect. rewrite Hd, Hc. cbn [andb].
  cbn [Api.reconnectAttempts Api.set_reconnectAttempts].
  destruct (Z.ltb_spec Api.MAX_RECONNECT_ATTEMPTS (Api.reconnectAttempts c + 1));
    [lia|]. done.
Qed.

End ReconnectDelay.


Lemma api_reconnectDelay_same n rnd :
  Api.reconnectDelay n rnd = Relay.reconnectDelay n rnd.
Proof.
  unfold Api.reconnectDelay, Relay.reconnectDelay, Api.jitter, Relay.jitter,
    Api.backoff, Relay.backoff, Api.BASE_RECONNECT_DELAY_MS,
    Relay.BASE_RECONNECT_DELAY_MS, Api.MAX_RECONNECT_DELAY_MS,
    Relay.MAX_RECONNECT_DELAY_MS.
  exact eq_refl.
Qed.

Lemma reconnectDelay_bounds n rnd :
  1 <= n -> 0 <= rnd < 2 ^ 53 ->
  Relay.backoff n <= Relay.reconnectDelay n rnd /\
  2 * Relay.reconnectDelay n rnd <= 3 * Relay.backoff n.
Proof.
  intros Hn Hk.
  exact (jittered_bounds (Relay.backoff n) rnd (backoff_range n Hn) Hk).
Qed.

(** C1 (as amended). For every reconnection attempt n with 1 <= n <= 5
    on a Relay Link or on the Control Channel client, the delay of the
    connect timer that scheduleReconnect sets is
    floor(delay + jitter) with delay = 2000 * 2^(n-1) (the cap of 60000
    is not reached) and jitter = random * delay * 0.5 computed in
    doubles: it lies between delay and 1.5 * delay, both ends included. *)
Theorem reconnect_delay_bounds (n : Z) (env : Env) (c : Relay.Client) (a : Api.Client) :
  1 <= n <= 5 -> 0 <= Math_random env < 2 ^ 53 ->
  Relay.destroyed c = false -> Relay.circuitBreakerOpen c = false ->
  Relay.reconnectAttempts c = n - 1 ->
  Api.destroyed a = false -> Api.circuitBreakerOpen a = false ->
  Api.reconnectAttempts a = n - 1 ->
  let base := 2000 * 2 ^ (n - 1) in
  let d := Relay.reconnectDelay n (Math_random env) in
  Z.min base 60000 = base /\ base <= d /\ 2 * d <= 3 * base /\
  Relay.timers (Relay.scheduleReconnect env c) =
    Relay.timers c ++
    [Runtime.mkTimer (Relay.next_id c) (Date_now env + d) Runtime.CbConnect] /\
  Relay.reconnectAttempts (Relay.scheduleReconnect env c) = n /\
  Api.timers (Api.scheduleReconnect env a) =
    Api.timers a ++
    [Runtime.mkTimer (Api.next_id a) (Date_now env + d) Runtime.CbConnect] /\
  Api.reconnectAttempts (Api.scheduleReconnect env a) = n.
Proof.
  intros Hn Hk Hd Hc Hat Hd' Hc' Hat' base d.
  pose proof (backoff_uncapped n Hn) as Hb.
  destruct (reconnectDelay_bounds n (Math_random env) ltac:(lia) Hk) as [Hlo Hhi].
  fold d in Hlo, Hhi. rewrite Hb in Hlo, Hhi. fold base in Hlo, Hhi.
  split; [exact Hb|]. split; [exact Hlo|]. split; [exact Hhi|].
  destruct (relay_schedules_connect env c Hd Hc) as (Ha & Ht & _).
  { rewrite Hat. unfold Relay.MAX_RECONNECT_ATTEMPTS. lia. }
  destruct (api_schedules_connect env a Hd' Hc') as (Ha' & Ht' & _).
  { rewrite Hat'. unfold Api.MAX_RECONNECT_ATTEMPTS. lia. }
  rewrite api_reconnectDelay_same in Ht'.
  rewrite Hat in Ha, Ht. rewrite Hat' in Ha', Ht'.
  replace (n - 1 + 1) with n in * by lia.
  repeat split; [exact Ht|exact Ha|exact Ht'|exact Ha'].
Qed.

Definition idle_relay : Relay.Client :=
  Relay.new_client "wss://relay" "m1/dev" "m1" "secret" (Some "dev") None.

Definition idle_api : Api.Client :=
  Api.mkClient "wss://relay" "m1" "secret" "agent" None false 0 false 0 None false
    [] [] 0%nat [].

Definition quiet (now rnd : Z) : Env := mkEnv now rnd true true (fun _ => None).

Lemma reconnect_delay_bounds_witness :
  2000 * 2 ^ (1 - 1) <= Relay.reconnectDelay 1 (2 ^ 52) /\
  2 * Relay.reconnectDelay 1 (2 ^ 52) <= 3 * (2000 * 2 ^ (1 - 1)).
Proof.
  destruct (reconnect_delay_bounds 1 (quiet 0 (2 ^ 52)) idle_relay idle_api)
    as (_ & Hlo & Hhi & _).
  - lia.
  - vm_compute. split; [discriminate|reflexivity].
  - reflexivity.
  - reflexivity.
  - reflexivity.
  - reflexivity.
  - reflexivity.
  - reflexivity.
  - split; [exact Hlo|exact Hhi].
Defined.

(** C1, counterexample. With the random draw 1 - 2^-53 the first
    reconnect is scheduled after exactly 3000 ms = 1.5 * 2000 ms: the
    sum 2000 + 999.99... rounds up to the double 3000. *)
Lemma reconnect_delay_reaches_upper_end :
  Relay.timers (Relay.scheduleReconnect (quiet 0 (2 ^ 53 - 1)) idle_relay)
    = [Runtime.mkTimer 0 3000 Runtime.CbConnect] /\
  ~ (2 * 3000 < 3 * (2000 * 2 ^ (1 - 1))).
Proof. split; [vm_compute; reflexivity|]. vm_compute. intros H. discriminate H. Qed.

(** ** The relay link as a transition system *)

Section SocketsAndTimers.
Import Runtime.

Lemma live_count_keep id f ss :
  (forall st, is_live (mkSocket id (f st)) = is_live (mkSocket id st)) ->
  length (List.filter is_live (transition id f ss)) =
  length (List.filter is_live ss).
Proof.
  intros Hf. induction ss as [|[i st] ss IH]; [done|].
  cbn [transition List.map List.filter socket_id readyState].
  fold (transition id f ss).
  destruct (Nat.eqb_spec i id) as [->|Hne].
  - rewrite Hf. destruct (is_live (mkSocket id st)); cbn [length]; by rewrite IH.
  - destruct (is_live (mkSocket i st)); cbn [length]; by rewrite IH.
Qed.

Lemma live_opened id ss :
  length (List.filter is_live (transition id opened ss)) =
  length (List.filter is_live ss).
Proof. apply live_count_keep. by intros []. Qed.

Lemma live_closing id ss :
  length (List.filter is_live (transition id closing ss)) =
  length (List.filter is_live ss).
Proof. apply live_count_keep. by intros []. Qed.

Lemma live_closed_le id ss :
  (length (List.filter is_live (transition id closed ss)) <=
   length (List.filter is_live ss))%nat.
Proof.
  unfold transition. induction ss as [|[i st] ss IH]; [done|].
  cbn. destruct (Nat.eqb i id); cbn.
  - destruct (is_live (mkSocket i st)); cbn; lia.
  - destruct (is_live (mkSocket i st)); cbn; lia.
Qed.

(** A socket that is not closed counts as live; closing it lowers the
    count. *)
Lemma live_closed_lt id ss st :
  socket_state id ss = Some st -> st <> CLOSED ->
  (length (List.filter is_live (transition id closed ss)) <
   length (List.filter is_live ss))%nat.
Proof.
  unfold socket_state, transition. induction ss as [|[i s0] ss IH]; [done|].
  cbn. destruct (Nat.eqb i id) eqn:Hi; cbn.
  - intros [= ->] Hst. pose proof (live_closed_le id ss) as Hle.
    unfold transition in Hle.
    assert (is_live (mkSocket i st) = true) as -> by (by destruct st).
    cbn. lia.
  - intros Hf Hst. specialize (IH Hf Hst).
    destruct (is_live (mkSocket i s0)); cbn; lia.
Qed.

Lemma socket_state_live id ss st :
  socket_state id ss = Some st -> st <> CLOSED ->
  (0 < length (List.filter is_live ss))%nat.
Proof.
  intros Hs Hst. pose proof (live_closed_lt id ss st Hs Hst). lia.
Qed.

Lemma remove_timer_le id ts : (length (remove_timer id ts) <= length ts)%nat.
Proof.
  unfold remove_timer. induction ts as [|t ts IH]; [done|]. cbn.
  destruct (negb _); cbn; lia.
Qed.

Lemma find_timer_In id ts t : find_timer id ts = Some t -> In t ts.
Proof. intros H. by apply List.find_some in H as [H _]. Qed.

Lemma remove_timer_lt id ts t :
  find_timer id ts = Some t ->
  (length (remove_timer id ts) < length ts)%nat.
Proof.
  unfold find_timer, remove_timer. induction ts as [|t0 ts IH]; [done|]. cbn.
  destruct (Nat.eqb (timer_id t0) id); cbn.
  - intros _. pose proof (remove_timer_le id ts) as Hle.
    unfold remove_timer in Hle. lia.
  - intros H. specialize (IH H). lia.
Qed.

Lemma remove_timer_Forall (P : Timer -> Prop) id ts :
  Forall P ts -> Forall P (remove_timer id ts).
Proof.
  intros H. apply List.Forall_forall. intros t Ht.
  apply List.filter_In in Ht as [Ht _].
  by eapply List.Forall_forall in H.
Qed.

End SocketsAndTimers.

Section RelayInvariant.
Import Runtime Relay.

(** What holds of a link that only its single start, its sockets, its
    timers and its owner's [destroy()] drive:
    - one thing at a time: a live socket or a pending timer;
    - the attempt counter stays within 0..5;
    - while the breaker is open the counter is 0, no socket is live
      and the only timers are checks due at the reset time. *)
Definition check_at (reset : Z) (t : Timer) : Prop :=
  callback t = CbScheduleReconnect /\ due t = reset.

Definition breaker_ok (c : Client) : Prop :=
  circuitBreakerOpen c = true ->
  reconnectAttempts c = 0 /\ live_sockets c = [] /\
  Forall (check_at (circuitBreakerResetTime c)) (timers c).

Definition inv (c : Client) : Prop :=
  (length (live_sockets c) + length (timers c) <= 1)%nat /\
  0 <= reconnectAttempts c <= MAX_RECONNECT_ATTEMPTS /\
  breaker_ok c.

(** Two states with the same sockets, timers and breaker fields. *)
Definition same_fields (c c' : Client) : Prop :=
  sockets c' = sockets c /\ timers c' = timers c /\
  reconnectAttempts c' = reconnectAttempts c /\
  circuitBreakerOpen c' = circuitBreakerOpen c /\
  circuitBreakerResetTime c' = circuitBreakerResetTime c.

(** ... and the same number of connection attempts behind them. *)
Definition same_link (c c' : Client) : Prop :=
  same_fields c c' /\ connection_attempts c' = connection_attempts c.

Lemma inv_fields c c' : same_fields c c' -> inv c -> inv c'.
Proof.
  intros (Hs & Ht & Ha & Hc & Hr). unfold inv, breaker_ok, live_sockets.
  by rewrite Hs, Ht, Ha, Hc, Hr.
Qed.

Lemma inv_same c c' : same_link c c' -> inv c -> inv c'.
Proof. intros [H _]. by apply inv_fields. Qed.

Lemma same_link_refl c : same_link c c.
Proof. by repeat split. Qed.

Lemma same_link_trans c1 c2 c3 :
  same_link c1 c2 -> same_link c2 c3 -> same_link c1 c3.
Proof.
  intros [(?&?&?&?&?) ?] [(?&?&?&?&?) ?]. repeat split; congruence.
Qed.

Lemma attempts_act a c :
  is_attempt a = false -> connection_attempts (act a c) = connection_attempts c.
Proof.
  intros Ha. unfold connection_attempts, act. cbn.
  rewrite List.filter_app. cbn. rewrite Ha. by rewrite app_nil_r.
Qed.

Lemma same_link_act a c : is_attempt a = false -> same_link c (act a c).
Proof. intros Ha. repeat split. by apply attempts_act. Qed.

Lemma same_link_send env m c : same_link c (send env m c).2.
Proof.
  unfold send. destruct (ws c) as [id|]; [|apply same_link_refl].
  destruct (socket_state id (sockets c)) as [[]|]; try apply same_link_refl.
  destruct (ws_send_ok env); [|apply same_link_refl].
  by apply same_link_act.
Qed.

Lemma same_link_sendScreen env data c : same_link c (sendScreen env data c).2.
Proof.
  unfold sendScreen. destruct (negb _); [apply same_link_refl|apply same_link_send].
Qed.

Lemma same_link_sendScreenCompressed env data c :
  same_link c (sendScreenCompressed env data c).2.
Proof.
  unfold sendScreenCompressed. destruct (negb _); [apply same_link_refl|].
  destruct (gzipSync env data); [apply same_link_send|apply same_link_sendScreen].
Qed.

Lemma same_link_registerAsHost env c : same_link c (registerAsHost env c).
Proof. unfold registerAsHost. apply same_link_send. Qed.

(** destroy() starts no connection, keeps the breaker's fields and
    leaves no more sockets or timers than there were. *)
Lemma destroy_link c :
  length (live_sockets (destroy c)) = length (live_sockets c) /\
  (exists ids, timers (destroy c) =
               List.fold_right remove_timer (timers c) ids) /\
  reconnectAttempts (destroy c) = reconnectAttempts c /\
  circuitBreakerOpen (destroy c) = circuitBreakerOpen c /\
  circuitBreakerResetTime (destroy c) = circuitBreakerResetTime c /\
  connection_attempts (destroy c) = connection_attempts c.
Proof.
  destruct c as [o w ar ic ra co rt tm d ss ts n ex tr].
  unfold destroy, live_sockets, connection_attempts.
  destruct tm as [tid|]; destruct w as [sid|]; cbn;
    rewrite ?live_closing; repeat (rewrite List.filter_app; cbn);
    rewrite ?app_nil_r.
  - split; [exact (live_closing sid ss)|]. split; [by exists [tid]|done].
  - split; [done|]. split; [by exists [tid]|done].
  - split; [exact (live_closing sid ss)|]. split; [by exists []|done].
  - split; [done|]. split; [by exists []|done].
Qed.

Lemma fold_remove_le ids ts :
  (length (List.fold_right remove_timer ts ids) <= length ts)%nat.
Proof.
  induction ids as [|i ids IH]; cbn; [lia|].
  pose proof (remove_timer_le i (List.fold_right remove_timer ts ids)). lia.
Qed.

Lemma fold_remove_Forall (P : Timer -> Prop) ids ts :
  Forall P ts -> Forall P (List.fold_right remove_timer ts ids).
Proof.
  intros H. induction ids as [|i ids IH]; cbn; [done|].
  by apply remove_timer_Forall.
Qed.

Lemma length_0_nil {A} (l : list A) : (length l <= 0)%nat -> l = [].
Proof. destruct l; cbn; [done|lia]. Qed.

Lemma inv_destroy c : inv c -> inv (destroy c).
Proof.
  intros (Hone & Hatt & Hbr).
  destruct (destroy_link c) as (Hl & [ids Ht] & Ha & Hc & Hr & _).
  pose proof (fold_remove_le ids (timers c)) as Hle.
  split; [rewrite Hl, Ht; lia|]. split; [by rewrite Ha|].
  intros Hopen. rewrite Hc in Hopen. destruct (Hbr Hopen) as (H0 & Hlive & Hall).
  split; [by rewrite Ha|]. split.
  - apply length_0_nil. rewrite Hl, Hlive. cbn. lia.
  - rewrite Ht, Hr. by apply fold_remove_Forall.
Qed.

End RelayInvariant.

Section RelaySteps.
Import Runtime Relay.

(** The three things scheduleReconnect can do on a link that is not
    destroyed: wait for the breaker, trip the breaker, or set the
    connect timer of the next attempt. *)
Lemma scheduleReconnect_cases env c :
  let c' := scheduleReconnect env c in
  let now := Date_now env in
  let n := (if circuitBreakerOpen c then 0 else reconnectAttempts c) + 1 in
  sockets c' = sockets c /\
  connection_attempts c' = connection_attempts c /\
  ((destroyed c = true /\ c' = c) \/
   (destroyed c = false /\
    ((circuitBreakerOpen c = true /\ now < circuitBreakerResetTime c /\
      circuitBreakerOpen c' = true /\
      circuitBreakerResetTime c' = circuitBreakerResetTime c /\
      reconnectAttempts c' = reconnectAttempts c /\
      timers c' = timers c ++
        [mkTimer (next_id c) (now + (circuitBreakerResetTime c - now))
           CbScheduleReconnect]) \/
     ((circuitBreakerOpen c = false \/ circuitBreakerResetTime c <= now) /\
      MAX_RECONNECT_ATTEMPTS < n /\
      circuitBreakerOpen c' = true /\
      circuitBreakerResetTime c' = now + CIRCUIT_BREAKER_DURATION_MS /\
      reconnectAttempts c' = 0 /\
      timers c' = timers c ++
        [mkTimer (next_id c) (now + CIRCUIT_BREAKER_DURATION_MS)
           CbScheduleReconnect]) \/
     ((circuitBreakerOpen c = false \/ circuitBreakerResetTime c <= now) /\
      n <= MAX_RECONNECT_ATTEMPTS /\
      circuitBreakerOpen c' = false /\
      reconnectAttempts c' = n /\
      timers c' = timers c ++
        [mkTimer (next_id c) (now + reconnectDelay n (Math_random env))
           CbConnect])))).
Proof.
  destruct c as [o w ar ic ra co rt tm d ss ts nx ex tr].
  unfold scheduleReconnect, connection_attempts. cbn.
  destruct d; cbn; [by auto|].
  destruct co; cbn.
  - destruct (Z.ltb_spec (Date_now env) rt); cbn.
    + rewrite List.filter_app; cbn; rewrite app_nil_r.
      split; [done|]. split; [done|]. right. split; [done|]. left. done.
    + unfold MAX_RECONNECT_ATTEMPTS. change (5 <? 0 + 1) with false. cbn.
      rewrite List.filter_app; cbn; rewrite app_nil_r.
      split; [done|]. split; [done|]. right. split; [done|]. right. right.
      repeat split; auto; lia.
  - destruct (Z.ltb_spec MAX_RECONNECT_ATTEMPTS (ra + 1)); cbn;
      rewrite List.filter_app; cbn; rewrite app_nil_r.
    + split; [done|]. split; [done|]. right. split; [done|]. right. left.
      repeat split; auto.
    + split; [done|]. split; [done|]. right. split; [done|]. right. right.
      repeat split; auto.
Qed.

Lemma inv_scheduleReconnect env c :
  live_sockets c = [] -> timers c = [] ->
  0 <= reconnectAttempts c <= MAX_RECONNECT_ATTEMPTS ->
  (circuitBreakerOpen c = true -> reconnectAttempts c = 0) ->
  inv (scheduleReconnect env c).
Proof.
  intros Hl Ht Ha Hc.
  destruct (scheduleReconnect_cases env c) as (Hs & _ & Hcases).
  unfold inv, breaker_ok, live_sockets in *. rewrite Hs, Hl.
  destruct Hcases as [[_ ->]|[_ Hcases]].
  { rewrite Ht. cbn. split; [lia|]. split; [done|].
    intros Ho. split; [auto|]. split; [done|]. constructor. }
  destruct Hcases as [(Ho & Hlt & Ho' & Hr' & Ha' & Ht')|
                      [(_ & Hn & Ho' & Hr' & Ha' & Ht')|
                       (_ & Hn & Ho' & Ha' & Ht')]];
    rewrite Ht', Ht; cbn.
  - split; [lia|]. split; [lia|]. intros _. rewrite Ha'.
    split; [auto|]. split; [done|]. rewrite Hr'.
    constructor; [|constructor]. split; cbn; [done|lia].
  - split; [lia|]. rewrite Ha'. unfold MAX_RECONNECT_ATTEMPTS.
    split; [lia|]. intros _. split; [done|]. split; [done|]. rewrite Hr'.
    constructor; [|constructor]. by split.
  - split; [lia|]. rewrite Ha'. rewrite Ho'.
    split; [|done]. destruct (circuitBreakerOpen c); lia.
Qed.

Lemma connect_cases env c :
  let c' := connect env c in
  (destroyed c = true /\ c' = c) \/
  (destroyed c = false /\ WebSocket_ok env = true /\
   sockets c' = sockets c ++ [mkSocket (next_id c) CONNECTING] /\
   ws c' = Some (next_id c) /\
   timers c' = timers c /\
   reconnectAttempts c' = reconnectAttempts c /\
   circuitBreakerOpen c' = circuitBreakerOpen c /\
   circuitBreakerResetTime c' = circuitBreakerResetTime c /\
   connection_attempts c' = S (connection_attempts c)) \/
  (destroyed c = false /\ WebSocket_ok env = false /\
   exists c1, same_fields c c1 /\ timers c1 = timers c /\
     destroyed c1 = false /\
     connection_attempts c' = S (connection_attempts c) /\
     c' = if autoReconnect c then scheduleReconnect env c1 else c1).
Proof.
  unfold connect. destruct (destroyed c) eqn:Hd; [by left|right].
  destruct (WebSocket_ok env) eqn:Hok; [left|right].
  - split; [done|]. split; [done|].
    repeat (split; [reflexivity|]).
    unfold connection_attempts, act. cbn [trace set_trace set_ws set_next_id set_sockets].
    rewrite List.filter_app, length_app. cbn. lia.
  - split; [done|]. split; [done|].
    set (c1 := emit EError (act (NewWebSocket None) c)).
    assert (Hn1 : connection_attempts c1 = S (connection_attempts c)).
    { unfold c1, connection_attempts, emit, act. cbn [trace set_trace].
      rewrite !List.filter_app, !length_app. cbn. lia. }
    exists c1. change (autoReconnect c1) with (autoReconnect c).
    change (destroyed c1) with (destroyed c). rewrite Hd, andb_true_r.
    split; [|split; [done|split; [done|split; [|done]]]].
    + by repeat split.
    + destruct (autoReconnect c); [|done].
      destruct (scheduleReconnect_cases env c1) as (_ & Hn & _). by rewrite Hn.
Qed.

End RelaySteps.

Section RelayReachable.
Import Runtime Relay.

Ltac link_chain :=
  repeat first
    [ apply same_link_refl
    | eapply same_link_trans; [|apply same_link_act; reflexivity] ].

Lemma inv_quiet c :
  live_sockets c = [] -> timers c = [] ->
  0 <= reconnectAttempts c <= MAX_RECONNECT_ATTEMPTS ->
  (circuitBreakerOpen c = true -> reconnectAttempts c = 0) -> inv c.
Proof.
  intros Hl Ht Ha Hc. unfold inv, breaker_ok. rewrite Hl, Ht. cbn.
  split; [lia|]. split; [done|]. intros Ho. split; [auto|]. split; [done|].
  constructor.
Qed.

Lemma inv_connect env c :
  live_sockets c = [] -> timers c = [] ->
  0 <= reconnectAttempts c <= MAX_RECONNECT_ATTEMPTS ->
  circuitBreakerOpen c = false -> inv (connect env c).
Proof.
  intros Hl Ht Ha Hc.
  destruct (connect_cases env c) as
    [[_ ->]|[(_ & _ & Hs & _ & Ht' & Ha' & Hc' & _)|
             (_ & _ & c1 & (Hs1 & Ht1 & Ha1 & Hc1 & Hr1) & _ & _ & _ & ->)]].
  - apply inv_quiet; auto. congruence.
  - unfold inv, breaker_ok, live_sockets in *.
    rewrite Hs, Ht', Ha', Hc', Ht, Hc, List.filter_app, Hl. cbn.
    split; [lia|]. split; [done|]. done.
  - assert (live_sockets c1 = []) by (unfold live_sockets in *; by rewrite Hs1).
    destruct (autoReconnect c).
    + apply inv_scheduleReconnect; try congruence.
    + apply inv_quiet; try congruence.
Qed.

Lemma same_link_console_error lines c : same_link c (console_error lines c).
Proof.
  unfold console_error. revert c.
  induction lines as [|l lines IH]; intros c; [apply same_link_refl|].
  cbn [foldl]. eapply same_link_trans; [|apply IH]. by apply same_link_act.
Qed.

(** The three facts the proofs below carry through a handler:
    the invariant, the attempt count and the breaker flag. *)
Definition kept (c c' : Client) : Prop :=
  inv c' /\ connection_attempts c' = connection_attempts c /\
  circuitBreakerOpen c' = circuitBreakerOpen c.

Lemma kept_same c c' : inv c -> same_link c c' -> kept c c'.
Proof.
  intros Hinv Hs. split; [by apply (inv_same c)|].
  destruct Hs as [(_ & _ & _ & Ho & _) Hn]. by split.
Qed.

Lemma kept_exit c :
  inv c ->
  kept c (act (ProcessExit 1)
            (set_exited (Some 1) (destroy (set_autoReconnect false c)))).
Proof.
  intros Hinv. set (X := set_autoReconnect false c).
  assert (HX : same_link c X) by by repeat split.
  destruct (destroy_link X) as (_ & _ & _ & Hc & _ & Hn).
  assert (HD : inv (destroy X)) by (apply inv_destroy; by apply (inv_same c)).
  destruct HX as [(_ & _ & _ & HXc & _) HXn].
  clearbody X. set (D := destroy X) in *. clearbody D.
  split; [apply (inv_fields D); [by repeat split|done]|].
  split.
  - rewrite attempts_act by done.
    change (connection_attempts D = connection_attempts c). congruence.
  - change (circuitBreakerOpen D = circuitBreakerOpen c). congruence.
Qed.

Lemma kept_trans c1 c2 c3 : kept c1 c2 -> kept c2 c3 -> kept c1 c3.
Proof. intros (? & ? & ?) (? & ? & ?). split; [done|split; congruence]. Qed.

Lemma handleError_link message c : inv c -> kept c (handleError message c).
Proof.
  intros Hinv. unfold handleError. destruct (meta message) as [m|].
  - destruct (decide (m !! "code" = Some "LIMIT_EXCEEDED")).
    + apply (kept_trans _ (console_error (limit_notice m) c)).
      * apply kept_same; [done|apply same_link_console_error].
      * apply kept_exit. apply (inv_same c); [apply same_link_console_error|done].
    + apply kept_same; [done|apply same_link_console_error].
  - apply kept_same; [done|apply same_link_refl].
Qed.

Lemma handleMessage_link message c : inv c -> kept c (handleMessage message c).
Proof.
  intros Hinv. unfold handleMessage, emit.
  assert (Hact : forall a, is_attempt a = false -> kept c (act a c)).
  { intros a Ha. apply kept_same; [done|by apply same_link_act]. }
  assert (Hc : kept c c) by (apply kept_same; [done|apply same_link_refl]).
  repeat match goal with
         | |- context [if ?b then _ else _] => destruct b
         | |- context [match ?o with Some _ => _ | None => _ end] => destruct o
         end; auto using handleError_link.
Qed.

Lemma inv_step env ev c c' : inv c -> step env ev c = Some c' -> inv c'.
Proof.
  intros Hinv. pose proof Hinv as (Hone & Hatt & Hbr).
  unfold step. destruct (exited c); [done|].
  destruct ev as [id|id data|id|id code reason|id| |data|data].
  - (* open *)
    destruct (socket_state id (sockets c)) as [[]|] eqn:Hs; try done.
    intros [= <-]. unfold on_open.
    eapply inv_same; [apply same_link_registerAsHost|].
    eapply inv_same; [apply same_link_act; reflexivity|].
    unfold inv, breaker_ok, live_sockets in *. cbn.
    rewrite live_opened. unfold MAX_RECONNECT_ATTEMPTS. split; [lia|].
    split; [lia|done].
  - (* message *)
    destruct (socket_state id (sockets c)) as [[]|] eqn:Hs; try done.
    intros [= <-]. unfold on_message. destruct data as [m|].
    + by destruct (handleMessage_link m c Hinv).
    + apply (inv_same c); [by apply same_link_act|done].
  - (* error *)
    destruct (socket_state id (sockets c)) eqn:Hs; try done.
    intros [= <-]. apply (inv_same c); [by apply same_link_act|done].
  - (* close *)
    destruct (socket_state id (sockets c)) as [st|] eqn:Hs; [|done].
    assert (st <> CLOSED ->
            inv (on_close env code reason
                   (set_sockets (transition id closed (sockets c)) c))) as Hgo.
    { intros Hst. pose proof (live_closed_lt id _ _ Hs Hst) as Hlt.
      unfold live_sockets in *.
      assert (Ht : timers c = []) by (apply length_0_nil; lia).
      assert (Hl : List.filter is_live (transition id closed (sockets c)) = [])
        by (apply length_0_nil; lia).
      assert (Hc : circuitBreakerOpen c = false).
      { destruct (circuitBreakerOpen c) eqn:Ho; [|done].
        destruct (Hbr Ho) as (_ & Hnil & _). unfold live_sockets in Hnil.
        rewrite Hnil in Hlt. cbn in Hlt. lia. }
      unfold on_close.
      match goal with |- context [if ?b then _ else _] => destruct b end.
      - apply inv_scheduleReconnect; try done. cbn. by rewrite Hc.
      - apply inv_quiet; try done. cbn. by rewrite Hc. }
    destruct st; intros [= <-]; by apply Hgo.
  - (* timer *)
    destruct (find_timer id (timers c)) as [t|] eqn:Hf; [|done].
    intros [= <-].
    pose proof (remove_timer_lt _ _ _ Hf) as Hlt.
    assert (Ht : remove_timer id (timers c) = []) by (apply length_0_nil; lia).
    assert (Hl : live_sockets c = []) by (apply length_0_nil; lia).
    unfold run_callback. destruct (callback t) eqn:Hcb.
    + apply inv_scheduleReconnect; try done.
      intros Ho. by destruct (Hbr Ho).
    + assert (Hc : circuitBreakerOpen c = false).
      { destruct (circuitBreakerOpen c) eqn:Ho; [|done].
        destruct (Hbr Ho) as (_ & _ & Hall).
        eapply List.Forall_forall in Hall as [Hcb' _];
          [|by eapply find_timer_In]. congruence. }
      match goal with |- context [if ?b then _ else _] => destruct b end.
      * by apply inv_connect.
      * apply inv_quiet; try done. cbn. by rewrite Hc.
  - intros [= <-]. by apply inv_destroy.
  - intros [= <-]. eapply inv_same; [apply same_link_sendScreen|done].
  - intros [= <-]. eapply inv_same; [apply same_link_sendScreenCompressed|done].
Qed.

Lemma inv_reachable c : reachable c -> inv c.
Proof.
  induction 1 as [env u s m t l|env ev c c' _ IH Hstep].
  - by apply inv_connect.
  - by eapply inv_step.
Qed.

End RelayReachable.

Section RelayBreaker.
Import Runtime Relay.

Lemma breaker_trips env c :
  destroyed c = false -> circuitBreakerOpen c = false ->
  MAX_RECONNECT_ATTEMPTS <= reconnectAttempts c ->
  let c' := scheduleReconnect env c in
  circuitBreakerOpen c' = true /\
  circuitBreakerResetTime c' = Date_now env + 120000 /\
  reconnectAttempts c' = 0 /\
  timers c' = timers c ++
    [mkTimer (next_id c) (Date_now env + 120000) CbScheduleReconnect] /\
  connection_attempts c' = connection_attempts c.
Proof.
  intros Hd Ho Hn.
  destruct (scheduleReconnect_cases env c) as (_ & Hatt & Hcases).
  rewrite Ho in Hcases.
  destruct Hcases as [[Hd' _]|[_ [(Ho' & _)|[(_ & _ & H1 & H2 & H3 & H4)|(_ & Hle & _)]]]];
    [congruence|congruence| |lia].
  cbv zeta. by rewrite H1, H2, H3, H4, Hatt.
Qed.

(** What a step can do to a link whose breaker is open. *)
Lemma open_breaker_step env ev c c' :
  inv c -> circuitBreakerOpen c = true -> step env ev c = Some c' ->
  connection_attempts c' = connection_attempts c /\
  ((circuitBreakerOpen c' = true /\
    circuitBreakerResetTime c' = circuitBreakerResetTime c /\
    reconnectAttempts c' = 0) \/
   (exists id, ev = TimerFires id /\ circuitBreakerResetTime c <= Date_now env /\
      circuitBreakerOpen c' = false /\ reconnectAttempts c' = 1)).
Proof.
  intros Hinv Ho. pose proof Hinv as (_ & _ & Hbr).
  destruct (Hbr Ho) as (Ha & Hl & Hall).
  assert (Hdead : forall id st, socket_state id (sockets c) = Some st ->
                                st <> CLOSED -> False).
  { intros id st Hs Hst. pose proof (socket_state_live _ _ _ Hs Hst) as Hpos.
    unfold live_sockets in Hl. rewrite Hl in Hpos. cbn in Hpos. lia. }
  assert (Hsame : forall c1, same_link c c1 ->
            connection_attempts c1 = connection_attempts c /\
            ((circuitBreakerOpen c1 = true /\
              circuitBreakerResetTime c1 = circuitBreakerResetTime c /\
              reconnectAttempts c1 = 0) \/
             (exists id, ev = TimerFires id /\
                circuitBreakerResetTime c <= Date_now env /\
                circuitBreakerOpen c1 = false /\ reconnectAttempts c1 = 1))).
  { intros c1 [(_ & _ & H1 & H2 & H3) H4]. split; [done|left].
    repeat split; congruence. }
  unfold step. destruct (exited c); [done|].
  destruct ev as [id|id data|id|id code reason|id| |data|data].
  - destruct (socket_state id (sockets c)) as [[]|] eqn:Hs; try done.
    by destruct (Hdead _ _ Hs).
  - destruct (socket_state id (sockets c)) as [[]|] eqn:Hs; try done.
    by destruct (Hdead _ _ Hs).
  - destruct (socket_state id (sockets c)); [|done]. intros [= <-].
    apply Hsame. by apply same_link_act.
  - destruct (socket_state id (sockets c)) as [[]|] eqn:Hs; try done;
      by destruct (Hdead _ _ Hs).
  - destruct (find_timer id (timers c)) as [t|] eqn:Hf; [|done].
    intros [= <-].
    eapply List.Forall_forall in Hall as [Hcb _]; [|by eapply find_timer_In].
    unfold run_callback. rewrite Hcb.
    set (c0 := set_timers (remove_timer id (timers c)) c).
    destruct (scheduleReconnect_cases env c0) as (_ & Hatt & Hcases).
    change (connection_attempts c0) with (connection_attempts c) in Hatt.
    change (circuitBreakerOpen c0) with (circuitBreakerOpen c) in Hcases.
    change (circuitBreakerResetTime c0) with (circuitBreakerResetTime c) in Hcases.
    change (reconnectAttempts c0) with (reconnectAttempts c) in Hcases.
    rewrite Ho in Hcases. split; [done|].
    destruct Hcases as [[_ ->]|[_ [(_ & _ & H1 & H2 & H3 & _)|
                                   [(_ & Hlt & _)|(Hor & _ & H1 & H2 & _)]]]].
    + left. by repeat split.
    + left. repeat split; congruence.
    + unfold MAX_RECONNECT_ATTEMPTS in Hlt. lia.
    + right. exists id. destruct Hor as [|Hle]; [done|]. by repeat split.
  - intros [= <-]. destruct (destroy_link c) as (_ & _ & H1 & H2 & H3 & H4).
    split; [done|left]. repeat split; congruence.
  - intros [= <-]. apply Hsame, same_link_sendScreen.
  - intros [= <-]. apply Hsame, same_link_sendScreenCompressed.
Qed.

(** Running a list of events. *)
Fixpoint run (evs : list (Env * Event)) (c : Client) : option Client :=
  match evs with
  | [] => Some c
  | (env, ev) :: evs =>
      match step env ev c with
      | Some c' => run evs c'
      | None => None
      end
  end.

Lemma reachable_run evs c c' : reachable c -> run evs c = Some c' -> reachable c'.
Proof.
  revert c. induction evs as [|[env ev] evs IH]; intros c Hc; cbn.
  - by intros [= <-].
  - destruct (step env ev c) as [c1|] eqn:Hs; [|done].
    intros Hr. apply (IH c1); [|done]. by eapply reach_step.
Qed.

End RelayBreaker.

(** C2. In every reachable state of a relay link: when the attempt
    counter would exceed 5, scheduleReconnect opens the breaker for
    exactly 120 s and resets the counter to 0; and while the breaker is
    open the counter is 0, no socket is live, every pending timer is a
    check due at the reset time, and no step makes a connection attempt:
    the breaker stays open with the same reset time until a check fires
    at or after the reset time. *)
Theorem circuit_breaker_invariant (c : Relay.Client) :
  Relay.reachable c ->
  (forall env,
     Relay.destroyed c = false -> Relay.circuitBreakerOpen c = false ->
     Relay.MAX_RECONNECT_ATTEMPTS <= Relay.reconnectAttempts c ->
     let c' := Relay.scheduleReconnect env c in
     Relay.circuitBreakerOpen c' = true /\
     Relay.circuitBreakerResetTime c' = Date_now env + 120000 /\
     Relay.reconnectAttempts c' = 0 /\
     Relay.timers c' = Relay.timers c ++
       [Runtime.mkTimer (Relay.next_id c) (Date_now env + 120000)
          Runtime.CbScheduleReconnect] /\
     Relay.connection_attempts c' = Relay.connection_attempts c) /\
  (Relay.circuitBreakerOpen c = true ->
     Relay.reconnectAttempts c = 0 /\
     Relay.live_sockets c = [] /\
     Forall (fun t => Runtime.callback t = Runtime.CbScheduleReconnect /\
                      Runtime.due t = Relay.circuitBreakerResetTime c)
            (Relay.timers c) /\
     forall env ev c', Relay.step env ev c = Some c' ->
       Relay.connection_attempts c' = Relay.connection_attempts c /\
       ((Relay.circuitBreakerOpen c' = true /\
         Relay.circuitBreakerResetTime c' = Relay.circuitBreakerResetTime c /\
         Relay.reconnectAttempts c' = 0) \/
        (exists id, ev = Relay.TimerFires id /\
           Relay.circuitBreakerResetTime c <= Date_now env /\
           Relay.circuitBreakerOpen c' = false /\
           Relay.reconnectAttempts c' = 1))).
Proof.
  intros Hr. pose proof (inv_reachable c Hr) as Hinv. split.
  - intros env. apply breaker_trips.
  - intros Ho. pose proof Hinv as (_ & _ & Hbr).
    destruct (Hbr Ho) as (Ha & Hl & Hall).
    split; [done|]. split; [done|]. split; [exact Hall|].
    intros env ev c'. by apply open_breaker_step.
Qed.

(** A link whose relay cannot be reached: [new WebSocket] throws at the
    start and at each of the five retries, which opens the breaker. *)
Definition down (now : Z) : Env := mkEnv now (2 ^ 52) false true (fun _ => None).

Definition first_start : Relay.Client :=
  Relay.started (down 0) "wss://relay" "m1/dev" "m1" "secret" "dev".

Definition five_retries : list (Env * Relay.Event) :=
  [ (down 3000, Relay.TimerFires 0); (down 9000, Relay.TimerFires 1);
    (down 20000, Relay.TimerFires 2); (down 40000, Relay.TimerFires 3);
    (down 90000, Relay.TimerFires 4) ].

Definition tripped : Relay.Client := default first_start (run five_retries first_start).

Lemma tripped_reachable : Relay.reachable tripped.
Proof.
  apply (reachable_run five_retries first_start).
  - apply Relay.reach_started.
  - vm_compute. reflexivity.
Defined.

Lemma circuit_breaker_invariant_witness :
  Relay.circuitBreakerOpen tripped = true /\
  Relay.circuitBreakerResetTime tripped = 90000 + 120000 /\
  Relay.reconnectAttempts tripped = 0 /\
  Relay.live_sockets tripped = [].
Proof.
  destruct (circuit_breaker_invariant tripped tripped_reachable) as [_ H].
  destruct (H eq_refl) as (Ha & Hl & _).
  split; [reflexivity|]. split; [reflexivity|]. split; [exact Ha|exact Hl].
Defined.

(** C5 (as amended). connect() does nothing on a destroyed link; on a
    link that is not destroyed every call opens one more socket and
    makes it the link's socket, also when one is connecting or open.
    A link that is started once and then driven by its sockets, its
    timers and destroy() has at most one socket that is not closed. *)
Theorem connect_once_single_socket (c : Relay.Client) :
  Relay.reachable c ->
  (length (Relay.live_sockets c) <= 1)%nat /\
  (forall env, Relay.destroyed c = true -> Relay.connect env c = c) /\
  (forall env, Relay.destroyed c = false -> WebSocket_ok env = true ->
     Relay.live_sockets (Relay.connect env c) =
       Relay.live_sockets c ++ [Runtime.mkSocket (Relay.next_id c) Runtime.CONNECTING] /\
     Relay.ws (Relay.connect env c) = Some (Relay.next_id c)).
Proof.
  intros Hr. destruct (inv_reachable c Hr) as (Hone & _). split; [lia|]. split.
  - intros env Hd. unfold Relay.connect. by rewrite Hd.
  - intros env Hd Hok.
    destruct (connect_cases env c) as
      [[Hd' _]|[(_ & _ & Hs & Hw & _)|(_ & Hok' & _)]]; [congruence| |congruence].
    split; [|done]. unfold Relay.live_sockets. rewrite Hs, List.filter_app. done.
Qed.

(** A link that connected, lost its socket and was reconnected by its
    timer: the first socket is closed, the second is connecting. *)
Definition reconnected : Relay.Client :=
  let start := Relay.started (quiet 0 0) "wss://relay" "m1/dev" "m1" "secret" "dev" in
  default start
    (run [ (quiet 10 0, Relay.WsOpen 0);
           (quiet 5000 0, Relay.WsClosed 0 1006 "lost");
           (quiet 7500 0, Relay.TimerFires 1) ] start).

Lemma reconnected_reachable : Relay.reachable reconnected.
Proof.
  apply (reachable_run
           [ (quiet 10 0, Relay.WsOpen 0);
             (quiet 5000 0, Relay.WsClosed 0 1006 "lost");
             (quiet 7500 0, Relay.TimerFires 1) ]
           (Relay.started (quiet 0 0) "wss://relay" "m1/dev" "m1" "secret" "dev")).
  - apply Relay.reach_started.
  - vm_compute. reflexivity.
Defined.

Lemma connect_once_single_socket_witness :
  Relay.sockets reconnected =
    [Runtime.mkSocket 0 Runtime.CLOSED; Runtime.mkSocket 2 Runtime.CONNECTING] /\
  Relay.live_sockets reconnected = [Runtime.mkSocket 2 Runtime.CONNECTING] /\
  (length (Relay.live_sockets reconnected) <= 1)%nat /\
  Relay.live_sockets (Relay.connect (quiet 8000 0) reconnected) =
    [Runtime.mkSocket 2 Runtime.CONNECTING; Runtime.mkSocket 3 Runtime.CONNECTING].
Proof.
  destruct (connect_once_single_socket reconnected reconnected_reachable)
    as (Hone & _ & Hmore).
  destruct (Hmore (quiet 8000 0) eq_refl eq_refl) as [Hlive _].
  split; [vm_compute; reflexivity|]. split; [vm_compute; reflexivity|].
  split; [exact Hone|]. rewrite Hlive. vm_compute. reflexivity.
Defined.

(** C5, counterexample. Two connect() calls in a row on a new link
    leave two connecting sockets: the second call is no no-op. *)
Lemma connect_twice_two_sockets :
  let c1 := Relay.connect (quiet 0 0) idle_relay in
  let c2 := Relay.connect (quiet 0 0) c1 in
  Relay.live_sockets c1 = [Runtime.mkSocket 0 Runtime.CONNECTING] /\
  Relay.live_sockets c2 =
    [Runtime.mkSocket 0 Runtime.CONNECTING; Runtime.mkSocket 1 Runtime.CONNECTING] /\
  c2 <> c1 /\ ~ (length (Relay.live_sockets c2) <= 1)%nat.
Proof.
  split; [reflexivity|]. split; [reflexivity|]. split.
  - intros H. apply (f_equal Relay.next_id) in H. vm_compute in H. discriminate H.
  - vm_compute. lia.
Qed.

Section LimitExceeded.
Import Runtime Relay.

Lemma trace_console_error lines c :
  trace (console_error lines c) = trace c ++ (ConsoleError <$> lines).
Proof.
  unfold console_error. revert c.
  induction lines as [|l lines IH]; intros c; cbn; [by rewrite app_nil_r|].
  rewrite IH. cbn. by rewrite <- app_assoc.
Qed.

Lemma reconnectTimer_console_error lines c :
  reconnectTimer (console_error lines c) = reconnectTimer c.
Proof.
  unfold console_error. revert c.
  induction lines as [|l lines IH]; intros c; cbn; [done|]. by rewrite IH.
Qed.

Definition is_cleanup (a : Action) : Prop :=
  exists id, a = ClearTimeout id \/ a = WsClose id.

(** destroy(): the flags it sets and what it leaves in the trace. *)
Lemma destroy_fields c :
  autoReconnect (destroy c) = false /\ destroyed (destroy c) = true /\
  reconnectTimer (destroy c) = None /\ ws (destroy c) = None /\
  exited (destroy c) = exited c /\
  (forall id, reconnectTimer c = Some id ->
              find_timer id (timers (destroy c)) = None) /\
  exists acts, trace (destroy c) = trace c ++ acts /\ Forall is_cleanup acts.
Proof.
  destruct c as [o w ar ic ra co rt tm d ss ts nx ex tr].
  assert (Hgone : forall id, find_timer id (remove_timer id ts) = None).
  { intros id. unfold find_timer, remove_timer.
    destruct (List.find _ _) as [t|] eqn:Hf; [|done].
    apply List.find_some in Hf as [Hin Heq].
    apply List.filter_In in Hin as [_ Hne]. by rewrite Heq in Hne. }
  unfold destroy. destruct tm as [tid|]; destruct w as [sid|]; cbn;
    (repeat (split; [done|])).
  - split; [intros id [= <-]; exact (Hgone tid)|].
    exists [ClearTimeout tid; WsClose sid]. split; [by rewrite <- app_assoc|].
    repeat constructor; eexists; eauto.
  - split; [intros id [= <-]; exact (Hgone tid)|].
    exists [ClearTimeout tid]. split; [done|]. repeat constructor; eexists; eauto.
  - exists [WsClose sid]. split; [done|]. repeat constructor; eexists; eauto.
  - exists []. split; [by rewrite app_nil_r|]. constructor.
Qed.

Lemma handleMessage_error message c :
  type message = "error" -> handleMessage message c = handleError message c.
Proof. intros Ht. unfold handleMessage. rewrite Ht. reflexivity. Qed.

(** Printing the notice, then autoReconnect = false, destroy(),
    process.exit(1). *)
Lemma exit_after_notice lines c c' :
  c' = act (ProcessExit 1)
         (set_exited (Some 1)
            (destroy (set_autoReconnect false (console_error lines c)))) ->
  autoReconnect c' = false /\ destroyed c' = true /\
  reconnectTimer c' = None /\ ws c' = None /\
  (forall id, reconnectTimer c = Some id -> find_timer id (timers c') = None) /\
  exited c' = Some 1 /\
  (exists acts,
     trace c' = trace c ++ (ConsoleError <$> lines) ++ acts ++ [ProcessExit 1] /\
     Forall is_cleanup acts) /\
  (forall env ev, step env ev c' = None).
Proof.
  intros ->.
  pose proof (trace_console_error lines c) as HY.
  pose proof (reconnectTimer_console_error lines c) as HYt.
  set (Y := console_error lines c) in *. clearbody Y.
  set (X := set_autoReconnect false Y).
  destruct (destroy_fields X) as (H1 & H2 & H3 & H4 & H5 & H6 & acts & H7 & H8).
  change (trace X) with (trace Y) in H7.
  change (reconnectTimer X) with (reconnectTimer Y) in H6.
  clearbody X. set (D := destroy X) in *. clearbody D.
  split; [exact H1|]. split; [exact H2|]. split; [exact H3|]. split; [exact H4|].
  split; [intros id Hid; apply H6; congruence|]. split; [reflexivity|]. split.
  - exists acts. split; [|done].
    change (trace D ++ [ProcessExit 1] =
            trace c ++ (ConsoleError <$> lines) ++ acts ++ [ProcessExit 1]).
    rewrite H7, HY. by rewrite <- !app_assoc.
  - intros env ev. reflexivity.
Qed.

(** The lines of the notice, as printed. *)
Lemma limit_notice_lines (m : gmap string string) :
  ConsoleError <$> limit_notice m =
    [ConsoleError "============================================================";
     ConsoleError "SESSION LIMIT EXCEEDED";
     ConsoleError "============================================================";
     ConsoleError ("Resource: " +:+ tmpl (m !! "resource"));
     ConsoleError ("Current: " +:+ tmpl (m !! "current") +:+ ", Max: " +:+ tmpl (m !! "max"));
     ConsoleError ("Message: " +:+ tmpl (m !! "messageEn"));
     ConsoleError ("한국어: " +:+ tmpl (m !! "messageKo"));
     ConsoleError ("Upgrade at: " +:+ tmpl (m !! "upgradeUrl"));
     ConsoleError "============================================================"].
Proof. unfold limit_notice. exact eq_refl. Qed.

End LimitExceeded.

(** C4. An inbound message of type error with meta.code LIMIT_EXCEEDED
    prints the notice (a banner, then the resource, the current and
    maximum counts, the two messages and the upgrade address, each on a
    line of its own), turns reconnection off, destroys the link (timer
    cancelled, socket closed and dropped) and exits the process with
    status 1, after which nothing runs; with any other code the link
    only prints one line and every field of its state stays as it was. *)
Theorem limit_exceeded_is_terminal (message : Message) (m : gmap string string)
    (c : Relay.Client) :
  type message = "error" -> meta message = Some m ->
  let c' := Relay.handleMessage message c in
  let bar := "============================================================" in
  (m !! "code" = Some "LIMIT_EXCEEDED" ->
     Relay.autoReconnect c' = false /\ Relay.destroyed c' = true /\
     Relay.reconnectTimer c' = None /\ Relay.ws c' = None /\
     (forall id, Relay.reconnectTimer c = Some id ->
                 Runtime.find_timer id (Relay.timers c') = None) /\
     Relay.exited c' = Some 1 /\
     (exists acts,
        Relay.trace c' =
          Relay.trace c
            ++ [Relay.ConsoleError bar;
                Relay.ConsoleError "SESSION LIMIT EXCEEDED";
                Relay.ConsoleError bar;
                Relay.ConsoleError ("Resource: " +:+ tmpl (m !! "resource"));
                Relay.ConsoleError ("Current: " +:+ tmpl (m !! "current")
                                      +:+ ", Max: " +:+ tmpl (m !! "max"));
                Relay.ConsoleError ("Message: " +:+ tmpl (m !! "messageEn"));
                Relay.ConsoleError ("한국어: " +:+ tmpl (m !! "messageKo"));
                Relay.ConsoleError ("Upgrade at: " +:+ tmpl (m !! "upgradeUrl"));
                Relay.ConsoleError bar]
            ++ acts ++ [Relay.ProcessExit 1] /\
        Forall is_cleanup acts) /\
     (forall env ev, Relay.step env ev c' = None)) /\
  (m !! "code" <> Some "LIMIT_EXCEEDED" ->
     c' = Relay.act
            (Relay.ConsoleError
               ("Error: code=" +:+ tmpl (m !! "code") +:+ ", message="
                  +:+ tmpl (m !! "messageEn"))) c /\
     Relay.autoReconnect c' = Relay.autoReconnect c /\
     Relay.destroyed c' = Relay.destroyed c /\
     Relay.exited c' = Relay.exited c).
Proof.
  intros Ht Hm c' bar. unfold c'. rewrite handleMessage_error by done.
  unfold Relay.handleError. rewrite Hm. split; intros Hcode.
  - destruct (decide _) as [_|]; [|done].
    pose proof (exit_after_notice (Relay.limit_notice m) c _ eq_refl) as H.
    cbv zeta. set (c1 := Relay.act _ _) in *. clearbody c1.
    rewrite (limit_notice_lines m) in H. exact H.
  - destruct (decide _) as [|_]; [done|]. done.
Qed.

Definition limit_meta : gmap string string :=
  <["code" := "LIMIT_EXCEEDED"]>
    (<["resource" := "sessions"]>
       (<["current" := "3"]> (<["max" := "3"]> ∅))).

Definition limit_message : Message :=
  mkMessage "error" None None None (Some limit_meta).

(** A link whose first socket has opened. *)
Definition up (now : Z) : Env := mkEnv now (2 ^ 52) true true (fun _ => None).

Definition connected_link : Relay.Client :=
  default idle_relay
    (Relay.step (up 10) (Relay.WsOpen 0)
       (Relay.started (up 0) "wss://relay" "m1/dev" "m1" "secret" "dev")).

Lemma limit_exceeded_is_terminal_witness :
  Relay.destroyed (Relay.handleMessage limit_message connected_link) = true /\
  Relay.exited (Relay.handleMessage limit_message connected_link) = Some 1 /\
  Relay.trace (Relay.handleMessage limit_message connected_link) =
    Relay.trace connected_link ++
    [Relay.ConsoleError "============================================================";
     Relay.ConsoleError "SESSION LIMIT EXCEEDED";
     Relay.ConsoleError "============================================================";
     Relay.ConsoleError "Resource: sessions";
     Relay.ConsoleError "Current: 3, Max: 3";
     Relay.ConsoleError "Message: undefined";
     Relay.ConsoleError "한국어: undefined";
     Relay.ConsoleError "Upgrade at: undefined";
     Relay.ConsoleError "============================================================";
     Relay.WsClose 0;
     Relay.ProcessExit 1].
Proof.
  destruct (limit_exceeded_is_terminal limit_message limit_meta connected_link
              eq_refl eq_refl) as [H _].
  destruct H as (_ & Hd & _ & _ & _ & He & _).
  - vm_compute. reflexivity.
  - split; [exact Hd|]. split; [exact He|]. vm_compute. reflexivity.
Defined.

(** ** The capture scheduler *)

Section CaptureTick.
Import Runtime SessionHandler.

(** The link can transmit: connected, its socket open, [ws.send]
    does not throw. *)
Definition transport_up (env : Env) (c : Relay.Client) (id : nat) : Prop :=
  Relay.isConnected c = true /\ Relay.ws c = Some id /\
  socket_state id (Relay.sockets c) = Some OPEN /\ ws_send_ok env = true.

(** The message that carries one frame (session-handler.ts lines
    130-138, websocket.ts lines 230-255). *)
Definition frame (env : Env) (sessionId screen : string) : Message :=
  let data := clear_and_home +:+ screen in
  if MIN_COMPRESS_SIZE <? Z.of_nat (String.length data) then
    match gzipSync env data with
    | Some compressed =>
        mkMessage "screenGz" None (Some sessionId)
          (Some (Base64.encode compressed)) None
    | None =>
        mkMessage "screen" None (Some sessionId) (Some (Base64.encode data)) None
    end
  else mkMessage "screen" None (Some sessionId) (Some (Base64.encode data)) None.

Lemma send_up env m c id :
  transport_up env c id -> Relay.send env m c = (true, Relay.act (Relay.WsSend id m) c).
Proof.
  intros (_ & Hw & Hs & Hok). unfold Relay.send. by rewrite Hw, Hs, Hok.
Qed.

Lemma send_frame_up env screen c id :
  transport_up env c id ->
  send_frame env screen c =
    Relay.act (Relay.WsSend id (frame env (Relay.sessionId (Relay.options c)) screen)) c.
Proof.
  intros Hup. pose proof Hup as (Hc & _).
  unfold send_frame, frame, USE_COMPRESSION. cbn [andb].
  destruct (MIN_COMPRESS_SIZE <? _).
  - unfold Relay.sendScreenCompressed, Relay.sendScreen. rewrite Hc. cbn [negb].
    destruct (gzipSync env _); by rewrite (send_up _ _ _ _ Hup).
  - unfold Relay.sendScreen. rewrite Hc. cbn [negb].
    by rewrite (send_up _ _ _ _ Hup).
Qed.

(** Whatever the transport does, handing a frame to the link changes
    nothing but the link's trace, by at most one sent message. *)
Lemma send_frame_any env screen c :
  send_frame env screen c = c \/
  exists id m, send_frame env screen c = Relay.act (Relay.WsSend id m) c.
Proof.
  assert (Hsend : forall m, (Relay.send env m c).2 = c \/
            exists id m', (Relay.send env m c).2 = Relay.act (Relay.WsSend id m') c).
  { intros m. unfold Relay.send. destruct (Relay.ws c) as [id|]; [|by left].
    destruct (socket_state id (Relay.sockets c)) as [[]|]; try by left.
    destruct (ws_send_ok env); [right; by eauto|by left]. }
  unfold send_frame, Relay.sendScreenCompressed, Relay.sendScreen.
  destruct (_ && _); destruct (negb _); try by left.
  - destruct (gzipSync env _); apply Hsend.
  - apply Hsend.
Qed.

Lemma send_frame_down env screen c :
  (forall id, ~ transport_up env c id) -> send_frame env screen c = c.
Proof.
  intros Hdown.
  assert (Hsend : forall m, Relay.isConnected c = true -> (Relay.send env m c).2 = c).
  { intros m Hc. unfold Relay.send. destruct (Relay.ws c) as [id|] eqn:Hw; [|done].
    destruct (socket_state id (Relay.sockets c)) as [[]|] eqn:Hs; try done.
    destruct (ws_send_ok env) eqn:Hok; [|done].
    by destruct (Hdown id). }
  unfold send_frame, Relay.sendScreenCompressed, Relay.sendScreen.
  destruct (Relay.isConnected c) eqn:Hc; cbn [negb].
  - destruct (_ && _); [destruct (gzipSync env _)|]; by apply Hsend.
  - by destruct (_ && _).
Qed.

(** The send decision of one tick (lines 119-122). *)
Definition send_now (env : Env) (screen : string) (h : TmuxSessionHandler) : bool :=
  negb (String.eqb screen (lastScreen h))
  || (FORCE_SEND_INTERVAL_MS <=? Date_now env - lastForceSendTime h).

(** A tick that obtains a snapshot, on a running handler whose link
    is connected. *)
Lemma capture_screen env screen h c :
  running h = true -> wsClient h = Some c -> Relay.isConnected c = true ->
  let h' := capture env (Screen screen) h in
  if send_now env screen h then
    wsClient h' = Some (send_frame env screen c) /\
    lastScreen h' = screen /\ lastForceSendTime h' = Date_now env /\
    lastChangeTime h' = (if String.eqb screen (lastScreen h)
                         then lastChangeTime h else Date_now env) /\
    running h' = true
  else
    wsClient h' = Some c /\ lastScreen h' = lastScreen h /\
    lastForceSendTime h' = lastForceSendTime h /\
    lastChangeTime h' = lastChangeTime h /\ running h' = true.
Proof.
  intros Hr Hw Hc. unfold capture, send_now, Relay.getConnected.
  rewrite Hw, Hr, Hc. cbn [negb orb].
  destruct (String.eqb screen (lastScreen h)) eqn:He; cbn [negb orb].
  - destruct (FORCE_SEND_INTERVAL_MS <=? _); cbn; by rewrite ?Hr, ?Hw.
  - cbn. by rewrite ?Hr.
Qed.

End CaptureTick.

(** C3 (as amended). On a tick that obtains a snapshot, with the link
    able to transmit, the scheduler sends the snapshot if and only if it
    differs from the last one sent or at least 10,000 ms have passed
    since the last send: one message goes out when either holds, none
    when the snapshot is the same and less than 10,000 ms have passed. *)
Theorem capture_sends_iff (env : Env) (screen : string)
    (h : SessionHandler.TmuxSessionHandler) (c : Relay.Client) (id : nat) :
  SessionHandler.running h = true -> SessionHandler.wsClient h = Some c ->
  transport_up env c id ->
  let h' := SessionHandler.capture env (SessionHandler.Screen screen) h in
  let elapsed := Date_now env - SessionHandler.lastForceSendTime h in
  (screen <> SessionHandler.lastScreen h \/ 10000 <= elapsed ->
     (exists m, SessionHandler.wire h' = SessionHandler.wire h ++ [Relay.WsSend id m]) /\
     SessionHandler.lastScreen h' = screen /\
     SessionHandler.lastForceSendTime h' = Date_now env) /\
  (screen = SessionHandler.lastScreen h -> elapsed < 10000 ->
     SessionHandler.wire h' = SessionHandler.wire h /\
     SessionHandler.lastForceSendTime h' = SessionHandler.lastForceSendTime h).
Proof.
  intros Hr Hw Hup h' elapsed. pose proof Hup as (Hc & _).
  pose proof (capture_screen env screen h c Hr Hw Hc) as Hcap.
  fold h' in Hcap. unfold send_now, SessionHandler.FORCE_SEND_INTERVAL_MS in Hcap.
  fold elapsed in Hcap. unfold SessionHandler.wire. rewrite Hw.
  destruct (String.eqb_spec screen (SessionHandler.lastScreen h)) as [He|He];
    cbn [negb orb] in Hcap.
  - destruct (Z.leb_spec 10000 elapsed) as [Hle|Hlt].
    + destruct Hcap as (Hw' & Hs & Hf & _). rewrite Hw'.
      rewrite (send_frame_up _ _ _ _ Hup). split; [|intros _ ?; lia].
      intros _. split; [by eexists|done].
    + destruct Hcap as (Hw' & Hs & Hf & _). rewrite Hw'. split; [|done].
      intros [?|?]; [done|lia].
  - destruct Hcap as (Hw' & Hs & Hf & _). rewrite Hw'.
    rewrite (send_frame_up _ _ _ _ Hup). split; [|done].
    intros _. split; [by eexists|done].
Qed.

Definition agent_config : AgentConfig := mkConfig "m1" "wss://relay" "secret".

(** A handler that sent the screen "a" at time 1700000000000. *)
Definition streaming : SessionHandler.TmuxSessionHandler :=
  SessionHandler.mkHandler agent_config "dev" "m1/dev" (Some connected_link) true
    "a" 1700000000000 1700000000000 (Some 50) None.

Lemma connected_link_up now : transport_up (up now) connected_link 0%nat.
Proof. by repeat split. Qed.

Lemma capture_sends_iff_witness :
  SessionHandler.wire
    (SessionHandler.capture (up 1700000000200) (SessionHandler.Screen "a") streaming)
  = SessionHandler.wire streaming.
Proof.
  destruct (capture_sends_iff (up 1700000000200) "a" streaming connected_link 0%nat
              eq_refl eq_refl (connected_link_up _)) as [_ H].
  destruct H as [H _]; [reflexivity|vm_compute; reflexivity|exact H].
Defined.

(** C3, counterexample. Exactly 10,000 ms after the last send the same
    screen is sent again, though no more than 10,000 ms have passed. *)
Lemma resend_at_exactly_10000 :
  let h' := SessionHandler.capture (up 1700000010000)
              (SessionHandler.Screen "a") streaming in
  "a" = SessionHandler.lastScreen streaming /\
  ~ (1700000010000 - SessionHandler.lastForceSendTime streaming > 10000) /\
  SessionHandler.wire h' =
    SessionHandler.wire streaming ++
    [Relay.WsSend 0
       (mkMessage "screen" None (Some "m1/dev")
          (Some (Base64.encode (SessionHandler.clear_and_home +:+ "a"))) None)].
Proof.
  split; [reflexivity|]. split; [vm_compute; discriminate|].
  vm_compute. reflexivity.
Qed.

Section Base64Facts.

(** The value of a character of the base64 alphabet (RFC 4648). *)
Definition sextet (c : ascii) : option N :=
  let n := Ascii.N_of_ascii c in
  if ((65 <=? n) && (n <=? 90))%N then Some (n - 65)%N
  else if ((97 <=? n) && (n <=? 122))%N then Some (n - 71)%N
  else if ((48 <=? n) && (n <=? 57))%N then Some (n + 4)%N
  else if (n =? 43)%N then Some 62%N
  else if (n =? 47)%N then Some 63%N
  else None.

Definition octet (n : N) : ascii := Ascii.ascii_of_N n.

Definition is_pad (c : ascii) : bool := Ascii.eqb c "=".

(** Decoding of padded base64 text: the bytes it stands for. *)
Fixpoint base64_decode (text : string) : option string :=
  match text with
  | EmptyString => Some EmptyString
  | String a (String b (String c (String d rest))) =>
      match sextet a, sextet b with
      | Some p, Some q =>
          let x := octet (p * 4 + q / 16) in
          if is_pad c then
            if is_pad d && String.eqb rest "" then Some (String x EmptyString)
            else None
          else
            match sextet c with
            | Some r =>
                let y := octet ((q mod 16) * 16 + r / 4) in
                if is_pad d then
                  if String.eqb rest "" then Some (String x (String y EmptyString))
                  else None
                else
                  match sextet d, base64_decode rest with
                  | Some t, Some bytes =>
                      Some (String x (String y (String (octet ((r mod 4) * 64 + t)) bytes)))
                  | _, _ => None
                  end
            | None => None
            end
      | _, _ => None
      end%N
  | _ => None
  end.

Definition sextet_ok (k : nat) : bool :=
  let n := N.of_nat k in
  match sextet (Base64.digit n) with
  | Some m => N.eqb m n
  | None => false
  end && negb (is_pad (Base64.digit n)).

Lemma sextet_digit n :
  (n < 64)%N -> sextet (Base64.digit n) = Some n /\ is_pad (Base64.digit n) = false.
Proof.
  intros Hn.
  assert (Hall : forallb sextet_ok (seq 0 64) = true) by (vm_compute; reflexivity).
  rewrite forallb_forall in Hall.
  specialize (Hall (N.to_nat n)). unfold sextet_ok in Hall.
  rewrite N2Nat.id in Hall.
  assert (Hin : In (N.to_nat n) (seq 0 64)) by (apply in_seq; lia).
  apply Hall in Hin. apply andb_true_iff in Hin as [H1 H2].
  destruct (sextet (Base64.digit n)) as [m|]; [|done].
  apply N.eqb_eq in H1. subst m. split; [done|]. by apply negb_true_iff.
Qed.

Lemma divmod_add (a b k : N) :
  (0 < k -> b < k -> (a * k + b) / k = a /\ (a * k + b) mod k = b)%N.
Proof.
  intros Hk Hb. split.
  - rewrite N.div_add_l by lia. rewrite N.div_small by done. lia.
  - rewrite N.add_comm, N.Div0.mod_add. by apply N.mod_small.
Qed.

(** A byte split at a power of two. *)
Lemma split_byte (x k : N) :
  (0 < k -> x = x / k * k + x mod k /\ x mod k < k)%N.
Proof.
  intros Hk. split; [|apply N.mod_upper_bound; lia].
  rewrite (N.div_mod x k) at 1 by lia. lia.
Qed.

Lemma code_bound a : (Base64.code a < 256)%N.
Proof. unfold Base64.code. apply Ascii.N_ascii_bounded. Qed.

Lemma octet_code a : octet (Base64.code a) = a.
Proof. apply Ascii.ascii_N_embedding. Qed.

(** The four characters of one group of three bytes, read back. *)
Lemma group_round_trip (x y z : N) :
  (x < 256 -> y < 256 -> z < 256 ->
   let p := x / 4 in
   let q := x mod 4 * 16 + y / 16 in
   let r := y mod 16 * 4 + z / 64 in
   let t := z mod 64 in
   (p < 64 /\ q < 64 /\ r < 64 /\ t < 64) /\
   p * 4 + q / 16 = x /\ q mod 16 * 16 + r / 4 = y /\ r mod 4 * 64 + t = z)%N.
Proof.
  intros Hx Hy Hz p q r t.
  destruct (split_byte x 4) as [Ex Hxl]; [done|].
  destruct (split_byte y 16) as [Ey Hyl]; [done|].
  destruct (split_byte z 64) as [Ez Hzl]; [done|].
  assert (Hxh : (x / 4 < 64)%N) by (apply N.Div0.div_lt_upper_bound; lia).
  assert (Hyh : (y / 16 < 16)%N) by (apply N.Div0.div_lt_upper_bound; lia).
  assert (Hzh : (z / 64 < 4)%N) by (apply N.Div0.div_lt_upper_bound; lia).
  destruct (divmod_add (x mod 4) (y / 16) 16) as [Hq1 Hq2]; [done|done|].
  destruct (divmod_add (y mod 16) (z / 64) 4) as [Hr1 Hr2]; [done|done|].
  unfold p, q, r, t. rewrite Hq1, Hq2, Hr1, Hr2.
  split; [lia|]. split; [lia|]. split; lia.
Qed.

Lemma base64_round_trip data : base64_decode (Base64.encode data) = Some data.
Proof.
  enough (H : base64_decode (Base64.encode data) = Some data /\
              (forall a, base64_decode (Base64.encode (String a data))
                         = Some (String a data)) /\
              (forall a b, base64_decode (Base64.encode (String a (String b data)))
                           = Some (String a (String b data)))) by apply H.
  induction data as [|c rest (IH0 & IH1 & IH2)].
  - split; [done|]. split.
    + intros a. pose proof (code_bound a) as Ha.
      cbn [Base64.encode Base64.cons4 base64_decode].
      destruct (group_round_trip (Base64.code a) 0 0 Ha) as ((Hp & Hq & _) & Hx & _);
        [done|done|]. cbv zeta in Hp, Hq, Hx.
      change (0 / 16)%N with 0%N in Hq, Hx. rewrite N.add_0_r in Hq, Hx.
      destruct (sextet_digit _ Hp) as [-> _].
      destruct (sextet_digit _ Hq) as [-> _].
      change (is_pad "=") with true. cbn [andb String.eqb].
      by rewrite Hx, octet_code.
    + intros a b. pose proof (code_bound a) as Ha. pose proof (code_bound b) as Hb.
      cbn [Base64.encode Base64.cons4 base64_decode].
      destruct (group_round_trip (Base64.code a) (Base64.code b) 0 Ha Hb)
        as ((Hp & Hq & Hr & _) & Hx & Hy & _); [done|].
      cbv zeta in Hp, Hq, Hr, Hx, Hy.
      change (0 / 64)%N with 0%N in Hr, Hy. rewrite N.add_0_r in Hr, Hy.
      destruct (sextet_digit _ Hp) as [-> _].
      destruct (sextet_digit _ Hq) as [-> _].
      destruct (sextet_digit _ Hr) as [-> ->].
      change (is_pad "=") with true. cbn [String.eqb].
      by rewrite Hx, Hy, !octet_code.
  - split; [exact (IH1 c)|]. split; [intros a; exact (IH2 a c)|].
    intros a b. pose proof (code_bound a) as Ha. pose proof (code_bound b) as Hb.
    pose proof (code_bound c) as Hc.
    cbn [Base64.encode Base64.cons4 base64_decode].
    destruct (group_round_trip (Base64.code a) (Base64.code b) (Base64.code c) Ha Hb Hc)
      as ((Hp & Hq & Hr & Ht) & Hx & Hy & Hz).
    cbv zeta in Hp, Hq, Hr, Ht, Hx, Hy, Hz.
    destruct (sextet_digit _ Hp) as [-> _].
    destruct (sextet_digit _ Hq) as [-> _].
    destruct (sextet_digit _ Hr) as [-> ->].
    destruct (sextet_digit _ Ht) as [-> ->].
    rewrite IH0. by rewrite Hx, Hy, Hz, !octet_code.
Qed.

End Base64Facts.

(** C7. A snapshot the scheduler decides to send goes out, on a link
    able to transmit, as one message for the link's session: of type
    screenGz when the payload is longer than 512 bytes and gzip
    succeeds, and then the text of the message is the base64 text of
    the gzipped bytes; of type screen when gzip throws, and when the
    payload has at most 512 bytes, and then the text is the base64 text
    of the payload itself, which is the clear-screen sequence followed
    by the snapshot. *)
Theorem frame_compressed_over_512 (env : Env) (screen : string)
    (h : SessionHandler.TmuxSessionHandler) (c : Relay.Client) (id : nat) :
  SessionHandler.running h = true -> SessionHandler.wsClient h = Some c ->
  transport_up env c id -> send_now env screen h = true ->
  let esc := Ascii.ascii_of_nat 27 in
  let data := String esc ("[2J" +:+ String esc ("[H" +:+ screen)) in
  let size := Z.of_nat (String.length data) in
  let h' := SessionHandler.capture env (SessionHandler.Screen screen) h in
  exists m text,
    SessionHandler.wire h' = SessionHandler.wire h ++ [Relay.WsSend id m] /\
    session m = Some (Relay.sessionId (Relay.options c)) /\
    role m = None /\ meta m = None /\ payload m = Some text /\
    (512 < size -> forall z, gzipSync env data = Some z ->
       type m = "screenGz" /\ text = Base64.encode z /\
       base64_decode text = Some z) /\
    (512 < size -> gzipSync env data = None ->
       type m = "screen" /\ text = Base64.encode data /\
       base64_decode text = Some data) /\
    (size <= 512 ->
       type m = "screen" /\ text = Base64.encode data /\
       base64_decode text = Some data).
Proof.
  intros Hr Hw Hup Hsend esc data size h'. pose proof Hup as (Hc & _).
  pose proof (capture_screen env screen h c Hr Hw Hc) as Hcap.
  fold h' in Hcap. rewrite Hsend in Hcap. destruct Hcap as (Hw' & _).
  assert (Hdata : SessionHandler.clear_and_home +:+ screen = data) by reflexivity.
  exists (frame env (Relay.sessionId (Relay.options c)) screen).
  unfold SessionHandler.wire. rewrite Hw, Hw', (send_frame_up _ _ _ _ Hup).
  unfold frame, SessionHandler.MIN_COMPRESS_SIZE. rewrite Hdata. fold size.
  destruct (Z.ltb_spec 512 size) as [Hlt|Hle].
  - destruct (gzipSync env data) as [z|].
    + exists (Base64.encode z). do 5 (split; [done|]).
      split; [|split; [done|lia]].
      intros _ ? [= <-]. split; [done|]. split; [done|apply base64_round_trip].
    + exists (Base64.encode data). do 5 (split; [done|]).
      split; [done|]. split; [|lia].
      intros _ _. split; [done|]. split; [done|apply base64_round_trip].
  - exists (Base64.encode data). do 5 (split; [done|]).
    split; [lia|]. split; [lia|].
    intros _. split; [done|]. split; [done|apply base64_round_trip].
Qed.

(** A snapshot of 510 characters: with the clear-screen sequence the
    payload has 517 bytes. *)
Definition wide_screen : string :=
  Eval vm_compute in
    (fix fill (n : nat) : string :=
       match n with
       | O => EmptyString
       | S n => String "a" (fill n)
       end) 510%nat.

(** The text of 169 groups of three letters a. *)
Definition many_a : string :=
  Eval vm_compute in
    (fix fill (n : nat) : string :=
       match n with
       | O => EmptyString
       | S n => "YWFh" +:+ fill n
       end) 169%nat.

(** An environment whose gzip gives the two bytes gz for every input. *)
Definition zipping (now : Z) : Env :=
  mkEnv now (2 ^ 52) true true (fun _ => Some "gz").

Lemma frame_compressed_over_512_witness :
  SessionHandler.wire
    (SessionHandler.capture (zipping 1700000000200)
       (SessionHandler.Screen wide_screen) streaming)
  = SessionHandler.wire streaming ++
    [Relay.WsSend 0 (mkMessage "screenGz" None (Some "m1/dev") (Some "Z3o=") None)] /\
  SessionHandler.wire
    (SessionHandler.capture (up 1700000000200)
       (SessionHandler.Screen wide_screen) streaming)
  = SessionHandler.wire streaming ++
    [Relay.WsSend 0
       (mkMessage "screen" None (Some "m1/dev")
          (Some ("G1syShtbSGFh" +:+ many_a +:+ "YQ==")) None)] /\
  SessionHandler.wire
    (SessionHandler.capture (zipping 1700000000200)
       (SessionHandler.Screen "b") streaming)
  = SessionHandler.wire streaming ++
    [Relay.WsSend 0
       (mkMessage "screen" None (Some "m1/dev") (Some "G1syShtbSGI=") None)].
Proof.
  assert (Hup : forall env, ws_send_ok env = true -> transport_up env connected_link 0%nat)
    by (intros env Hok; by repeat split).
  split; [|split].
  - destruct (frame_compressed_over_512 (zipping 1700000000200) wide_screen streaming
                connected_link 0%nat eq_refl eq_refl
                (Hup (zipping 1700000000200) eq_refl) ltac:(vm_compute; reflexivity))
      as (m & text & Hwire & Hs & Hrole & Hmeta & Hp & Hgz & _).
    destruct (Hgz ltac:(vm_compute; reflexivity) "gz" eq_refl) as (Ht & Htext & _).
    rewrite Hwire. f_equal. f_equal. f_equal.
    destruct m as [ty ro se pa me]. cbn [type role session payload meta] in *.
    subst. reflexivity.
  - destruct (frame_compressed_over_512 (up 1700000000200) wide_screen streaming
                connected_link 0%nat eq_refl eq_refl
                (Hup (up 1700000000200) eq_refl) ltac:(vm_compute; reflexivity))
      as (m & text & Hwire & Hs & Hrole & Hmeta & Hp & _ & Hfail & _).
    destruct (Hfail ltac:(vm_compute; reflexivity) eq_refl) as (Ht & Htext & _).
    rewrite Hwire. f_equal. f_equal. f_equal.
    destruct m as [ty ro se pa me]. cbn [type role session payload meta] in *.
    subst. vm_compute. reflexivity.
  - destruct (frame_compressed_over_512 (zipping 1700000000200) "b" streaming
                connected_link 0%nat eq_refl eq_refl
                (Hup (zipping 1700000000200) eq_refl) ltac:(vm_compute; reflexivity))
      as (m & text & Hwire & Hs & Hrole & Hmeta & Hp & _ & _ & Hsmall).
    destruct (Hsmall ltac:(vm_compute; discriminate)) as (Ht & Htext & _).
    rewrite Hwire. f_equal. f_equal. f_equal.
    destruct m as [ty ro se pa me]. cbn [type role session payload meta] in *.
    subst. reflexivity.
Defined.

(** C10. On a tick whose send condition holds, lastScreen becomes the
    new snapshot and lastForceSendTime the current time whether or not
    the frame goes out; if the link cannot transmit nothing is sent, and
    a later tick with the same snapshot less than 10,000 ms after sends
    nothing either. *)
Theorem state_updated_even_if_send_fails (env : Env) (screen : string)
    (h : SessionHandler.TmuxSessionHandler) (c : Relay.Client) :
  SessionHandler.running h = true -> SessionHandler.wsClient h = Some c ->
  Relay.isConnected c = true -> send_now env screen h = true ->
  let h1 := SessionHandler.capture env (SessionHandler.Screen screen) h in
  SessionHandler.lastScreen h1 = screen /\
  SessionHandler.lastForceSendTime h1 = Date_now env /\
  ((forall id, ~ transport_up env c id) ->
     SessionHandler.wire h1 = SessionHandler.wire h) /\
  (forall env2, Date_now env2 - Date_now env < 10000 ->
     let h2 := SessionHandler.capture env2 (SessionHandler.Screen screen) h1 in
     SessionHandler.wire h2 = SessionHandler.wire h1 /\
     SessionHandler.lastScreen h2 = screen /\
     SessionHandler.lastForceSendTime h2 = Date_now env).
Proof.
  intros Hr Hw Hc Hsend h1.
  pose proof (capture_screen env screen h c Hr Hw Hc) as Hcap.
  fold h1 in Hcap. rewrite Hsend in Hcap.
  destruct Hcap as (Hw1 & Hs1 & Hf1 & _ & Hr1).
  split; [done|]. split; [done|]. split.
  - intros Hdown. unfold SessionHandler.wire.
    by rewrite Hw, Hw1, (send_frame_down _ _ _ Hdown).
  - intros env2 Hlt h2.
    assert (Hc1 : Relay.isConnected (SessionHandler.send_frame env screen c) = true).
    { destruct (send_frame_any env screen c) as [->|(i & m & ->)]; exact Hc. }
    pose proof (capture_screen env2 screen h1 _ Hr1 Hw1 Hc1) as Hcap2.
    fold h2 in Hcap2. unfold send_now in Hcap2.
    rewrite Hs1, Hf1, String.eqb_refl in Hcap2. cbn [negb orb] in Hcap2.
    unfold SessionHandler.FORCE_SEND_INTERVAL_MS in Hcap2.
    destruct (Z.leb_spec 10000 (Date_now env2 - Date_now env)); [lia|].
    destruct Hcap2 as (Hw2 & Hs2 & Hf2 & _).
    unfold SessionHandler.wire. rewrite Hw2, Hw1. by rewrite Hs2, Hf2.
Qed.

(** The link of [streaming] after its socket started closing. *)
Definition closing_link : Relay.Client :=
  Relay.set_sockets [Runtime.mkSocket 0 Runtime.CLOSING] connected_link.

Definition stalled : SessionHandler.TmuxSessionHandler :=
  SessionHandler.set_wsClient (Some closing_link) streaming.

Lemma state_updated_even_if_send_fails_witness :
  let h1 := SessionHandler.capture (up 1700000000200)
              (SessionHandler.Screen "b") stalled in
  SessionHandler.lastScreen h1 = "b" /\
  SessionHandler.wire h1 = SessionHandler.wire stalled.
Proof.
  destruct (state_updated_even_if_send_fails (up 1700000000200) "b" stalled
              closing_link eq_refl eq_refl eq_refl eq_refl)
    as (Hs & _ & Hdown & _).
  split; [exact Hs|]. apply Hdown.
  intros id (_ & Hws & Hst & _). vm_compute in Hws. injection Hws as <-.
  vm_compute in Hst. discriminate Hst.
Defined.

(** ** The orchestrator *)

Section MapFacts.
Context {V : Type}.
Implicit Types (m : JsMap.t V) (k s : string).

Lemma get_set m k v s :
  JsMap.set k v m !! s = if decide (s = k) then Some v else m !! s.
Proof.
  unfold lookup, JsMap.lookup, JsMap.get, JsMap.set. cbn [JsMap.entries].
  induction (JsMap.entries m) as [|[k' v'] l IH]; cbn [JsMap.put JsMap.find].
  - destruct (String.eqb_spec k s); destruct (decide (s = k)); congruence.
  - destruct (String.eqb_spec k' k) as [Hk|Hk]; cbn [JsMap.find].
    + destruct (String.eqb_spec k' s); destruct (decide (s = k)); congruence.
    + destruct (String.eqb_spec k' s); [|exact IH].
      destruct (decide (s = k)); congruence.
Qed.

Lemma get_delete m k s :
  JsMap.delete k m !! s = if decide (s = k) then None else m !! s.
Proof.
  unfold lookup, JsMap.lookup, JsMap.get, JsMap.delete. cbn [JsMap.entries].
  induction (JsMap.entries m) as [|[k' v'] l IH]; cbn [List.filter JsMap.find fst].
  - by destruct (decide (s = k)).
  - destruct (String.eqb_spec k' k) as [Hk|Hk]; cbn [negb JsMap.find].
    + rewrite IH. destruct (decide (s = k)); [done|].
      destruct (String.eqb_spec k' s); congruence.
    + destruct (String.eqb_spec k' s); [|exact IH].
      destruct (decide (s = k)); congruence.
Qed.

Lemma elem_of_keys m s : s ∈ JsMap.keys m <-> is_Some (m !! s).
Proof.
  unfold lookup, JsMap.lookup, JsMap.get, JsMap.keys.
  induction (JsMap.entries m) as [|[k' v'] l IH]; cbn [fmap list_fmap JsMap.find fst].
  - split; [by intros ?%elem_of_nil|by intros ?%is_Some_None].
  - rewrite elem_of_cons, IH.
    destruct (String.eqb_spec k' s) as [->|Hne]; [by split; eauto|].
    split; [intros [?|?]; congruence|by right].
Qed.

End MapFacts.

Section Scan.
Import SessionHandler Runner.

Lemma elem_of_distinct s seen l :
  s ∈ distinct seen l <-> s ∈ l /\ s ∉ seen.
Proof.
  revert seen. induction l as [|x l IH]; intros seen; cbn.
  - set_solver.
  - case_bool_decide as Hx.
    + rewrite IH. set_solver.
    + rewrite elem_of_cons, IH. destruct (decide (s = x)); set_solver.
Qed.

Lemma NoDup_distinct seen l : NoDup (distinct seen l).
Proof.
  revert seen. induction l as [|x l IH]; intros seen; cbn; [constructor|].
  case_bool_decide as Hx; [apply IH|]. constructor; [|apply IH].
  rewrite elem_of_distinct. set_solver.
Qed.

(** The sessions the orchestrator tracks, in the order they were
    first tracked: [new Set(this.handlers.keys())]. *)
Definition tracked_sessions (r : AgentRunner) : list string :=
  distinct [] (JsMap.keys (handlers r)).

Lemma elem_of_tracked (r : AgentRunner) s :
  s ∈ tracked_sessions r <-> is_Some (handlers r !! s).
Proof.
  unfold tracked_sessions. rewrite elem_of_distinct, elem_of_keys. set_solver.
Qed.

(** The handler the orchestrator creates and starts for a session. *)
Definition fresh (host : Host) (config : AgentConfig) (s : string)
  : TmuxSessionHandler :=
  start (random_for host s) (new_handler config s).

Definition start_new (host : Host) (tracked : list string)
    (r : AgentRunner) (l : list string) : AgentRunner :=
  foldl (fun r session =>
           if bool_decide (session ∈ tracked) then r
           else startSessionHandler host session r) r l.

Definition stop_gone (current : list string) (r : AgentRunner)
    (l : list string) : AgentRunner :=
  foldl (fun r session =>
           if bool_decide (session ∈ current) then r
           else stopSessionHandler session r) r l.

Lemma start_new_spec host tracked l r :
  let r' := start_new host tracked r l in
  runner_config r' = runner_config r /\
  (forall s, handlers r' !! s =
             if bool_decide (s ∈ l /\ s ∉ tracked)
             then Some (fresh host (runner_config r) s)
             else handlers r !! s) /\
  log r' = log r ++ (Started <$> List.filter (fun s => bool_decide (s ∉ tracked)) l).
Proof.
  revert r. induction l as [|x l IH]; intros r.
  - cbn. split; [done|]. split; [|by rewrite app_nil_r].
    intros s. rewrite bool_decide_false; [done|set_solver].
  - unfold start_new. cbn [foldl List.filter].
    fold (start_new host tracked
            (if bool_decide (x ∈ tracked) then r
             else startSessionHandler host x r) l).
    destruct (IH (if bool_decide (x ∈ tracked) then r
                  else startSessionHandler host x r)) as (Hc & Hh & Hl).
    cbv zeta. rewrite Hc, Hl. clear IH Hl Hc.
    case_bool_decide as Hx.
    + rewrite (bool_decide_false (x ∉ tracked)) by tauto.
      split; [done|]. split; [|done]. intros s. rewrite Hh.
      apply (f_equal (fun b : bool => if b then _ else _)).
      apply bool_decide_ext. set_solver.
    + rewrite (bool_decide_true (x ∉ tracked)) by done.
      split; [done|]. split.
      2:{ change (log (startSessionHandler host x r)) with (log r ++ [Started x]).
          by rewrite <- app_assoc. }
      intros s. rewrite Hh.
      change (runner_config (startSessionHandler host x r)) with (runner_config r).
      change (handlers (startSessionHandler host x r))
        with (JsMap.set x (fresh host (runner_config r) x) (handlers r)).
      rewrite get_set.
      destruct (decide (s = x)) as [->|Hne].
      * rewrite (bool_decide_true (x ∈ x :: l /\ x ∉ tracked)) by set_solver.
        by case_bool_decide.
      * apply (f_equal (fun b : bool => if b then _ else _)).
        apply bool_decide_ext. set_solver.
Qed.

(** The log entry of a session that is stopped: the handler as stop()
    leaves it, and the link it held, destroyed. *)
Definition stopped_action (H : JsMap.t TmuxSessionHandler)
    (current : list string) (s : string) : option Action :=
  if bool_decide (s ∈ current) then None
  else (fun h => Stopped (stop h) (released h)) <$> H !! s.

Lemma stop_gone_spec current (H : JsMap.t TmuxSessionHandler) l r :
  NoDup l -> (forall s, s ∈ l -> handlers r !! s = H !! s) ->
  let r' := stop_gone current r l in
  (forall s, handlers r' !! s =
             if bool_decide (s ∈ l /\ s ∉ current) then None
             else handlers r !! s) /\
  log r' = log r ++ omap (stopped_action H current) l.
Proof.
  revert r. induction l as [|x l IH]; intros r Hnd Hsame.
  - cbn. split; [|by rewrite app_nil_r].
    intros s. rewrite bool_decide_false; [done|set_solver].
  - apply NoDup_cons in Hnd as [Hx Hnd]. unfold stop_gone. cbn [foldl].
    fold (stop_gone current
            (if bool_decide (x ∈ current) then r else stopSessionHandler x r) l).
    change (omap (stopped_action H current) (x :: l))
      with (match stopped_action H current x with
            | Some y => y :: omap (stopped_action H current) l
            | None => omap (stopped_action H current) l
            end).
    unfold stopped_action at 1.
    case_bool_decide as Hc.
    + destruct (IH r Hnd) as (Hh & Hl).
      { intros s Hs. apply Hsame. by right. }
      cbv zeta. split; [|done]. intros s. rewrite Hh.
      apply (f_equal (fun b : bool => if b then _ else _)).
      apply bool_decide_ext. set_solver.
    + unfold stopSessionHandler.
      rewrite (Hsame x) by by left.
      destruct (H !! x) as [h|] eqn:Hhx; cbn [fmap option_fmap option_map].
      * destruct (IH (note (Stopped (stop h) (released h))
                        (set_handlers (JsMap.delete x (handlers r)) r)) Hnd)
          as (Hh & Hl).
        { intros s Hs.
          change (handlers (note _ (set_handlers ?m r))) with m.
          rewrite get_delete. destruct (decide (s = x)) as [->|_]; [done|].
          apply Hsame. by right. }
        cbv zeta. rewrite Hl.
        change (log (note ?a (set_handlers ?m r))) with (log r ++ [a]).
        split; [|by rewrite <- app_assoc].
        intros s. rewrite Hh.
        change (handlers (note _ (set_handlers ?m r))) with m.
        rewrite get_delete.
        destruct (decide (s = x)) as [->|Hne].
        -- rewrite (bool_decide_true (x ∈ x :: l /\ x ∉ current)) by set_solver.
           by case_bool_decide.
        -- apply (f_equal (fun b : bool => if b then _ else _)).
           apply bool_decide_ext. set_solver.
      * destruct (IH r Hnd) as (Hh & Hl).
        { intros s Hs. apply Hsame. by right. }
        cbv zeta. split; [|done]. intros s. rewrite Hh.
        destruct (decide (s = x)) as [->|Hne].
        -- rewrite (bool_decide_true (x ∈ x :: l /\ x ∉ current)) by set_solver.
           rewrite (Hsame x) by by left. rewrite Hhx. by case_bool_decide.
        -- apply (f_equal (fun b : bool => if b then _ else _)).
           apply bool_decide_ext. set_solver.
Qed.

(** What a scan that lists [names] leaves. *)
Lemma scan_spec host names r :
  tmux_scanSessions host = Some names ->
  let r' := scanAndUpdateSessions host r in
  (forall s,
     handlers r' !! s =
       if bool_decide (s ∈ names)
       then Some (default (fresh host (runner_config r) s) (handlers r !! s))
       else None) /\
  log r' =
    log r
    ++ (Started <$>
          List.filter (fun s => bool_decide (s ∉ tracked_sessions r))
            (distinct [] names))
    ++ omap (stopped_action (handlers r) (distinct [] names)) (tracked_sessions r).
Proof.
  intros Hscan r'. unfold r', scanAndUpdateSessions. rewrite Hscan.
  set (current := distinct [] names).
  fold (tracked_sessions r). set (tracked := tracked_sessions r).
  fold (start_new host tracked r current).
  destruct (start_new_spec host tracked current r) as (Hc & Hh1 & Hl1).
  set (r1 := start_new host tracked r current) in *.
  fold (stop_gone current r1 tracked).
  destruct (stop_gone_spec current (handlers r) tracked r1) as (Hh2 & Hl2).
  { apply NoDup_distinct. }
  { intros s Hs. rewrite Hh1. rewrite bool_decide_false; [done|tauto]. }
  split.
  - intros s. rewrite Hh2, Hh1.
    assert (Hcur : s ∈ current <-> s ∈ names).
    { unfold current. rewrite elem_of_distinct. set_solver. }
    assert (Htr : s ∈ tracked <-> is_Some (handlers r !! s))
      by apply elem_of_tracked.
    destruct (handlers r !! s) as [h|] eqn:Hs.
    + assert (s ∈ tracked) by (apply Htr; eauto).
      rewrite (bool_decide_false (s ∈ current /\ s ∉ tracked)) by tauto.
      repeat case_bool_decide; tauto.
    + assert (s ∉ tracked) by (intros ?%Htr; by apply is_Some_None in H).
      repeat case_bool_decide; tauto.
  - rewrite Hl2, Hl1. by rewrite <- app_assoc.
Qed.


End Scan.


Definition empty_runner : Runner.AgentRunner := Runner.mkRunner agent_config ∅ [].

Definition sees (names : list string) : Runner.Host :=
  Runner.mkHost (Some names) (fun _ => true) (fun _ => 2 ^ 52).

(** The scenario of the specification: a scan sees dev and build, the
    next one only dev. *)
Definition after_first_scan : Runner.AgentRunner :=
  Runner.scanAndUpdateSessions (sees ["dev"; "build"]) empty_runner.




Section Sanitize.
Import Runner.

Fixpoint all_chars (p : ascii -> bool) (s : string) : bool :=
  match s with
  | EmptyString => true
  | String a rest => p a && all_chars p rest
  end.

Lemma sanitize_allowed s : all_chars allowed (sanitize s) = true.
Proof.
  induction s as [|a s IH]; [done|]. cbn [sanitize all_chars]. rewrite IH.
  destruct (allowed a) eqn:Ha; [by rewrite Ha|reflexivity].
Qed.

Lemma sanitize_length s : String.length (sanitize s) = String.length s.
Proof. induction s as [|a s IH]; [done|]. cbn. by rewrite IH. Qed.

Lemma sanitize_empty s : sanitize s = "" <-> s = "".
Proof. by destruct s. Qed.

Lemma sanitize_fixed s : all_chars allowed s = true -> sanitize s = s.
Proof.
  induction s as [|a s IH]; [done|]. cbn [all_chars sanitize].
  intros [Ha Hs]%andb_true_iff. by rewrite Ha, IH.
Qed.

(** The characters a session name keeps. *)
Definition name_characters : string :=
  "abcdefghijklmnopqrstuvwxyzABCDEFGHIJKLMNOPQRSTUVWXYZ0123456789_-".

Definition name_character (a : ascii) : Prop :=
  In a (String.list_ascii_of_string name_characters).

Lemma allowed_name_character a : allowed a = true <-> name_character a.
Proof.
  unfold name_character.
  assert (H : allowed a
              = existsb (Ascii.eqb a) (String.list_ascii_of_string name_characters)).
  { by destruct a as [[] [] [] [] [] [] [] []]. }
  rewrite H, existsb_exists. split.
  - intros (b & Hin & ->%Ascii.eqb_eq). done.
  - intros Hin. exists a. split; [done|]. apply Ascii.eqb_refl.
Qed.

Lemma sanitize_get name i a :
  String.get i name = Some a ->
  String.get i (sanitize name) = Some (if allowed a then a else "_"%char).
Proof.
  revert i. induction name as [|b rest IH]; intros i; [done|].
  destruct i as [|i]; cbn [String.get sanitize].
  - by intros [= ->].
  - apply IH.
Qed.

Lemma sanitize_get_inv name i b :
  String.get i (sanitize name) = Some b ->
  exists a, String.get i name = Some a /\ b = (if allowed a then a else "_"%char).
Proof.
  revert i. induction name as [|c rest IH]; intros i; [done|].
  destruct i as [|i]; cbn [String.get sanitize].
  - intros [= <-]. by eexists.
  - apply IH.
Qed.

End Sanitize.

(** C6 (as amended). Character by character, the sanitized name keeps
    every letter, digit, '_' and '-' of the request and has '_' in
    place of every other character ("my session!" gives "my_session_"),
    so it consists of such characters only, has the length of the
    request and is empty only for the empty request. An empty request
    and a request whose sanitized name is tracked are rejected with a
    warning: no session is created and no handler changes. Every other
    request calls the capability with the sanitized name, and a scan
    follows if it succeeds. *)
Theorem create_session_sanitized (host : Runner.Host) (name : string)
    (r : Runner.AgentRunner) :
  let sanitized := Runner.sanitize name in
  let r' := Runner.createTmuxSession host name r in
  (forall i a, String.get i name = Some a ->
     (name_character a -> String.get i sanitized = Some a) /\
     (~ name_character a -> String.get i sanitized = Some "_"%char)) /\
  (forall i b, String.get i sanitized = Some b -> name_character b) /\
  String.length sanitized = String.length name /\
  Runner.sanitize "my session!" = "my_session_" /\
  (sanitized = "" <-> name = "") /\
  (name = "" ->
     r' = Runner.note (Runner.Warn ("Invalid session name: " +:+ name)) r) /\
  (is_Some (Runner.handlers r !! sanitized) ->
     name <> "" ->
     r' = Runner.note (Runner.Warn ("Session already exists: " +:+ sanitized)) r) /\
  (name <> "" -> Runner.handlers r !! sanitized = None ->
     r' = if Runner.tmux_createSession host sanitized
          then Runner.scanAndUpdateSessions host
                 (Runner.note (Runner.CreateSession sanitized true) r)
          else Runner.note (Runner.CreateSession sanitized false) r).
Proof.
  intros sanitized r'.
  split.
  { intros i a Hget. pose proof (sanitize_get name i a Hget) as Hs.
    fold sanitized in Hs. split.
    - intros Ha%allowed_name_character. by rewrite Ha in Hs.
    - intros Hna. destruct (Runner.allowed a) eqn:Ha; [|done].
      by apply allowed_name_character in Ha. }
  split.
  { intros i b Hget. destruct (sanitize_get_inv name i b Hget) as (a & _ & ->).
    destruct (Runner.allowed a) eqn:Ha.
    - by apply allowed_name_character.
    - by apply allowed_name_character. }
  split; [apply sanitize_length|].
  split; [reflexivity|]. split; [apply sanitize_empty|].
  unfold r', Runner.createTmuxSession. fold sanitized.
  split; [|split].
  - intros ->. reflexivity.
  - intros Hs Hne. destruct (String.eqb_spec sanitized "") as [He|_].
    + exfalso. apply Hne. by apply sanitize_empty.
    + by rewrite bool_decide_true.
  - intros Hne Hnone. destruct (String.eqb_spec sanitized "") as [He|_].
    + exfalso. apply Hne. by apply sanitize_empty.
    + rewrite bool_decide_false; [done|]. rewrite Hnone. by intros [? ?].
Qed.

(** C6, counterexample. The request "!!!" has no valid character; its
    sanitized name is "___", not the empty string, and the session
    "___" is created. *)
Lemma all_invalid_name_is_created :
  (forall i a, String.get i "!!!" = Some a -> ~ name_character a) /\
  Runner.sanitize "!!!" = "___" /\
  Runner.log (Runner.createTmuxSession (sees ["___"]) "!!!" empty_runner)
    = [Runner.CreateSession "___" true; Runner.Started "___"] /\
  is_Some (Runner.handlers
             (Runner.createTmuxSession (sees ["___"]) "!!!" empty_runner) !! "___").
Proof.
  split.
  { intros i a Hget Hin%allowed_name_character.
    destruct i as [|[|[|i]]]; cbn in Hget; [..|done];
      injection Hget as <-; discriminate Hin. }
  split; [reflexivity|]. split; [vm_compute; reflexivity|].
  vm_compute. eexists. reflexivity.
Qed.

(** ** The control channel *)

Section SendKeys.
Import Runtime Api.

Definition api_up (env : Env) (c : Client) (id : nat) : Prop :=
  ws c = Some id /\ socket_state id (sockets c) = Some OPEN /\
  ws_send_ok env = true.

Definition is_call (a : Action) : bool :=
  match a with TmuxSendKeys _ _ _ => true | _ => false end.

(** Calls of the capability recorded so far. *)
Definition calls (c : Client) : list Action := List.filter is_call (trace c).

Lemma sendApiResponse_up env rid response c id :
  api_up env c id ->
  sendApiResponse env rid response c = act (WsSend id (api_response rid response)) c.
Proof.
  intros (Hw & Hs & Hok). unfold sendApiResponse, send. by rewrite Hw, Hs, Hok.
Qed.

Lemma sendApiResponse_calls env rid response c :
  calls (sendApiResponse env rid response c) = calls c.
Proof.
  unfold sendApiResponse, send, calls.
  destruct (ws c) as [id|]; [|done].
  destruct (socket_state id (sockets c)) as [[]|]; try done.
  destruct (ws_send_ok env); [|done]. cbn.
  rewrite List.filter_app. cbn. by rewrite app_nil_r.
Qed.

(** What the body of a request is: the parsed payload, or {} when the
    request has no payload. *)
Definition body_of (svc : Services) (m : gmap string string)
  : Js.outcome Js.value :=
  if truthy (m !! "payload") then JSON_parse svc (default "" (m !! "payload"))
  else Js.Return (Js.VObject []).

Definition enter_or_true (enter : Js.value) : Js.value :=
  match enter with Js.VUndefined => Js.VBool true | _ => enter end.

Lemma handleSendKeys_request svc env message m rid c :
  meta message = Some m -> m !! "requestId" = Some rid -> rid <> "" ->
  handleSendKeys svc env message c =
    match trySendKeys svc env rid m c with
    | (c', None) => c'
    | (c', Some msg) => sendApiResponse env rid (failure msg) c'
    end.
Proof.
  intros Hm Hrid Hne. unfold handleSendKeys. rewrite Hm, Hrid. cbn.
  destruct (String.eqb_spec rid "") as [?|_]; [done|]. done.
Qed.

End SendKeys.

(** C9 (as amended). For a send_keys request that carries a requestId:
    when the payload is absent or parses to a value other than null,
    a missing or empty target or keys gives the reply
    {success:false, error:"target and keys are required"} without a
    call of the capability; otherwise, if target, keys and enter can be
    printed by the log line, the capability is called with target, keys
    and enter (true by default) and its boolean result is returned as
    {success, target}. When the payload does not parse, is null, one of
    the three values cannot be converted to text, or the capability
    throws, the reply is {success:false, error} with the message of the
    error; in the first three cases the capability is not called. *)
Theorem send_keys_validated (svc : Api.Services) (env : Env) (message : Message)
    (m : gmap string string) (rid : string) (c : Api.Client) :
  meta message = Some m -> m !! "requestId" = Some rid -> rid <> "" ->
  let c' := Api.handleSendKeys svc env message c in
  (forall body target keys enter,
     body_of svc m = Js.Return body ->
     Js.get body "target" = Some target -> Js.get body "keys" = Some keys ->
     Js.get body "enter" = Some enter ->
     (Js.truthy target = false \/ Js.truthy keys = false ->
        c' = Api.sendApiResponse env rid Api.required_error c /\
        calls c' = calls c) /\
     (Js.truthy target = true -> Js.truthy keys = true ->
      Js.printable target = true -> Js.printable keys = true ->
      Js.printable (enter_or_true enter) = true ->
        let call := Api.TmuxSendKeys target keys (enter_or_true enter) in
        calls c' = calls c ++ [call] /\
        (forall ok,
           Api.tmux_sendKeys svc target keys (enter_or_true enter) = Js.Return ok ->
           c' = Api.sendApiResponse env rid
                  (Js.VObject [("success", Js.VBool ok); ("target", target)])
                  (Api.act call c)) /\
        (forall msg,
           Api.tmux_sendKeys svc target keys (enter_or_true enter) = Js.Throw msg ->
           c' = Api.sendApiResponse env rid (Api.failure msg) (Api.act call c))) /\
     (Js.truthy target = true -> Js.truthy keys = true ->
      Js.printable target = false \/ Js.printable keys = false \/
      Js.printable (enter_or_true enter) = false ->
        c' = Api.sendApiResponse env rid
               (Api.failure "Cannot convert object to primitive value") c /\
        calls c' = calls c)) /\
  (forall msg, body_of svc m = Js.Throw msg ->
     c' = Api.sendApiResponse env rid (Api.failure msg) c /\ calls c' = calls c) /\
  (body_of svc m = Js.Return Js.VNull ->
     c' = Api.sendApiResponse env rid (Api.failure Api.destructure_null) c /\
     calls c' = calls c).
Proof.
  intros Hm Hrid Hne c'. unfold c'.
  rewrite (handleSendKeys_request svc env message m rid c Hm Hrid Hne).
  unfold Api.trySendKeys. fold (body_of svc m).
  split; [|split].
  - intros body target keys enter Hb Ht Hk He. rewrite Hb, Ht, Hk, He.
    fold (enter_or_true enter). split; [|split].
    + intros Hfalsy.
      assert (negb (Js.truthy target) || negb (Js.truthy keys) = true) as ->
        by (destruct Hfalsy as [-> | ->]; [done|by rewrite orb_true_r]).
      split; [done|apply sendApiResponse_calls].
    + intros Htt Htk Hpt Hpk Hpe. rewrite Htt, Htk, Hpt, Hpk, Hpe. cbn [negb orb andb].
      set (call := Api.TmuxSendKeys target keys (enter_or_true enter)).
      assert (Hcall : calls (Api.act call c) = calls c ++ [call]).
      { unfold calls, Api.act. cbn. by rewrite List.filter_app. }
      split; [|split].
      * destruct (Api.tmux_sendKeys svc target keys (enter_or_true enter));
          by rewrite sendApiResponse_calls.
      * by intros ok ->.
      * by intros msg ->.
    + intros Htt Htk Hno. rewrite Htt, Htk. cbn [negb orb].
      assert (negb (Js.printable target && Js.printable keys
                    && Js.printable (enter_or_true enter)) = true) as ->.
      { destruct Hno as [-> | [-> | ->]]; [done|by rewrite andb_false_r|].
        by rewrite andb_false_r. }
      split; [done|apply sendApiResponse_calls].
  - intros msg ->. split; [done|apply sendApiResponse_calls].
  - intros ->. cbn. split; [done|apply sendApiResponse_calls].
Qed.

(** A control channel whose socket is open. *)
Definition api_connected : Api.Client :=
  Api.mkClient "wss://relay" "m1" "secret" "agent" (Some 0%nat) true 0 false 0
    None false [Runtime.mkSocket 0 Runtime.OPEN] [] 1%nat [].

(** [JSON.parse] on the two payloads of the examples; the capability
    reports success. *)
Definition test_services : Api.Services :=
  Api.mkServices
    (fun text =>
       if String.eqb text "null" then Js.Return Js.VNull
       else if String.eqb text "{}" then Js.Return (Js.VObject [])
       else Js.Throw "Unexpected token")
    (fun _ _ _ => Js.Return true).

Definition send_keys_request (payload : string) : Message :=
  mkMessage "send_keys" None None None
    (Some (<["requestId" := "r1"]> (<["payload" := payload]> ∅))).

(** A request body whose target is an object with a toString entry of
    its own, as JSON.parse gives it for a target {toString: 1}; the
    capability reports success. *)
Definition shadowed_target : Js.value :=
  Js.VObject [("target", Js.VObject [("toString", Js.VNumber 1)]);
              ("keys", Js.VString "x")].

Definition plain_target : Js.value :=
  Js.VObject [("target", Js.VString "dev"); ("keys", Js.VString "x")].

(** The JSON texts of the two bodies, {target: dev, keys: x} and
    {target: {toString: 1}, keys: x}, with their double quotes. *)
Definition in_quotes (s : string) : string :=
  String Js.dquote (s +:+ String Js.dquote EmptyString).

Definition plain_text : string :=
  "{" +:+ in_quotes "target" +:+ ":" +:+ in_quotes "dev" +:+ ","
      +:+ in_quotes "keys" +:+ ":" +:+ in_quotes "x" +:+ "}".

Definition shadowed_text : string :=
  "{" +:+ in_quotes "target" +:+ ":{" +:+ in_quotes "toString" +:+ ":1},"
      +:+ in_quotes "keys" +:+ ":" +:+ in_quotes "x" +:+ "}".

(** [JSON.parse] that knows the one text. *)
Definition parsing (text : string) (body : Js.value) : Api.Services :=
  Api.mkServices
    (fun t => if String.eqb t text then Js.Return body else Js.Throw "Unexpected token")
    (fun _ _ _ => Js.Return true).

(** The api_response message for request r1 with the given JSON text. *)
Definition reply_r1 (text : string) : Message :=
  mkMessage "api_response" None None None
    (Some (<["requestId" := "r1"]> (<["payload" := text]> ∅))).

(** The JSON text of {success: false, error: message}. *)
Definition failure_text (message : string) : string :=
  "{" +:+ in_quotes "success" +:+ ":false," +:+ in_quotes "error" +:+ ":"
      +:+ in_quotes message +:+ "}".

Lemma send_keys_validated_witness :
  Api.trace
    (Api.handleSendKeys test_services (up 0) (send_keys_request "{}") api_connected)
    = [Api.WsSend 0 (reply_r1 (failure_text "target and keys are required"))] /\
  Api.trace
    (Api.handleSendKeys (parsing plain_text plain_target) (up 0)
       (send_keys_request plain_text) api_connected)
    = [Api.TmuxSendKeys (Js.VString "dev") (Js.VString "x") (Js.VBool true);
       Api.WsSend 0
         (reply_r1 ("{" +:+ in_quotes "success" +:+ ":true," +:+ in_quotes "target"
                      +:+ ":" +:+ in_quotes "dev" +:+ "}"))] /\
  Api.trace
    (Api.handleSendKeys (parsing shadowed_text shadowed_target) (up 0)
       (send_keys_request shadowed_text) api_connected)
    = [Api.WsSend 0
         (reply_r1 (failure_text "Cannot convert object to primitive value"))].
Proof.
  split; [|split].
  - destruct (send_keys_validated test_services (up 0) (send_keys_request "{}")
                (<["requestId" := "r1"]> (<["payload" := "{}"]> ∅)) "r1" api_connected
                eq_refl) as (H & _).
    + vm_compute. reflexivity.
    + discriminate.
    + assert (Hb : body_of test_services
                     (<["requestId" := "r1"]> (<["payload" := "{}"]> ∅))
                   = Js.Return (Js.VObject [])) by (vm_compute; reflexivity).
      destruct (H (Js.VObject []) Js.VUndefined Js.VUndefined Js.VUndefined
                  Hb eq_refl eq_refl eq_refl) as [Hreq _].
      destruct Hreq as [Hreq _]; [by left|]. rewrite Hreq. vm_compute. reflexivity.
  - destruct (send_keys_validated (parsing plain_text plain_target) (up 0)
                (send_keys_request plain_text)
                (<["requestId" := "r1"]> (<["payload" := plain_text]> ∅)) "r1"
                api_connected eq_refl) as (H & _).
    + vm_compute. reflexivity.
    + discriminate.
    + assert (Hb : body_of (parsing plain_text plain_target)
                     (<["requestId" := "r1"]> (<["payload" := plain_text]> ∅))
                   = Js.Return plain_target) by (vm_compute; reflexivity).
      destruct (H plain_target (Js.VString "dev") (Js.VString "x") Js.VUndefined
                  Hb eq_refl eq_refl eq_refl) as (_ & Hcall & _).
      destruct (Hcall eq_refl eq_refl eq_refl eq_refl eq_refl) as (_ & Hok & _).
      rewrite (Hok true eq_refl). vm_compute. reflexivity.
  - destruct (send_keys_validated (parsing shadowed_text shadowed_target) (up 0)
                (send_keys_request shadowed_text)
                (<["requestId" := "r1"]> (<["payload" := shadowed_text]> ∅)) "r1"
                api_connected eq_refl) as (H & _).
    + vm_compute. reflexivity.
    + discriminate.
    + assert (Hb : body_of (parsing shadowed_text shadowed_target)
                     (<["requestId" := "r1"]> (<["payload" := shadowed_text]> ∅))
                   = Js.Return shadowed_target) by (vm_compute; reflexivity).
      destruct (H shadowed_target (Js.VObject [("toString", Js.VNumber 1)])
                  (Js.VString "x") Js.VUndefined Hb eq_refl eq_refl eq_refl)
        as (_ & _ & Hthrow).
      destruct (Hthrow eq_refl eq_refl (or_introl eq_refl)) as [Hc _].
      rewrite Hc. vm_compute. reflexivity.
Defined.

(** C9, counterexample. The payload "null" has neither target nor keys,
    and the reply is the message of the TypeError, not "target and keys
    are required". *)
Lemma null_payload_other_error :
  let c' := Api.handleSendKeys test_services (up 0) (send_keys_request "null")
              api_connected in
  Js.get Js.VNull "target" = None /\ Js.get Js.VNull "keys" = None /\
  Api.trace c' =
    [Api.WsSend 0 (Api.api_response "r1" (Api.failure Api.destructure_null))] /\
  Api.api_response "r1" (Api.failure Api.destructure_null)
    <> Api.api_response "r1" Api.required_error.
Proof.
  split; [reflexivity|]. split; [reflexivity|]. split; [vm_compute; reflexivity|].
  intros H. apply (f_equal meta) in H.
  apply (f_equal (fun o => o ≫= (.!! "payload"))) in H.
  vm_compute in H. discriminate H.
Qed.

(** * Further properties of the relay link *)

Section RelayLifecycle.
Import Runtime Relay.

Lemma socket_state_transition id f ss :
  socket_state id (transition id f ss) = f <$> socket_state id ss.
Proof.
  unfold socket_state, transition. induction ss as [|[i st] ss IH]; [done|].
  cbn. destruct (Nat.eqb_spec i id) as [->|Hne]; cbn.
  - by rewrite Nat.eqb_refl.
  - apply Nat.eqb_neq in Hne. by rewrite Hne.
Qed.

(** The register message of a link (registerAsHost, lines 90-105). *)
Definition register_message (o : WebSocketClientOptions) : Message :=
  let meta : gmap string string :=
    <["machineId" := machineId o]> (<["label" := label o]> ∅) in
  mkMessage "register" (Some "host") (Some (sessionId o)) None
    (Some (if truthy (Some (token o)) then <["token" := token o]> meta else meta)).

Lemma register_message_meta o :
  exists m, meta (register_message o) = Some m /\
    m !! "label" = Some (label o) /\ m !! "machineId" = Some (machineId o) /\
    m !! "token" = (if String.eqb (token o) "" then None else Some (token o)) /\
    forall k, k <> "label" -> k <> "machineId" -> k <> "token" -> m !! k = None.
Proof.
  unfold register_message, truthy. cbn [meta].
  destruct (String.eqb (token o) ""); cbn [negb]; eexists; (split; [reflexivity|]);
    (split; [|split; [|split]]);
    repeat first [ rewrite lookup_insert_eq
                 | rewrite lookup_insert_ne by discriminate
                 | rewrite lookup_empty ]; try done;
    intros k ? ? ?; rewrite ?lookup_insert_ne by congruence; apply lookup_empty.
Qed.

Lemma registerAsHost_send env c :
  registerAsHost env c = (send env (register_message (options c)) c).2.
Proof. reflexivity. Qed.

End RelayLifecycle.

(** X1. When the link's socket opens, the link is connected, its attempt
    counter is 0 and its breaker is closed whatever they were before,
    the connected event is emitted and the register message (role host,
    the session id, label, machine id, and the token if it is not empty)
    is the first and only message sent. *)
Theorem open_resets_and_registers (env : Env) (id : nat) (c c' : Relay.Client) :
  Relay.step env (Relay.WsOpen id) c = Some c' ->
  Relay.isConnected c' = true /\ Relay.reconnectAttempts c' = 0 /\
  Relay.circuitBreakerOpen c' = false /\
  Relay.timers c' = Relay.timers c /\ Relay.destroyed c' = Relay.destroyed c /\
  (Relay.ws c = Some id -> ws_send_ok env = true ->
     Relay.trace c' =
       Relay.trace c ++
       [Relay.Emit Relay.EConnected;
        Relay.WsSend id (register_message (Relay.options c))]) /\
  (Relay.ws c = None \/ ws_send_ok env = false ->
     Relay.trace c' = Relay.trace c ++ [Relay.Emit Relay.EConnected]).
Proof.
  unfold Relay.step. destruct (Relay.exited c); [done|].
  destruct (Runtime.socket_state id (Relay.sockets c)) as [[]|] eqn:Hs; try done.
  intros [= <-]. unfold Relay.on_open. rewrite registerAsHost_send.
  change (Relay.options (Relay.emit _ _)) with (Relay.options c).
  set (msg := register_message (Relay.options c)). clearbody msg.
  set (X := Relay.emit Relay.EConnected _).
  assert (HX : Relay.trace X = Relay.trace c ++ [Relay.Emit Relay.EConnected])
    by reflexivity.
  assert (Hst : Runtime.socket_state id (Relay.sockets X) = Some Runtime.OPEN).
  { change (Relay.sockets X) with (Runtime.transition id Runtime.opened (Relay.sockets c)).
    by rewrite socket_state_transition, Hs. }
  assert (Hfields : Relay.isConnected X = true /\ Relay.reconnectAttempts X = 0 /\
            Relay.circuitBreakerOpen X = false /\ Relay.timers X = Relay.timers c /\
            Relay.destroyed X = Relay.destroyed c /\ Relay.ws X = Relay.ws c)
    by done.
  clearbody X.
  destruct Hfields as (H1 & H2 & H3 & H4 & H5 & H6).
  unfold Relay.send. rewrite H6.
  split; [|split; [|split; [|split; [|split; [|split]]]]].
  1-5: destruct (Relay.ws c) as [w|]; [|done];
       destruct (Runtime.socket_state w _) as [[]|]; try done;
       by destruct (ws_send_ok env).
  - intros Hw Hok. rewrite Hw, Hst, Hok. cbn [snd Relay.act Relay.trace Relay.set_trace].
    by rewrite HX, <- app_assoc.
  - intros [Hw|Hok].
    + by rewrite Hw.
    + destruct (Relay.ws c) as [w|]; [|done].
      destruct (Runtime.socket_state w _) as [[]|]; try done. by rewrite Hok.
Qed.

Definition first_up : Relay.Client :=
  Relay.started (up 0) "wss://relay" "m1/dev" "m1" "secret" "dev".

Lemma open_resets_and_registers_witness :
  Relay.isConnected connected_link = true /\
  Relay.trace connected_link =
    [Relay.NewWebSocket (Some 0%nat); Relay.Emit Relay.EConnected;
     Relay.WsSend 0 (register_message (Relay.options connected_link))].
Proof.
  assert (Hstep : Relay.step (up 10) (Relay.WsOpen 0) first_up = Some connected_link)
    by (vm_compute; reflexivity).
  destruct (open_resets_and_registers _ _ _ _ Hstep) as (Hc & _ & _ & _ & _ & Ht & _).
  split; [exact Hc|]. rewrite Ht by reflexivity. reflexivity.
Defined.

Section RelayDispatch.
Import Runtime Relay.































End RelayDispatch.

(** X2. A keys, resize or killSession message that is not addressed to
    the link's own session changes nothing: no event is emitted. A
    createSession message is not filtered by session: it is emitted
    whenever it names a session. *)
Theorem misrouted_message_ignored (message : Message) (c : Relay.Client) :
  session message <> Some (Relay.sessionId (Relay.options c)) ->
  (type message = "keys" \/ type message = "resize" \/
   type message = "killSession" -> Relay.handleMessage message c = c) /\
  (type message = "createSession" ->
   forall m name, meta message = Some m -> m !! "sessionName" = Some name ->
     name <> "" ->
     Relay.handleMessage message c = Relay.emit (Relay.ECreateSession name) c).
Proof.
  intros Hs. unfold Relay.handleMessage.
  rewrite (bool_decide_false _ Hs). split.
  - intros [-> | [-> | ->]]; cbn [String.eqb Ascii.eqb andb]; try done.
    change (String.eqb "resize" "keys") with false.
    change (String.eqb "resize" "resize") with true. cbv iota.
    by destruct (meta message).
  - intros -> m name Hm Hn Hne.
    change (String.eqb "createSession" "keys") with false.
    change (String.eqb "createSession" "resize") with false.
    change (String.eqb "createSession" "createSession") with true. cbv iota.
    rewrite Hm, Hn. cbn. destruct (String.eqb_spec name ""); done.
Qed.

Definition keys_for (target text : string) : Message :=
  mkMessage "keys" None (Some target) (Some text) None.

Lemma misrouted_message_ignored_witness :
  Relay.handleMessage (keys_for "m1/other" "rm -rf") connected_link = connected_link.
Proof.
  destruct (misrouted_message_ignored (keys_for "m1/other" "rm -rf") connected_link)
    as [H _].
  - vm_compute. discriminate.
  - apply H. by left.
Defined.


Definition resize_to (cols rows : string) : Message :=
  mkMessage "resize" None (Some "m1/dev") None
    (Some (<["cols" := cols]> (<["rows" := rows]> ∅))).




(** X4. In every state a link can reach after its single start: the
    attempt counter is between 0 and 5, at most one timer is pending,
    and a timer is pending only while no socket is connecting, open or
    closing. *)
Theorem reachable_link_bounds (c : Relay.Client) :
  Relay.reachable c ->
  0 <= Relay.reconnectAttempts c <= 5 /\
  (length (Relay.timers c) <= 1)%nat /\
  (Relay.timers c <> [] -> Relay.live_sockets c = []) /\
  (Relay.live_sockets c <> [] -> Relay.timers c = []).
Proof.
  intros Hr. destruct (inv_reachable c Hr) as (Hone & Hatt & _).
  split; [exact Hatt|]. split; [lia|]. split.
  - intros Ht. apply length_0_nil. destruct (Relay.timers c); [done|]. cbn in Hone. lia.
  - intros Hl. apply length_0_nil. destruct (Relay.live_sockets c); [done|].
    cbn in Hone. lia.
Qed.

Lemma reachable_link_bounds_witness :
  (length (Relay.timers tripped) <= 1)%nat /\ Relay.live_sockets tripped = [].
Proof.
  destruct (reachable_link_bounds tripped tripped_reachable) as (_ & Ht & Hl & _).
  split; [exact Ht|]. apply Hl. vm_compute. discriminate.
Defined.

Section RelayDestroyed.
Import Runtime Relay.

Definition is_send (a : Action) : bool :=
  match a with WsSend _ _ => true | _ => false end.

Definition is_timer (a : Action) : bool :=
  match a with SetTimeout _ _ _ => true | _ => false end.

(** What a destroyed link must not do any more. *)
Definition inert (a : Action) : bool :=
  negb (is_attempt a) && negb (is_send a) && negb (is_timer a).

(** What the theorem below says of one handler's result. *)
Definition stays_destroyed (c c' : Client) : Prop :=
  exists acts, trace c' = trace c ++ acts /\
    forallb inert acts = true /\
    destroyed c' = true /\ ws c' = None /\
    (length (timers c') <= length (timers c))%nat.

Lemma stays_destroyed_refl c :
  destroyed c = true -> ws c = None -> stays_destroyed c c.
Proof. intros Hd Hw. exists []. by rewrite app_nil_r. Qed.

Lemma stays_destroyed_act a c :
  destroyed c = true -> ws c = None -> inert a = true ->
  stays_destroyed c (act a c).
Proof. intros Hd Hw Ha. exists [a]. cbn. by rewrite Ha. Qed.

Lemma stays_destroyed_console lines c :
  destroyed c = true -> ws c = None ->
  stays_destroyed c (console_error lines c).
Proof.
  intros Hd Hw. exists (ConsoleError <$> lines).
  rewrite trace_console_error. split; [done|].
  split; [clear; induction lines; done|].
  unfold console_error. clear -Hd Hw. revert c Hd Hw.
  induction lines as [|l lines IH]; intros c Hd Hw; [done|].
  cbn [foldl].
  destruct (IH (act (ConsoleError l) c) Hd Hw) as (H1 & H2 & H3).
  split; [exact H1|]. split; [exact H2|]. exact H3.
Qed.

Lemma stays_destroyed_exit lines c :
  destroyed c = true -> ws c = None ->
  stays_destroyed c
    (act (ProcessExit 1)
       (set_exited (Some 1)
          (destroy (set_autoReconnect false (console_error lines c))))).
Proof.
  intros Hd Hw.
  destruct (stays_destroyed_console lines c Hd Hw) as (a1 & Ht1 & Hi1 & Hd1 & Hw1 & Hl1).
  set (Y := console_error lines c) in *. clearbody Y.
  set (X := set_autoReconnect false Y).
  assert (HwX : ws X = None) by exact Hw1.
  assert (HtX : trace X = trace Y) by reflexivity.
  assert (HlX : timers X = timers Y) by reflexivity.
  clearbody X. rewrite <- HlX in Hl1. rewrite <- HtX in Ht1. clear HtX HlX Hd1 Hw1.
  destruct X as [o w ar ic ra co rt tm d ss ts nx ex tr]. cbn in HwX, Ht1, Hl1. subst w tr.
  exists (a1 ++ match tm with Some tid => [ClearTimeout tid] | None => [] end
             ++ [ProcessExit 1]).
  unfold destroy. destruct tm as [tid|]; cbn; rewrite <- !app_assoc, !forallb_app, Hi1.
  - split; [done|]. split; [done|]. split; [done|]. split; [done|].
    pose proof (remove_timer_le tid ts) as Hle. unfold remove_timer in Hle. lia.
  - split; [done|]. split; [done|]. split; [done|]. split; [done|]. lia.
Qed.

Lemma handleError_destroyed message c :
  destroyed c = true -> ws c = None -> stays_destroyed c (handleError message c).
Proof.
  intros Hd Hw. unfold handleError.
  destruct (meta message) as [m|]; [|by apply stays_destroyed_refl].
  destruct (decide _).
  - cbv zeta. generalize (limit_notice m). intros lines.
    by apply stays_destroyed_exit.
  - set (lines := (_ :: _)). clearbody lines. by apply stays_destroyed_console.
Qed.

Lemma handleMessage_destroyed message c :
  destroyed c = true -> ws c = None -> stays_destroyed c (handleMessage message c).
Proof.
  intros Hd Hw.
  pose proof (handleError_destroyed message c Hd Hw) as Herr.
  unfold handleMessage. cbv zeta.
  pose proof (stays_destroyed_refl c Hd Hw) as Hid.
  pose proof (fun a => stays_destroyed_act a c Hd Hw) as Hact.
  unfold emit.
  repeat match goal with
         | |- context [if String.eqb ?a ?b then _ else _] => destruct (String.eqb a b)
         | |- context [if ?b && ?b' then _ else _] => destruct (b && b')
         | |- context [if bool_decide ?P then _ else _] => destruct (bool_decide P)
         | |- context [if truthy ?o then _ else _] => destruct (truthy o)
         | |- context [match meta message with Some _ => _ | None => _ end] =>
             destruct (meta message)
         end; try (apply Hact; reflexivity); try exact Hid; try exact Herr.
Qed.

End RelayDestroyed.

(** X5. Destroyed is absorbing. Once a link is destroyed and has let go
    of its socket, whatever event reaches it afterwards, it stays
    destroyed and without a socket, makes no connection attempt, sets no
    timer and sends nothing, and its pending timers do not grow. *)
Theorem destroyed_is_absorbing (env : Env) (ev : Relay.Event) (c c' : Relay.Client) :
  Relay.destroyed c = true -> Relay.ws c = None ->
  Relay.step env ev c = Some c' ->
  Relay.destroyed c' = true /\ Relay.ws c' = None /\
  (length (Relay.timers c') <= length (Relay.timers c))%nat /\
  exists acts, Relay.trace c' = Relay.trace c ++ acts /\ forallb inert acts = true.
Proof.
  intros Hd Hw Hstep.
  enough (Hs : stays_destroyed c c').
  { destruct Hs as (acts & Ht & Hi & H1 & H2 & H3).
    split; [exact H1|]. split; [exact H2|]. split; [exact H3|]. by exists acts. }
  revert Hstep. unfold Relay.step. destruct (Relay.exited c); [done|].
  destruct ev as [id|id data|id|id code reason|id| |data|data].
  - destruct (Runtime.socket_state id (Relay.sockets c)) as [[]|]; try done.
    intros [= <-]. unfold Relay.on_open. rewrite registerAsHost_send.
    destruct c as [o w ar ic ra co rt tm d ss ts nx ex tr]. cbn in Hd, Hw. subst d w.
    by exists [Relay.Emit Relay.EConnected].
  - destruct (Runtime.socket_state id (Relay.sockets c)) as [[]|]; try done.
    intros [= <-]. destruct data as [m|]; cbn [Relay.on_message].
    + by apply handleMessage_destroyed.
    + by apply stays_destroyed_act.
  - destruct (Runtime.socket_state id (Relay.sockets c)); [|done].
    intros [= <-]. by apply stays_destroyed_act.
  - destruct c as [o w ar ic ra co rt tm d ss ts nx ex tr]. cbn in Hd, Hw. subst d w.
    cbn [Relay.sockets].
    destruct (Runtime.socket_state id ss) as [[]|]; try done; intros [= <-];
      unfold Relay.on_close; cbn; rewrite andb_false_r;
      by exists [Relay.Emit (Relay.EDisconnected code reason)].
  - destruct (Runtime.find_timer id (Relay.timers c)) as [t|]; [|done].
    intros [= <-]. pose proof (remove_timer_le id (Relay.timers c)) as Hle.
    destruct c as [o w ar ic ra co rt tm d ss ts nx ex tr]. cbn in Hd, Hw, Hle. subst d w.
    unfold Relay.run_callback, Relay.scheduleReconnect. cbn.
    rewrite andb_false_r. exists []. rewrite app_nil_r.
    destruct (Runtime.callback t); done.
  - intros [= <-].
    destruct c as [o w ar ic ra co rt tm d ss ts nx ex tr]. cbn in Hd, Hw. subst d w.
    unfold Relay.destroy. destruct tm as [tid|]; cbn.
    + pose proof (remove_timer_le tid ts) as Hle. unfold Runtime.remove_timer in Hle.
      by exists [Relay.ClearTimeout tid].
    + exists []. by rewrite app_nil_r.
  - intros [= <-]. unfold Relay.sendScreen, Relay.send. rewrite Hw.
    destruct (negb _); by apply stays_destroyed_refl.
  - intros [= <-]. unfold Relay.sendScreenCompressed, Relay.sendScreen, Relay.send.
    rewrite Hw. destruct (negb _); [by apply stays_destroyed_refl|].
    destruct (gzipSync env data); by apply stays_destroyed_refl.
Qed.

Definition torn_down : Relay.Client := Relay.destroy connected_link.

Definition closed_after_destroy : Relay.Client :=
  default torn_down (Relay.step (up 20) (Relay.WsClosed 0 1005 "bye") torn_down).

Lemma destroyed_is_absorbing_witness :
  Relay.destroyed closed_after_destroy = true /\
  Relay.ws closed_after_destroy = None /\
  Relay.trace closed_after_destroy =
    Relay.trace torn_down ++ [Relay.Emit (Relay.EDisconnected 1005 "bye")].
Proof.
  assert (Hstep : Relay.step (up 20) (Relay.WsClosed 0 1005 "bye") torn_down
                  = Some closed_after_destroy) by (vm_compute; reflexivity).
  destruct (destroyed_is_absorbing (up 20) _ torn_down closed_after_destroy
              eq_refl eq_refl Hstep) as (Hd & Hw & _ & _).
  split; [exact Hd|]. split; [exact Hw|]. vm_compute. reflexivity.
Defined.

(** X6. destroy() may be called again: a second call changes nothing.
    After it connect() and scheduleReconnect() do nothing and every
    send returns false. *)
Theorem destroy_twice (env : Env) (c : Relay.Client) :
  let d := Relay.destroy c in
  Relay.destroy d = d /\ Relay.connect env d = d /\
  Relay.scheduleReconnect env d = d /\
  (forall m, Relay.send env m d = (false, d)) /\
  (forall data, Relay.sendScreen env data d = (false, d)) /\
  (forall data, Relay.sendScreenCompressed env data d = (false, d)).
Proof.
  intros d. destruct (destroy_fields c) as (H1 & H2 & H3 & H4 & _).
  fold d in H1, H2, H3, H4. clearbody d.
  assert (Hsend : forall m, Relay.send env m d = (false, d)).
  { intros m. unfold Relay.send. by rewrite H4. }
  split; [|split; [|split; [|split; [|split]]]].
  - destruct d as [o w ar ic ra co rt tm dd ss ts nx ex tr]. cbn in H1, H2, H3, H4.
    by subst.
  - unfold Relay.connect. by rewrite H2.
  - unfold Relay.scheduleReconnect. by rewrite H2.
  - exact Hsend.
  - intros data. unfold Relay.sendScreen. destruct (negb _); [done|apply Hsend].
  - intros data. unfold Relay.sendScreenCompressed, Relay.sendScreen.
    destruct (negb _); [done|]. destruct (gzipSync env data); apply Hsend.
Qed.

Section CaptureCadence.
Import SessionHandler.

Lemma round_lt_grid x c j :
  0 <= x -> 1 <= j -> Double.excess x <= j ->
  x + 2 ^ (j - 1) < c * 2 ^ j -> Double.round x < c * 2 ^ j.
Proof.
  intros H0 Hj He Hx.
  assert (Hpj : 0 < 2 ^ (j - 1)) by (apply Z.pow_pos_nonneg; lia).
  unfold Double.round. set (s := Double.excess x) in *.
  destruct (Z.leb_spec s 0) as [Hs|Hs]; [lia|].
  assert (Hp : 0 < 2 ^ s) by (apply Z.pow_pos_nonneg; lia).
  assert (Hc : c * 2 ^ j = (c * 2 ^ (j - s)) * 2 ^ s).
  { rewrite <- Z.mul_assoc, <- Z.pow_add_r by lia. do 2 f_equal. lia. }
  assert (Hhalf : 2 ^ s = 2 * 2 ^ (s - 1)).
  { rewrite <- Z.pow_succ_r by lia. f_equal. lia. }
  assert (Hmono : 2 ^ (s - 1) <= 2 ^ (j - 1)) by (apply Z.pow_le_mono_r; lia).
  pose proof (Z.div_mod x (2 ^ s) ltac:(lia)) as Hdm.
  pose proof (Z.mod_pos_bound x (2 ^ s) Hp) as Hr.
  set (q := x / 2 ^ s) in *. set (r := x mod 2 ^ s) in *.
  set (cc := c * 2 ^ (j - s)) in *. rewrite Hc in *. clearbody cc q r.
  assert (Hq : q < cc) by nia.
  destruct ((2 ^ (s - 1) <? r) || (r =? 2 ^ (s - 1)) && Z.odd q) eqn:Hup.
  - assert (2 ^ (s - 1) <= r).
    { apply orb_true_iff in Hup as [Hup|Hup]; [lia|].
      apply andb_true_iff in Hup as [Hup _]. lia. }
    assert (q + 1 < cc \/ q + 1 = cc) as [Hlt | Heq] by lia; [nia|].
    exfalso. nia.
  - nia.
Qed.

Lemma start_jitter_range rnd :
  0 <= rnd < 2 ^ 53 -> 0 <= start_jitter rnd < 5000.
Proof.
  intros Hk. unfold start_jitter, Double.floor, Double.mul_int, Double.random,
    Double.SCALE.
  assert (He : Double.excess (2 * rnd * 5000) <= 14).
  { apply excess_le; [lia|]. unfold Double.PRECISION.
    change (2 ^ (14 + 53)) with (16384 * 2 ^ 53). lia. }
  assert (Hlo : 0 * 2 ^ 14 <= Double.round (2 * rnd * 5000))
    by (apply round_ge_grid; lia).
  assert (Hhi : Double.round (2 * rnd * 5000) < (5000 * 2 ^ 40) * 2 ^ 14).
  { apply round_lt_grid; [lia|lia|exact He|].
    change ((5000 * 2 ^ 40) * 2 ^ 14) with (10000 * 2 ^ 53).
    change (2 ^ (14 - 1)) with 8192. lia. }
  change ((5000 * 2 ^ 40) * 2 ^ 14) with (5000 * 2 ^ 54) in Hhi.
  split.
  - apply Z.div_pos; lia.
  - apply Z.div_lt_upper_bound; lia.
Qed.

End CaptureCadence.

(** X7. The capture loop never stops by itself: every run of the
    capture closure arms the next one, after 50, 200 or 500 ms. On a
    running handler with a connected link and a snapshot, the next run
    is 50 ms away exactly when the screen changed within the last
    2000 ms (a change on this very run included) and 200 ms away
    otherwise; a forced re-send of an unchanged screen does not count
    as a change. *)
Theorem capture_cadence (env : Env) (pane : SessionHandler.Pane)
    (h : SessionHandler.TmuxSessionHandler) :
  let h' := SessionHandler.capture env pane h in
  (exists d, SessionHandler.captureTimer h' = Some d /\ (d = 50 \/ d = 200 \/ d = 500)) /\
  SessionHandler.running h' = SessionHandler.running h /\
  (forall c screen,
     SessionHandler.running h = true -> SessionHandler.wsClient h = Some c ->
     Relay.isConnected c = true -> pane = SessionHandler.Screen screen ->
     (screen <> SessionHandler.lastScreen h ->
        SessionHandler.captureTimer h' = Some 50 /\
        SessionHandler.lastChangeTime h' = Date_now env) /\
     (screen = SessionHandler.lastScreen h ->
        SessionHandler.lastChangeTime h' = SessionHandler.lastChangeTime h /\
        SessionHandler.captureTimer h' =
          Some (if Date_now env - SessionHandler.lastChangeTime h <? 2000
                then 50 else 200))) /\
  (forall c, SessionHandler.running h = true -> SessionHandler.wsClient h = Some c ->
     Relay.isConnected c = true -> pane = SessionHandler.Unavailable ->
     h' = SessionHandler.set_captureTimer (Some 200) h).
Proof.
  intros h'. unfold h', SessionHandler.capture, Relay.getConnected.
  split; [|split; [|split]].
  - destruct (SessionHandler.wsClient h) as [c|]; [|by exists 500; auto].
    destruct (_ || _); [by exists 500; auto|].
    destruct pane as [screen| |]; [|by exists 200; auto|by exists 500; auto].
    cbv zeta. cbn [SessionHandler.captureTimer SessionHandler.set_captureTimer].
    destruct (_ <? SessionHandler.ACTIVE_THRESHOLD_MS); eexists; split; try done; auto.
  - destruct (SessionHandler.wsClient h) as [c|]; [|done].
    destruct (_ || _); [done|].
    destruct pane as [screen| |]; [|done|done].
    cbv zeta. destruct (_ || _); [|done]. by destruct (negb _).
  - intros c screen Hr Hw Hc ->. rewrite Hw, Hr, Hc. cbn [negb orb]. cbv zeta. split.
    + intros Hne. apply String.eqb_neq in Hne. rewrite Hne. cbn [negb orb].
      cbn [SessionHandler.captureTimer SessionHandler.set_captureTimer
           SessionHandler.lastChangeTime SessionHandler.set_wsClient
           SessionHandler.set_lastChangeTime].
      rewrite Z.sub_diag. done.
    + intros ->. rewrite String.eqb_refl. cbn [negb orb].
      destruct (SessionHandler.FORCE_SEND_INTERVAL_MS <=? _); done.
  - intros c Hr Hw Hc ->. by rewrite Hw, Hr, Hc.
Qed.

(** X8. While the handler is stopped, has no link, or its link is not
    connected, and also when the capture throws, a capture run only
    arms the next run 500 ms later: no other field of the handler
    changes, nothing is sent, and the outcome does not depend on what
    the pane shows. *)
Theorem capture_waits_until_ready (env : Env) (pane : SessionHandler.Pane)
    (h : SessionHandler.TmuxSessionHandler) :
  (SessionHandler.running h = false \/
   SessionHandler.wsClient h = None \/
   (exists c, SessionHandler.wsClient h = Some c /\ Relay.isConnected c = false) \/
   pane = SessionHandler.CaptureError) ->
  SessionHandler.capture env pane h = SessionHandler.set_captureTimer (Some 500) h /\
  SessionHandler.wire (SessionHandler.capture env pane h) = SessionHandler.wire h.
Proof.
  intros Hcase.
  assert (He : SessionHandler.capture env pane h
               = SessionHandler.set_captureTimer (Some 500) h).
  { unfold SessionHandler.capture, Relay.getConnected.
    destruct (SessionHandler.wsClient h) as [c|] eqn:Hw; [|done].
    destruct Hcase as [Hr | [Hn | [(c' & [= <-] & Hc) | ->]]].
    - by rewrite Hr.
    - done.
    - by rewrite Hc, orb_true_r.
    - by destruct (_ || _). }
  split; [exact He|]. by rewrite He.
Qed.

Definition waiting : SessionHandler.TmuxSessionHandler :=
  SessionHandler.start 0 (SessionHandler.new_handler agent_config "dev").

Lemma capture_waits_until_ready_witness :
  SessionHandler.captureTimer
    (SessionHandler.capture (up 0) (SessionHandler.Screen "$ ") waiting) = Some 500.
Proof.
  destruct (capture_waits_until_ready (up 0) (SessionHandler.Screen "$ ") waiting) as [He _].
  - right. left. reflexivity.
  - rewrite He. reflexivity.
Defined.

(** X9. start() sets its timer between 0 and 4999 ms, whatever
    Math.random() returns, and does nothing on a handler that is
    already running; stop() leaves a handler that is not running, has no
    capture timer and no link, and on which a second stop() and a late
    firing of the start timer change nothing. *)
Theorem handler_start_stop (env : Env) (rnd rnd' : Z)
    (h : SessionHandler.TmuxSessionHandler) :
  0 <= rnd < 2 ^ 53 ->
  (SessionHandler.running h = false ->
     exists d, SessionHandler.startTimer (SessionHandler.start rnd h) = Some d /\
               0 <= d < 5000) /\
  SessionHandler.running (SessionHandler.start rnd h) = true /\
  SessionHandler.start rnd' (SessionHandler.start rnd h) = SessionHandler.start rnd h /\
  (let s := SessionHandler.stop h in
   SessionHandler.running s = false /\ SessionHandler.captureTimer s = None /\
   SessionHandler.wsClient s = None /\ SessionHandler.stop s = s /\
   SessionHandler.wsClient (SessionHandler.connectAndRun env s) = None /\
   SessionHandler.running (SessionHandler.connectAndRun env s) = false).
Proof.
  intros Hk. split; [|split; [|split]].
  - intros Hr. unfold SessionHandler.start. rewrite Hr.
    exists (SessionHandler.start_jitter rnd). split; [done|].
    by apply start_jitter_range.
  - unfold SessionHandler.start. by destruct (SessionHandler.running h) eqn:Hr.
  - unfold SessionHandler.start. by destruct (SessionHandler.running h) eqn:Hr; [rewrite Hr|].
  - by destruct h.
Qed.

Lemma handler_start_stop_witness :
  exists d,
    SessionHandler.startTimer
      (SessionHandler.start (2 ^ 53 - 1) (SessionHandler.new_handler agent_config "dev"))
    = Some d /\ 0 <= d < 5000.
Proof.
  destruct (handler_start_stop (up 0) (2 ^ 53 - 1) 0
              (SessionHandler.new_handler agent_config "dev")) as [H _].
  - vm_compute. split; [discriminate|reflexivity].
  - exact (H eq_refl).
Defined.

Section ListenersFacts.
Import Runtime SessionHandler Listeners.

(** With the 'connected' listener idle (a capture run is already
    pending), the link of on_open is the link's own on_open. *)
Lemma on_open_link env pane s c :
  wsClient (handler s) = Some c -> captureTimer (handler s) <> None ->
  wsClient (handler (on_open env pane s)) = Some (Relay.on_open env c).
Proof.
  intros Hw Ht. unfold on_open. rewrite Hw. cbv zeta.
  unfold listener, startScreenCapture, set_link, with_link.
  destruct s as [h cs]. cbn in *.
  destruct h as [cfg ts sid w r ls lf lc ct st]. cbn in *. subst w.
  destruct ct as [d|]; [|done]. done.
Qed.

Lemma on_close_link env pane code reason s c :
  wsClient (handler s) = Some c ->
  wsClient (handler (on_close env pane code reason s))
    = Some (Relay.on_close env code reason c).
Proof.
  intros Hw. unfold on_close. rewrite Hw. cbv zeta.
  unfold listener, stopScreenCapture, set_link, with_link, Relay.on_close.
  destruct s as [h cs]. destruct h as [cfg ts sid w r ls lf lc ct st]. cbn in *.
  done.
Qed.

(** handleMessage emits at most one event, as its last action. *)
Lemma handleMessage_emits message c :
  Relay.handleMessage message c = c \/
  (exists e, Relay.handleMessage message c = Relay.emit e c) \/
  emitted_since c (Relay.handleMessage message c) = [].
Proof.
  unfold Relay.handleMessage. cbv zeta.
  repeat match goal with
         | |- context [if String.eqb ?a ?b then _ else _] => destruct (String.eqb a b)
         | |- context [if ?b && ?b' then _ else _] => destruct (b && b')
         | |- context [if bool_decide ?P then _ else _] => destruct (bool_decide P)
         | |- context [if truthy ?o then _ else _] => destruct (truthy o)
         | |- context [match meta message with Some _ => _ | None => _ end] =>
             destruct (meta message)
         end; try (by left); try (right; left; by eexists).
  right. right. unfold Relay.handleError. destruct (meta message) as [m|].
  - destruct (decide _).
    + cbv zeta.
      destruct (exit_after_notice (Relay.limit_notice m) c _ eq_refl)
        as (_ & _ & _ & _ & _ & _ & (acts & Ht & Hcl) & _).
      unfold emitted_since. rewrite Ht. rewrite drop_app_length.
      generalize (Relay.limit_notice m). intros lines. clear Ht.
      rewrite !omap_app. cbn.
      assert (omap (fun a => match a with Relay.Emit e => Some e | _ => None end)
                (Relay.ConsoleError <$> lines) = []) as ->.
      { clear. induction lines; done. }
      cbn. rewrite app_nil_r. clear -Hcl.
      induction Hcl as [|a acts Ha _ IH]; [done|].
      cbn. by destruct Ha as [id [-> | ->]].
    + set (lines := (_ :: _)). clearbody lines.
      unfold emitted_since. rewrite trace_console_error, drop_app_length.
      clear. induction lines; done.
  - unfold emitted_since. by rewrite drop_all.
Qed.

Lemma emitted_since_emit e c : emitted_since c (Relay.emit e c) = [e].
Proof. unfold emitted_since. cbn. by rewrite drop_app_length. Qed.

Lemma emitted_since_refl c : emitted_since c c = [].
Proof. unfold emitted_since. by rewrite drop_all. Qed.

End ListenersFacts.

(** X10. When the link's socket opens and no capture run is pending,
    the 'connected' listener starts the capture loop inside emit, before
    registerAsHost runs: with a running handler and a working socket the
    wire carries the connected event, then the first frame (if the
    screen differs from the last one sent or 10,000 ms have passed),
    and only then the register message; the next capture run is armed. *)
Theorem first_frame_precedes_registration (env : Env) (screen : string)
    (s : Listeners.Session) (c : Relay.Client) (id : nat) :
  let h := Listeners.handler s in
  SessionHandler.wsClient h = Some c -> SessionHandler.running h = true ->
  SessionHandler.captureTimer h = None ->
  Relay.ws c = Some id ->
  Runtime.socket_state id (Relay.sockets c) = Some Runtime.OPEN ->
  ws_send_ok env = true ->
  let s' := Listeners.on_open env (SessionHandler.Screen screen) s in
  SessionHandler.wire (Listeners.handler s') =
    Relay.trace c ++ [Relay.Emit Relay.EConnected]
      ++ (if send_now env screen h
          then [Relay.WsSend id (frame env (Relay.sessionId (Relay.options c)) screen)]
          else [])
      ++ [Relay.WsSend id (register_message (Relay.options c))] /\
  (exists d, SessionHandler.captureTimer (Listeners.handler s') = Some d) /\
  Listeners.calls s' = Listeners.calls s.
Proof.
  intros h Hw Hr Ht Hid Hs Hok s'. unfold s', Listeners.on_open.
  fold h. rewrite Hw. cbv zeta.
  set (c1 := Relay.emit Relay.EConnected _).
  assert (Hup : transport_up env c1 id) by (by repeat split).
  assert (Htr : Relay.trace c1 = Relay.trace c ++ [Relay.Emit Relay.EConnected])
    by reflexivity.
  assert (Ho : Relay.options c1 = Relay.options c) by reflexivity.
  clearbody c1.
  unfold Listeners.listener, SessionHandler.startScreenCapture, Listeners.set_link.
  cbn [Listeners.handler Listeners.set_handler SessionHandler.captureTimer
       SessionHandler.set_wsClient].
  fold h. rewrite Ht.
  set (h1 := SessionHandler.set_wsClient (Some c1) h).
  assert (Hr1 : SessionHandler.running h1 = true) by exact Hr.
  assert (Hw1 : SessionHandler.wsClient h1 = Some c1) by reflexivity.
  assert (Hsn : send_now env screen h1 = send_now env screen h) by reflexivity.
  pose proof (capture_screen env screen h1 c1 Hr1 Hw1 (proj1 Hup)) as Hcap.
  cbv zeta in Hcap. rewrite Hsn in Hcap.
  assert (Hct : exists d, SessionHandler.captureTimer
              (SessionHandler.capture env (SessionHandler.Screen screen) h1) = Some d).
  { clear. unfold SessionHandler.capture.
    destruct (SessionHandler.wsClient h1); [|by eexists].
    destruct (_ || _); [by eexists|]. cbv zeta.
    cbn [SessionHandler.captureTimer SessionHandler.set_captureTimer]. by eexists. }
  set (h2 := SessionHandler.capture env (SessionHandler.Screen screen) h1) in *.
  clearbody h2. clear Hr1 Hw1 Hsn. clearbody h1.
  unfold Listeners.with_link.
  cbn [Listeners.handler Listeners.set_handler Listeners.calls].
  destruct (send_now env screen h).
  - destruct Hcap as (Hw2 & _). rewrite Hw2.
    rewrite (send_frame_up env screen c1 id Hup), Ho.
    set (c2 := Relay.act _ c1).
    assert (Hup2 : transport_up env c2 id) by exact Hup.
    rewrite registerAsHost_send, (send_up env _ c2 id Hup2).
    unfold Listeners.set_link, SessionHandler.wire.
    cbn [Listeners.handler Listeners.set_handler SessionHandler.wsClient
         SessionHandler.set_wsClient Listeners.calls snd].
    split; [|split; [|done]].
    + change (Relay.options c2) with (Relay.options c1). rewrite Ho.
      unfold c2. cbn [Relay.trace Relay.act Relay.set_trace]. rewrite Htr.
      by rewrite <- !app_assoc.
    + destruct Hct as [d Hd]. exists d. by destruct h2.
  - destruct Hcap as (Hw2 & _). rewrite Hw2.
    rewrite registerAsHost_send, (send_up env _ c1 id Hup).
    unfold Listeners.set_link, SessionHandler.wire.
    cbn [Listeners.handler Listeners.set_handler SessionHandler.wsClient
         SessionHandler.set_wsClient Listeners.calls snd].
    split; [|split; [|done]].
    + rewrite Ho. cbn [Relay.trace Relay.act Relay.set_trace]. rewrite Htr.
      by rewrite <- !app_assoc.
    + destruct Hct as [d Hd]. exists d. by destruct h2.
Qed.

(** A handler whose start timer fired and whose socket just opened. *)
Definition opening : Listeners.Session :=
  let h := SessionHandler.connectAndRun (up 0) waiting in
  Listeners.mkSession
    (SessionHandler.set_wsClient
       (Relay.set_sockets [Runtime.mkSocket 0 Runtime.OPEN] <$> SessionHandler.wsClient h) h)
    [] [].

Lemma first_frame_precedes_registration_witness :
  exists frame_message register,
    type frame_message = "screen" /\ type register = "register" /\
    SessionHandler.wire
      (Listeners.handler (Listeners.on_open (up 10) (SessionHandler.Screen "$ ") opening))
    = [Relay.NewWebSocket (Some 0%nat); Relay.Emit Relay.EConnected;
       Relay.WsSend 0 frame_message; Relay.WsSend 0 register].
Proof.
  destruct (first_frame_precedes_registration (up 10) "$ " opening
              (Relay.set_sockets [Runtime.mkSocket 0 Runtime.OPEN] first_up) 0%nat
              eq_refl eq_refl eq_refl eq_refl eq_refl eq_refl) as (Hwire & _).
  eexists _, _. split; [|split; [|rewrite Hwire; vm_compute; reflexivity]];
    reflexivity.
Defined.

(** X11. Keys from the relay reach the handler's own pane and nothing
    else: a keys message for the link's session with a non-empty
    payload gives exactly one tmux.sendKeys(tmuxSession, payload, false),
    without Enter; a keys message for another session, or with an empty
    payload, gives no call. The handler and what is on the wire stay as
    they were in both cases. *)
Theorem keys_reach_own_pane_only (env : Env) (pane : SessionHandler.Pane)
    (message : Message) (s : Listeners.Session) (c : Relay.Client) :
  SessionHandler.wsClient (Listeners.handler s) = Some c ->
  type message = "keys" ->
  let s' := Listeners.on_message env pane (Some message) s in
  let mine := bool_decide (session message = Some (Relay.sessionId (Relay.options c))) in
  Listeners.calls s' =
    Listeners.calls s ++
      (if mine && truthy (payload message)
       then [Listeners.SendKeys (SessionHandler.tmuxSession (Listeners.handler s))
               (default "" (payload message)) false]
       else []) /\
  Listeners.handler s' =
    SessionHandler.set_wsClient
      (Some (if mine && truthy (payload message)
             then Relay.emit (Relay.EKeys (default "" (payload message))) c else c))
      (Listeners.handler s).
Proof.
  intros Hw Ht s' mine. unfold s', Listeners.on_message. rewrite Hw. cbv zeta.
  unfold Relay.on_message, Relay.handleMessage. rewrite Ht. cbv zeta.
  change (String.eqb "keys" "keys") with true. cbv iota. fold mine.
  destruct (mine && truthy (payload message)).
  - rewrite emitted_since_emit. cbn. by rewrite app_nil_r || done.
  - rewrite emitted_since_refl. cbn. by rewrite app_nil_r.
Qed.

Lemma keys_reach_own_pane_only_witness :
  Listeners.calls
    (Listeners.on_message (up 20) SessionHandler.Unavailable
       (Some (keys_for "m1/dev" "ls")) (Listeners.mkSession streaming [] []))
  = [Listeners.SendKeys "dev" "ls" false] /\
  Listeners.calls
    (Listeners.on_message (up 20) SessionHandler.Unavailable
       (Some (keys_for "m1/other" "ls")) (Listeners.mkSession streaming [] []))
  = [].
Proof.
  split.
  - destruct (keys_reach_own_pane_only (up 20) SessionHandler.Unavailable
                (keys_for "m1/dev" "ls") (Listeners.mkSession streaming [] [])
                connected_link eq_refl eq_refl) as [H _].
    rewrite H. vm_compute. reflexivity.
  - destruct (keys_reach_own_pane_only (up 20) SessionHandler.Unavailable
                (keys_for "m1/other" "ls") (Listeners.mkSession streaming [] [])
                connected_link eq_refl eq_refl) as [H _].
    rewrite H. vm_compute. reflexivity.
Defined.



(** X13. Resize and createSession requests reach tmux and the
    orchestrator: a resize message for the link's session whose cols
    and rows both parse to a number (anything but NaN) gives exactly
    one tmux.resizeWindow(tmuxSession, cols, rows) with the two numbers
    parseInt returned, which are doubles: digits beyond 53 significant
    bits are rounded and a value from 2^1024 on is Infinity; a
    createSession message with a non-empty sessionName
    gives exactly one call of the orchestrator's callback with that
    name, whatever session the message names. Neither touches the
    handler's own fields. *)
Theorem resize_and_create_are_routed (env : Env) (pane : SessionHandler.Pane)
    (message : Message) (m : gmap string string) (s : Listeners.Session)
    (c : Relay.Client) :
  SessionHandler.wsClient (Listeners.handler s) = Some c ->
  meta message = Some m ->
  let s' := Listeners.on_message env pane (Some message) s in
  (type message = "resize" ->
   session message = Some (Relay.sessionId (Relay.options c)) ->
   Relay.parseInt (m !! "cols") <> Relay.NaN ->
   Relay.parseInt (m !! "rows") <> Relay.NaN ->
   s' = Listeners.call
          (Listeners.ResizeWindow (SessionHandler.tmuxSession (Listeners.handler s))
             (Relay.parseInt (m !! "cols")) (Relay.parseInt (m !! "rows")))
          (Listeners.set_link
             (Relay.emit (Relay.EResize (Relay.parseInt (m !! "cols"))
                            (Relay.parseInt (m !! "rows"))) c) s)) /\
  (type message = "createSession" ->
   forall name, m !! "sessionName" = Some name -> name <> "" ->
     s' = Listeners.call (Listeners.OnCreateSession name)
            (Listeners.set_link (Relay.emit (Relay.ECreateSession name) c) s)).
Proof.
  intros Hw Hm s'. unfold s', Listeners.on_message. rewrite Hw. cbv zeta.
  unfold Relay.on_message, Relay.handleMessage. cbv zeta. split.
  - intros Ht Hs Hc Hr. rewrite Ht, Hm.
    change (String.eqb "resize" "keys") with false.
    change (String.eqb "resize" "resize") with true. cbv iota.
    rewrite (bool_decide_true _ Hs).
    assert (Hboth : negb (Relay.isNaN (Relay.parseInt (m !! "cols")))
                    && negb (Relay.isNaN (Relay.parseInt (m !! "rows"))) = true).
    { destruct (Relay.parseInt (m !! "cols")); [done|..];
        destruct (Relay.parseInt (m !! "rows")); done. }
    rewrite Hboth. rewrite emitted_since_emit. reflexivity.
  - intros Ht name Hn Hne. rewrite Ht, Hm.
    change (String.eqb "createSession" "keys") with false.
    change (String.eqb "createSession" "resize") with false.
    change (String.eqb "createSession" "createSession") with true. cbv iota.
    rewrite Hn. cbn [truthy default].
    destruct (String.eqb_spec name "") as [?|_]; [done|]. cbn [negb].
    rewrite emitted_since_emit. reflexivity.
Qed.

(** 310 nines: an integer above the largest double. *)
Definition nines : string :=
  Eval vm_compute in String.concat "" (replicate 310 "9").

Lemma resize_and_create_are_routed_witness :
  Listeners.calls
    (Listeners.on_message (up 20) SessionHandler.Unavailable
       (Some (resize_to "120" "40")) (Listeners.mkSession streaming [] []))
  = [Listeners.ResizeWindow "dev" (Relay.Finite false 120) (Relay.Finite false 40)] /\
  Listeners.calls
    (Listeners.on_message (up 20) SessionHandler.Unavailable
       (Some (resize_to "9007199254740993" nines)) (Listeners.mkSession streaming [] []))
  = [Listeners.ResizeWindow "dev" (Relay.Finite false 9007199254740992)
       (Relay.Infinity false)].
Proof.
  split.
  - destruct (resize_and_create_are_routed (up 20) SessionHandler.Unavailable
                (resize_to "120" "40") (<["cols" := "120"]> (<["rows" := "40"]> ∅))
                (Listeners.mkSession streaming [] []) connected_link eq_refl eq_refl)
      as [H _].
    rewrite (H eq_refl eq_refl); [|vm_compute; discriminate|vm_compute; discriminate].
    vm_compute. reflexivity.
  - destruct (resize_and_create_are_routed (up 20) SessionHandler.Unavailable
                (resize_to "9007199254740993" nines)
                (<["cols" := "9007199254740993"]> (<["rows" := nines]> ∅))
                (Listeners.mkSession streaming [] []) connected_link eq_refl eq_refl)
      as [H _].
    rewrite (H eq_refl eq_refl); [|vm_compute; discriminate|vm_compute; discriminate].
    vm_compute. reflexivity.
Defined.

(** X14. When the link's socket closes, the 'disconnected' listener
    stops the capture loop before the link schedules its reconnect: no
    capture run stays pending, no tmux call is made, the handler keeps
    running, and the link is the one its own close handler leaves. *)
Theorem close_stops_capture (env : Env) (pane : SessionHandler.Pane) (code : Z)
    (reason : string) (s : Listeners.Session) (c : Relay.Client) :
  SessionHandler.wsClient (Listeners.handler s) = Some c ->
  let s' := Listeners.on_close env pane code reason s in
  SessionHandler.captureTimer (Listeners.handler s') = None /\
  SessionHandler.wsClient (Listeners.handler s')
    = Some (Relay.on_close env code reason c) /\
  SessionHandler.running (Listeners.handler s')
    = SessionHandler.running (Listeners.handler s) /\
  SessionHandler.lastScreen (Listeners.handler s')
    = SessionHandler.lastScreen (Listeners.handler s) /\
  Listeners.calls s' = Listeners.calls s /\
  Listeners.dropped s' = Listeners.dropped s.
Proof.
  intros Hw s'. split; [|split; [by apply on_close_link|]].
  - unfold s', Listeners.on_close. rewrite Hw. cbv zeta.
    unfold Listeners.listener, SessionHandler.stopScreenCapture, Listeners.set_link,
      Listeners.with_link.
    destruct s as [h cs ds]. by destruct h.
  - unfold s', Listeners.on_close. rewrite Hw. cbv zeta.
    unfold Listeners.listener, SessionHandler.stopScreenCapture, Listeners.set_link,
      Listeners.with_link.
    destruct s as [h cs ds]. by destruct h.
Qed.

Lemma close_stops_capture_witness :
  SessionHandler.captureTimer
    (Listeners.handler
       (Listeners.on_close (up 30) SessionHandler.Unavailable 1006 "gone"
          (Listeners.mkSession streaming [] [])))
  = None.
Proof.
  destruct (close_stops_capture (up 30) SessionHandler.Unavailable 1006 "gone"
              (Listeners.mkSession streaming [] []) connected_link eq_refl)
    as [H _].
  exact H.
Defined.

Section ScanAgain.
Import SessionHandler Runner.

Lemma start_new_tracked host tracked r l :
  (forall s, s ∈ l -> s ∈ tracked) -> start_new host tracked r l = r.
Proof.
  intros Hin. unfold start_new. induction l as [|x l IH]; [done|].
  cbn [foldl]. rewrite bool_decide_true by (apply Hin; set_solver).
  apply IH. intros s Hs. apply Hin. set_solver.
Qed.

Lemma stop_gone_current current r l :
  (forall s, s ∈ l -> s ∈ current) -> stop_gone current r l = r.
Proof.
  intros Hin. unfold stop_gone. induction l as [|x l IH]; [done|].
  cbn [foldl]. rewrite bool_decide_true by (apply Hin; set_solver).
  apply IH. intros s Hs. apply Hin. set_solver.
Qed.

(** A scan that lists exactly the tracked sessions changes nothing. *)
Lemma scan_same host names r :
  tmux_scanSessions host = Some names ->
  (forall s, s ∈ names <-> is_Some (handlers r !! s)) ->
  scanAndUpdateSessions host r = r.
Proof.
  intros Hscan Hsame. unfold scanAndUpdateSessions. rewrite Hscan.
  set (current := distinct [] names).
  fold (tracked_sessions r). set (tracked := tracked_sessions r).
  fold (start_new host tracked r current).
  rewrite start_new_tracked.
  - fold (stop_gone current r tracked). apply stop_gone_current.
    intros s Hs. unfold current. rewrite elem_of_distinct.
    split; [|set_solver]. apply Hsame. by apply elem_of_tracked.
  - intros s Hs. unfold current in Hs. rewrite elem_of_distinct in Hs.
    apply elem_of_tracked, Hsame. tauto.
Qed.

End ScanAgain.

(** X15. After a scan the tracked sessions are exactly the listed
    ones, and a further scan that lists the same sessions, in any order
    and with any repetition, changes nothing: no handler is started,
    stopped or replaced and nothing is logged. *)
Theorem scan_settles (host : Runner.Host) (names : list string)
    (r : Runner.AgentRunner) :
  Runner.tmux_scanSessions host = Some names ->
  let r' := Runner.scanAndUpdateSessions host r in
  (forall s, is_Some (Runner.handlers r' !! s) <-> s ∈ names) /\
  (forall host' names',
     Runner.tmux_scanSessions host' = Some names' ->
     (forall s, s ∈ names' <-> s ∈ names) ->
     Runner.scanAndUpdateSessions host' r' = r').
Proof.
  intros Hscan r'.
  assert (Htracked : forall s, is_Some (Runner.handlers r' !! s) <-> s ∈ names).
  { intros s. unfold r'. rewrite (proj1 (scan_spec host names r Hscan) s).
    case_bool_decide as Hin.
    - split; [done|]. intros _. by eexists.
    - split; [by intros ?%is_Some_None|done]. }
  split; [exact Htracked|].
  intros host' names' Hscan' Hsame. apply (scan_same host' names' r' Hscan').
  intros s. by rewrite Hsame, Htracked.
Qed.

Lemma scan_settles_witness :
  Runner.scanAndUpdateSessions (sees ["build"; "dev"; "dev"]) after_first_scan
  = after_first_scan.
Proof.
  destruct (scan_settles (sees ["dev"; "build"]) ["dev"; "build"] empty_runner eq_refl)
    as [_ H].
  apply (H (sees ["build"; "dev"; "dev"]) ["build"; "dev"; "dev"] eq_refl).
  intros s. set_solver.
Defined.

(** ** The executors and the command service *)

Section ShellText.
Import TmuxExecutor.

Lemma append_assoc (a b c : string) : (a +:+ b) +:+ c = a +:+ (b +:+ c).
Proof.
  induction a as [|x a IH]; [done|].
  change (String x ((a +:+ b) +:+ c) = String x (a +:+ (b +:+ c))). by rewrite IH.
Qed.

Lemma append_cons x (a b : string) : String x a +:+ b = String x (a +:+ b).
Proof. reflexivity. Qed.

Lemma append_nil_l (b : string) : "" +:+ b = b.
Proof. reflexivity. Qed.

Lemma append_nil_r (a : string) : a +:+ "" = a.
Proof.
  induction a as [|x a IH]; [done|].
  change (String x (a +:+ "") = String x a). by rewrite IH.
Qed.

Lemma length_append (a b : string) :
  String.length (a +:+ b) = (String.length a + String.length b)%nat.
Proof.
  induction a as [|x a IH]; [done|].
  change (S (String.length (a +:+ b)) = S (String.length a + String.length b)).
  by rewrite IH.
Qed.

Lemma replace_append c by_ a b :
  replace c by_ (a +:+ b) = replace c by_ a +:+ replace c by_ b.
Proof.
  induction a as [|x a IH]; [done|].
  change (String x a +:+ b) with (String x (a +:+ b)). cbn [replace].
  by rewrite IH, append_assoc.
Qed.

(** The characters escapeForShell puts a backslash before. *)
Definition special (a : ascii) : bool :=
  Ascii.eqb a Js.dquote || Ascii.eqb a dollar || Ascii.eqb a backtick.

(** One pass that escapes each special character where it stands. *)
Fixpoint escape_each (str : string) : string :=
  match str with
  | EmptyString => EmptyString
  | String a rest =>
      (if special a then escaped a else String a EmptyString) +:+ escape_each rest
  end.

Fixpoint count (p : ascii -> bool) (s : string) : nat :=
  match s with
  | EmptyString => 0
  | String a rest => (if p a then 1 else 0) + count p rest
  end.

Lemma escapeForShell_cons a rest :
  escapeForShell (String a rest) =
    (if special a then escaped a else String a EmptyString) +:+ escapeForShell rest.
Proof.
  unfold escapeForShell. cbn [replace]. rewrite !replace_append. f_equal.
  unfold special.
  destruct (Ascii.eqb_spec a Js.dquote) as [->|Hq]; [reflexivity|].
  destruct (Ascii.eqb_spec a dollar) as [->|Hd]; [reflexivity|].
  destruct (Ascii.eqb_spec a backtick) as [->|Hb]; [reflexivity|].
  apply Ascii.eqb_neq in Hd, Hb.
  cbn [replace]. rewrite Hd, append_nil_r. cbn [replace]. rewrite Hb. reflexivity.
Qed.

Lemma escapeForShell_one_pass str : escapeForShell str = escape_each str.
Proof.
  induction str as [|a rest IH]; [done|].
  rewrite escapeForShell_cons. cbn [escape_each]. by rewrite IH.
Qed.

Lemma allowed_not_special a :
  Runner.allowed a = true -> special a = false /\ Ascii.eqb a Js.backslash = false.
Proof.
  destruct a as [[] [] [] [] [] [] [] []]; vm_compute; intros H; by try discriminate H.
Qed.

Lemma sanitize_sanitize s : Runner.sanitize (Runner.sanitize s) = Runner.sanitize s.
Proof. apply sanitize_fixed, sanitize_allowed. Qed.

Lemma escape_each_plain s :
  all_chars (fun a => negb (special a)) s = true -> escape_each s = s.
Proof.
  induction s as [|a s IH]; [done|]. cbn [all_chars escape_each].
  intros [Ha Hs]%andb_true_iff. apply negb_true_iff in Ha. rewrite Ha, IH by done.
  reflexivity.
Qed.

Lemma allowed_plain s :
  all_chars Runner.allowed s = true ->
  all_chars (fun a => negb (special a)) s = true /\
  all_chars (fun a => negb (Ascii.eqb a Js.backslash)) s = true.
Proof.
  induction s as [|a s IH]; [done|]. cbn [all_chars].
  intros [Ha Hs]%andb_true_iff. destruct (IH Hs) as [H1 H2].
  destruct (allowed_not_special a Ha) as [-> ->]. by rewrite H1, H2.
Qed.

End ShellText.

(** X16. The chain of three replace calls of escapeForShell is one
    pass over the text: each double quote, dollar sign and backtick
    gets one backslash before it and every other character, the
    backslash included, is copied as it is. So the result is longer by
    the number of those three characters, and a text without them is
    unchanged. *)
Theorem escapeForShell_is_one_pass (str : string) :
  TmuxExecutor.escapeForShell str = escape_each str /\
  String.length (TmuxExecutor.escapeForShell str)
    = (String.length str + count special str)%nat /\
  (forall rest,
     TmuxExecutor.escapeForShell (String Js.backslash rest)
       = String Js.backslash (TmuxExecutor.escapeForShell rest)) /\
  (all_chars (fun a => negb (special a)) str = true ->
     TmuxExecutor.escapeForShell str = str).
Proof.
  split; [apply escapeForShell_one_pass|]. split; [|split].
  - rewrite escapeForShell_one_pass.
    induction str as [|a rest IH]; [done|]. cbn [escape_each count String.length].
    rewrite length_append, IH. destruct (special a); cbn; lia.
  - intros rest. by rewrite escapeForShell_cons.
  - intros Hp. rewrite escapeForShell_one_pass. by apply escape_each_plain.
Qed.

(** X17. The name the orchestrator hands to createSession is used as
    it is: sanitizing is idempotent, so the executor's own sanitizing
    changes nothing, the command is
    tmux new-session -d -s "<name>", the executor refuses no name the
    orchestrator lets through, and the name holds no double quote,
    dollar sign, backtick or backslash. *)
Theorem createSession_keeps_sanitized_name (name : string) :
  let sanitized := Runner.sanitize name in
  Runner.sanitize sanitized = sanitized /\
  (name <> "" ->
     TmuxExecutor.createSession_command sanitized None
       = Some ("tmux new-session -d -s " +:+ TmuxExecutor.in_dquotes sanitized)) /\
  (TmuxExecutor.createSession_command name None = None <-> name = "") /\
  TmuxExecutor.escapeForShell sanitized = sanitized /\
  all_chars (fun a => negb (Ascii.eqb a Js.backslash)) sanitized = true.
Proof.
  intros sanitized. unfold sanitized.
  destruct (allowed_plain _ (sanitize_allowed name)) as [Hplain Hback].
  split; [apply sanitize_sanitize|]. split; [|split; [|split]].
  - intros Hne. unfold TmuxExecutor.createSession_command. rewrite sanitize_sanitize.
    destruct (String.eqb_spec (Runner.sanitize name) "") as [He|_]; [|done].
    destruct Hne. apply (proj1 (sanitize_empty name)). exact He.
  - unfold TmuxExecutor.createSession_command.
    destruct (String.eqb_spec (Runner.sanitize name) "") as [He|Hne].
    + pose proof (proj1 (sanitize_empty name) He) as Hn. by split.
    + split; [done|]. intros ->. by destruct Hne.
  - rewrite escapeForShell_one_pass. by apply escape_each_plain.
  - exact Hback.
Qed.

Section CapturedText.
Import TmuxExecutor.

(** Every line feed comes right after a carriage return; [prev] is the
    character before the text. *)
Fixpoint lf_after_cr (prev : ascii) (s : string) : bool :=
  match s with
  | EmptyString => true
  | String a rest =>
      (negb (Ascii.eqb a LF) || Ascii.eqb prev CR) && lf_after_cr a rest
  end.

Definition is_LF (a : ascii) : bool := Ascii.eqb a LF.

Lemma capturePane_text_lf prev output :
  lf_after_cr prev (capturePane_text output) = true.
Proof.
  unfold capturePane_text. revert prev.
  induction output as [|a rest IH]; intros prev; [done|]. cbn [replace].
  destruct (Ascii.eqb_spec a LF) as [->|Hne].
  - rewrite !append_cons, append_nil_l. cbn [lf_after_cr].
    rewrite IH. reflexivity.
  - rewrite append_cons, append_nil_l. cbn [lf_after_cr].
    apply Ascii.eqb_neq in Hne. rewrite Hne. cbn [negb orb andb]. apply IH.
Qed.

End CapturedText.

(** X18. In the text capturePane returns, every line feed of the tmux
    output has become carriage return + line feed: each line feed
    follows a carriage return, the text is longer by the number of line
    feeds, and a one-line output is unchanged. *)
Theorem capturePane_lines_end_in_crlf (prev : ascii) (output : string) :
  lf_after_cr prev (TmuxExecutor.capturePane_text output) = true /\
  String.length (TmuxExecutor.capturePane_text output)
    = (String.length output + count is_LF output)%nat /\
  (count is_LF output = 0%nat -> TmuxExecutor.capturePane_text output = output).
Proof.
  split; [apply capturePane_text_lf|]. unfold TmuxExecutor.capturePane_text. split.
  - induction output as [|a rest IH]; [done|].
    cbn [TmuxExecutor.replace count String.length]. rewrite length_append, IH.
    unfold is_LF. destruct (Ascii.eqb a TmuxExecutor.LF); cbn; lia.
  - induction output as [|a rest IH]; [done|].
    cbn [TmuxExecutor.replace count]. unfold is_LF in *.
    destruct (Ascii.eqb a TmuxExecutor.LF); [done|].
    intros H. rewrite append_cons, append_nil_l. by rewrite (IH H).
Qed.

Section ExecGate.
Import ExecService.

Lemma prefix_append p suffix : String.prefix p (p +:+ suffix) = true.
Proof.
  induction p as [|a p IH]; [by destruct suffix|].
  rewrite append_cons. cbn [String.prefix].
  destruct (Ascii.ascii_dec a a); [exact IH|done].
Qed.

Lemma some_prefix regexp_test command before p after :
  String.prefix p command = true ->
  (forall q, q ∈ before -> exists b, matches regexp_test command q = Js.Return b) ->
  some (matches regexp_test command) (before ++ p :: after) = Js.Return true.
Proof.
  intros Hp. induction before as [|q before IH]; intros Hq.
  - cbn. unfold matches. by rewrite Hp.
  - cbn. destruct (Hq q) as [b Hb]; [set_solver|]. rewrite Hb.
    destruct b; [done|]. apply IH. intros q' Hq'. apply Hq. set_solver.
Qed.

End ExecGate.

(** X19. What the command service lets run. A disabled service refuses
    every command, whatever its allow list; an enabled service without
    allow list, or with an empty one, lets every command run; with an
    allow list, a command that begins with one of the patterns runs,
    whatever follows the pattern in the command, provided no earlier
    pattern fails to compile. *)
Theorem allow_list_is_prefix_based
    (regexp_test : string -> string -> Js.outcome bool)
    (config : ExecService.ExecConfig) (command : string) :
  (ExecService.enabled config = false ->
     ExecService.gate regexp_test config command =
       Js.Return (ExecService.Refuse
         (ExecService.mkResult (-1) "" "Command execution is disabled on this agent" 0))) /\
  (ExecService.enabled config = true ->
     ExecService.allowedCommands config = None \/
     ExecService.allowedCommands config = Some [] ->
     ExecService.gate regexp_test config command = Js.Return ExecService.Run) /\
  (forall before p after suffix,
     ExecService.enabled config = true ->
     ExecService.allowedCommands config = Some (before ++ p :: after) ->
     command = p +:+ suffix ->
     (forall q, q ∈ before ->
        exists b, ExecService.matches regexp_test command q = Js.Return b) ->
     ExecService.gate regexp_test config command = Js.Return ExecService.Run).
Proof.
  unfold ExecService.gate. split; [|split].
  - by intros ->.
  - intros -> [-> | ->]; done.
  - intros before p after suffix -> -> -> Hq. cbn [negb].
    assert (Hsome := some_prefix regexp_test (p +:+ suffix) before p after
                       (prefix_append p suffix) Hq).
    destruct (before ++ p :: after) as [|x l] eqn:Hl.
    + by destruct before.
    + cbv beta iota zeta. by rewrite Hsome.
Qed.

Lemma allow_list_is_prefix_based_witness :
  ExecService.gate (fun _ _ => Js.Return false)
    (ExecService.mkExecConfig true "/bin/bash" None (Some ["git status"; "ls"]) 30000)
    "ls; rm -rf ~"
  = Js.Return ExecService.Run.
Proof.
  destruct (allow_list_is_prefix_based (fun _ _ => Js.Return false)
              (ExecService.mkExecConfig true "/bin/bash" None
                 (Some ["git status"; "ls"]) 30000)
              "ls; rm -rf ~") as (_ & _ & H).
  apply (H ["git status"] "ls" [] "; rm -rf ~"); try reflexivity.
  intros q Hq. unfold ExecService.matches.
  destruct (String.prefix q _); by eexists.
Defined.

(** ** The control channel's requests *)

Section Requests.
Import Runtime Api ApiClient.

Lemma api_up_act env a c id : api_up env c id -> api_up env (act a c) id.
Proof. intros Hup. exact Hup. Qed.

(** A reply goes out on an open channel; on a channel that is not up
    it is dropped. *)
Lemma sendApiResponse_down env rid response c :
  (forall id, ~ api_up env c id) -> sendApiResponse env rid response c = c.
Proof.
  intros Hdown. unfold sendApiResponse, send.
  destruct (ws c) as [id|] eqn:Hw; [|done].
  destruct (socket_state id (sockets c)) as [[]|] eqn:Hs; try done.
  destruct (ws_send_ok env) eqn:Hok; [|done]. by destruct (Hdown id).
Qed.

(** What one request leaves in the trace: calls of the capability,
    then at most one frame. *)
Definition answered (env : Env) (rid : string) (c c' : Client) : Prop :=
  exists made response,
    (made = [] \/ exists target keys enter, made = [TmuxSendKeys target keys enter]) /\
    (forall id, api_up env c id ->
       c' = act (WsSend id (api_response rid response)) (foldl (fun c a => act a c) c made)) /\
    ((forall id, ~ api_up env c id) -> c' = foldl (fun c a => act a c) c made).

Lemma answered_reply env rid response c :
  answered env rid c (sendApiResponse env rid response c).
Proof.
  exists [], response. split; [by left|]. split.
  - intros id Hup. by apply sendApiResponse_up.
  - intros Hdown. by apply sendApiResponse_down.
Qed.

Lemma answered_call_reply env rid response target keys enter c :
  answered env rid c
    (sendApiResponse env rid response (act (TmuxSendKeys target keys enter) c)).
Proof.
  exists [TmuxSendKeys target keys enter], response. split; [right; by eauto|]. split.
  - intros id Hup. by apply sendApiResponse_up.
  - intros Hdown. apply sendApiResponse_down. intros id Hup. by apply (Hdown id).
Qed.

Lemma with_requestId_request message m rid body c :
  meta message = Some m -> m !! "requestId" = Some rid -> rid <> "" ->
  with_requestId message body c = body rid m c.
Proof.
  intros Hm Hrid Hne. unfold with_requestId. rewrite Hm, Hrid. cbn.
  by destruct (String.eqb_spec rid "").
Qed.

Lemma with_requestId_none message body c :
  (meta message = None \/
   exists m, meta message = Some m /\ truthy (m !! "requestId") = false) ->
  with_requestId message body c = c.
Proof.
  unfold with_requestId. intros [-> | (m & -> & ->)]; done.
Qed.

Lemma handleSendKeys_none svc env message c :
  (meta message = None \/
   exists m, meta message = Some m /\ truthy (m !! "requestId") = false) ->
  handleSendKeys svc env message c = c.
Proof.
  unfold handleSendKeys. intros [-> | (m & -> & ->)]; done.
Qed.

Lemma handleSendKeys_answered svc env message m rid c :
  meta message = Some m -> m !! "requestId" = Some rid -> rid <> "" ->
  answered env rid c (handleSendKeys svc env message c).
Proof.
  intros Hm Hrid Hne.
  rewrite (handleSendKeys_request svc env message m rid c Hm Hrid Hne).
  unfold trySendKeys.
  destruct (if truthy (m !! "payload") then _ else _) as [body|msg];
    [|apply answered_reply].
  destruct (Js.get body "target") as [target|]; [|apply answered_reply].
  destruct (Js.get body "keys") as [keys|]; [|apply answered_reply].
  destruct (Js.get body "enter") as [enter|]; [|apply answered_reply].
  destruct (_ || _); [apply answered_reply|].
  destruct (negb _); [apply answered_reply|].
  destruct (tmux_sendKeys svc _ _ _); apply answered_call_reply.
Qed.

Lemma handleExec_answered svc b env message m rid c :
  meta message = Some m -> m !! "requestId" = Some rid -> rid <> "" ->
  answered env rid c (handleExec svc b env message c).
Proof.
  intros Hm Hrid Hne. unfold handleExec.
  rewrite (with_requestId_request message m rid _ c Hm Hrid Hne).
  destruct (parse_payload svc m) as [body|msg]; [|apply answered_reply].
  destruct (Js.get body "command"); [|apply answered_reply].
  destruct (Js.get body "cwd"); [|apply answered_reply].
  destruct (Js.get body "timeout"); [|apply answered_reply].
  destruct (Js.get body "sessionId"); [|apply answered_reply].
  destruct (negb _); [apply answered_reply|].
  destruct (executeCommand b _ _ _ _); apply answered_reply.
Qed.

Lemma handleLlmChat_answered svc b env message m rid c :
  meta message = Some m -> m !! "requestId" = Some rid -> rid <> "" ->
  answered env rid c (handleLlmChat svc b env message c).
Proof.
  intros Hm Hrid Hne. unfold handleLlmChat.
  rewrite (with_requestId_request message m rid _ c Hm Hrid Hne).
  destruct (parse_payload svc m) as [body|msg]; [|apply answered_reply].
  destruct (Js.get body "model"); [|apply answered_reply].
  destruct (Js.get body "messages"); [|apply answered_reply].
  destruct (Js.get body "temperature"); [|apply answered_reply].
  destruct (Js.get body "max_tokens"); [|apply answered_reply].
  destruct (Js.get body "stream"); [|apply answered_reply].
  destruct (negb _); [apply answered_reply|].
  destruct (llm_chat b _ _ _ _ _); apply answered_reply.
Qed.

Lemma handleListSessions_answered b env message m rid c :
  meta message = Some m -> m !! "requestId" = Some rid -> rid <> "" ->
  answered env rid c (handleListSessions b env message c).
Proof.
  intros Hm Hrid Hne. unfold handleListSessions.
  rewrite (with_requestId_request message m rid _ c Hm Hrid Hne).
  destruct (tmux_listSessions b); apply answered_reply.
Qed.

Definition is_request (message : Message) : bool :=
  String.eqb (type message) "exec" || String.eqb (type message) "llm_chat"
  || String.eqb (type message) "send_keys" || String.eqb (type message) "list_sessions".

End Requests.

(** X20. Every request is answered once. An exec, llm_chat, send_keys
    or list_sessions message that carries a requestId leaves, on a
    channel that is up, exactly one api_response frame with that
    requestId, after at most one call of tmux.sendKeys, whatever the
    payload is and whether or not a service throws; on a channel that
    is not up the reply is dropped and not queued. A message of another
    type, or without meta or requestId, changes nothing. *)
Theorem every_request_answered_once (svc : Api.Services) (b : ApiClient.Backends)
    (env : Env) (message : Message) (c : Api.Client) :
  let c' := ApiClient.handleMessage svc b env message c in
  (forall m rid,
     is_request message = true -> meta message = Some m ->
     m !! "requestId" = Some rid -> rid <> "" ->
     exists made response,
       (made = [] \/
        exists target keys enter, made = [Api.TmuxSendKeys target keys enter]) /\
       (forall id, api_up env c id ->
          Api.trace c' =
            Api.trace c ++ made ++ [Api.WsSend id (Api.api_response rid response)]) /\
       ((forall id, ~ api_up env c id) -> Api.trace c' = Api.trace c ++ made)) /\
  (is_request message = false \/ meta message = None \/
   (exists m, meta message = Some m /\ truthy (m !! "requestId") = false) ->
   c' = c).
Proof.
  intros c'. unfold c', ApiClient.handleMessage, is_request. split.
  - intros m rid Hreq Hm Hrid Hne.
    assert (Ha : answered env rid c
              (if String.eqb (type message) "exec"
               then ApiClient.handleExec svc b env message c
               else if String.eqb (type message) "llm_chat"
               then ApiClient.handleLlmChat svc b env message c
               else if String.eqb (type message) "send_keys"
               then Api.handleSendKeys svc env message c
               else if String.eqb (type message) "list_sessions"
               then ApiClient.handleListSessions b env message c
               else c)).
    { destruct (String.eqb (type message) "exec"); [by eapply handleExec_answered|].
      destruct (String.eqb (type message) "llm_chat");
        [by eapply handleLlmChat_answered|].
      destruct (String.eqb (type message) "send_keys");
        [by eapply handleSendKeys_answered|].
      destruct (String.eqb (type message) "list_sessions");
        [by eapply handleListSessions_answered|done]. }
    destruct Ha as (made & response & Hmade & Hup & Hdown).
    exists made, response. split; [exact Hmade|]. split.
    + intros id Hid. rewrite (Hup id Hid).
      destruct Hmade as [-> | (t & k & e & ->)]; cbn; by rewrite <- ?app_assoc.
    + intros Hno. rewrite (Hdown Hno).
      destruct Hmade as [-> | (t & k & e & ->)]; cbn; by rewrite ?app_nil_r.
  - intros Hcase.
    destruct (String.eqb (type message) "exec") eqn:H1.
    { destruct Hcase as [Hreq | Hnone]; [done|].
      by apply with_requestId_none. }
    destruct (String.eqb (type message) "llm_chat") eqn:H2.
    { destruct Hcase as [Hreq | Hnone]; [done|].
      by apply with_requestId_none. }
    destruct (String.eqb (type message) "send_keys") eqn:H3.
    { destruct Hcase as [Hreq | Hnone]; [done|].
      by apply handleSendKeys_none. }
    destruct (String.eqb (type message) "list_sessions") eqn:H4; [|done].
    destruct Hcase as [Hreq | Hnone]; [done|].
    by apply with_requestId_none.
Qed.

Section TwoSchedulers.
Import Runtime.

(** What the reconnect logic of either client reads and writes. *)
Record Backoff := mkBackoff {
  b_attempts : Z;
  b_open : bool;
  b_resetTime : Z;
  b_reconnectTimer : option nat;
  b_destroyed : bool;
  b_timers : list Timer;
  b_next_id : nat
}.

Definition relay_backoff (c : Relay.Client) : Backoff :=
  mkBackoff (Relay.reconnectAttempts c) (Relay.circuitBreakerOpen c)
    (Relay.circuitBreakerResetTime c) (Relay.reconnectTimer c) (Relay.destroyed c)
    (Relay.timers c) (Relay.next_id c).

Definition api_backoff (c : Api.Client) : Backoff :=
  mkBackoff (Api.reconnectAttempts c) (Api.circuitBreakerOpen c)
    (Api.circuitBreakerResetTime c) (Api.reconnectTimer c) (Api.destroyed c)
    (Api.timers c) (Api.next_id c).

End TwoSchedulers.

(** X21. The two copies of scheduleReconnect agree: from clients with
    the same attempt counter, breaker state, timers and destroyed flag,
    the relay link and the control channel reach the same ones, with
    the same timer, callback and delay. *)
Theorem schedulers_agree (env : Env) (r : Relay.Client) (a : Api.Client) :
  relay_backoff r = api_backoff a ->
  relay_backoff (Relay.scheduleReconnect env r)
    = api_backoff (Api.scheduleReconnect env a).
Proof.
  destruct r as [o w ar ic ra co rt tm d ss ts nx ex tr].
  destruct a as [rl mi tk ag w' ic' ra' co' rt' tm' d' ss' ts' nx' tr'].
  unfold relay_backoff, api_backoff. cbn. intros [= -> -> -> -> -> -> ->].
  assert (Hdelay : forall n, Api.reconnectDelay n (Math_random env)
                             = Relay.reconnectDelay n (Math_random env))
    by (intros n; apply api_reconnectDelay_same).
  unfold Relay.scheduleReconnect, Api.scheduleReconnect.
  cbn [Relay.destroyed Api.destroyed Relay.circuitBreakerOpen
       Api.circuitBreakerOpen Relay.circuitBreakerResetTime
       Api.circuitBreakerResetTime].
  destruct d'; [reflexivity|].
  destruct (co' && (Date_now env <? rt')); [reflexivity|].
  unfold Relay.MAX_RECONNECT_ATTEMPTS, Api.MAX_RECONNECT_ATTEMPTS.
  destruct co';
    cbn [Relay.reconnectAttempts Api.reconnectAttempts Relay.set_reconnectAttempts
         Api.set_reconnectAttempts Relay.set_circuitBreakerOpen
         Api.set_circuitBreakerOpen].
  - change (5 <? 0 + 1) with false. cbv iota.
    specialize (Hdelay (0 + 1)).
    set (x := Api.reconnectDelay _ _) in *. set (y := Relay.reconnectDelay _ _) in *.
    clearbody x y. subst y. reflexivity.
  - destruct (5 <? ra' + 1); [reflexivity|].
    specialize (Hdelay (ra' + 1)).
    set (x := Api.reconnectDelay _ _) in *. set (y := Relay.reconnectDelay _ _) in *.
    clearbody x y. subst y. reflexivity.
Qed.

Lemma schedulers_agree_witness :
  relay_backoff (Relay.scheduleReconnect (quiet 0 (2 ^ 52)) idle_relay)
  = api_backoff (Api.scheduleReconnect (quiet 0 (2 ^ 52)) idle_api).
Proof. exact (schedulers_agree (quiet 0 (2 ^ 52)) idle_relay idle_api eq_refl). Defined.

Section ApiStart.
Import ApiClient.


End ApiStart.



